(** * The adaptive training controller of [demo.py]

    A shallow embedding of [Trainer.__init__], [Trainer.train],
    [Trainer.train_step] and [Trainer.train_step_3dgs].

    Python [float] is IEEE binary64 and is modelled by Rocq's primitive
    floats; Python [int] is [Z].  The collaborators the script imports
    ([model], [render], [utils], [viser], [torch]) are an interface
    ([Externals]); every call the controller makes on them is recorded, in
    program order, in the list of events a computation returns. *)

From Stdlib Require Import ZArith List Bool PrimFloat Ascii String.
From stdpp Require Import base gmap strings pretty list.
Import ListNotations.

Set Warnings "-inexact-float".
Set Default Proof Using "Type".
Open Scope Z_scope.

Declare Scope py_scope.
Delimit Scope py_scope with py.
Reserved Notation "x <- m ;; k"
  (at level 100, m at next level, right associativity).
Reserved Notation "m ;; k" (at level 100, right associativity).

(** ** Configuration objects *)

(** [OptimizationParams] as the controller reads it (and writes
    [position_lr_init]). *)
Record OptArgs := {
  iterations : Z;
  position_lr_init : float;
  lambda_dssim : float;
  densify_until_iter : Z;
  densification_interval : Z;
  densify_from_iter : Z;
  opacity_reset_interval : Z;
  densify_grad_threshold : float;
  random_background : bool;
  optimizer_type : string
}.

Definition set_position_lr_init (v : float) (a : OptArgs) : OptArgs :=
  {| iterations := iterations a; position_lr_init := v;
     lambda_dssim := lambda_dssim a;
     densify_until_iter := densify_until_iter a;
     densification_interval := densification_interval a;
     densify_from_iter := densify_from_iter a;
     opacity_reset_interval := opacity_reset_interval a;
     densify_grad_threshold := densify_grad_threshold a;
     random_background := random_background a;
     optimizer_type := optimizer_type a |}.

(** [PipelineParams]. *)
Record PipeArgs := {
  mode2_iters : Z;
  fix_iters : Z;
  log_blur_radius_tex : float;
  edge_threshold : float;
  grad_threshold : float;
  vis_threshold : float;
  area_threshold : float;
  debug : bool
}.

Definition set_debug (v : bool) (p : PipeArgs) : PipeArgs :=
  {| mode2_iters := mode2_iters p; fix_iters := fix_iters p;
     log_blur_radius_tex := log_blur_radius_tex p;
     edge_threshold := edge_threshold p; grad_threshold := grad_threshold p;
     vis_threshold := vis_threshold p; area_threshold := area_threshold p;
     debug := v |}.

(** [ModelParams]. *)
Record DataArgs := {
  data_model_path : string;
  order : Z;
  sh_degree : Z;
  white_background : bool;
  colmap_scale : float
}.

(** ** The collaborators *)

Class Externals := {
  (** scalar tensors (losses), images, renderer buffers *)
  Tensor : Type;
  Image : Type;
  DebugInfo : Type;
  Edges : Type;
  RenderPkg : Type;
  Camera : Type;
  Client : Type;
  Background : Type;
  (** [model.BPrimitiveBezier], [model.GaussianModel], and what
      [capture()] returns *)
  BPrim : Type;
  Gauss : Type;
  Snapshot : Type;

  item : Tensor -> float;
  t_lerp : Tensor -> Tensor -> float -> Tensor;
  t_rsub : float -> Tensor -> Tensor;
  t_smul : float -> Tensor -> Tensor;
  t_add : Tensor -> Tensor -> Tensor;
  mse_loss : Image -> Image -> Tensor;
  l1_loss : Image -> Image -> Tensor;
  ssim : Image -> Image -> Tensor;

  original_image : Camera -> Image;
  flip12 : Image -> Image;
  view_camera : Client -> Camera -> Image -> Camera;
  solid_background : bool -> Background;

  renderer : BPrim -> Camera -> Background -> Z -> float -> float -> string
             -> Image * DebugInfo;
  render_3dgs : Camera -> Gauss -> Background -> RenderPkg;
  pkg_render : RenderPkg -> Image;
  edge_statistics : Image -> DebugInfo -> Edges;

  bp_new : DataArgs -> OptArgs -> BPrim;
  bp_mode : Z -> BPrim -> bool * BPrim;
  bp_boundary_mode : BPrim -> Z;
  bp_num_primitives : BPrim -> Z;
  bp_control_point_size : BPrim -> Z;
  bp_capture : BPrim -> Snapshot;
  gs_new : Gauss;
  gs_xyz_size : Gauss -> Z;

  (** lines 9-13: whether [torch.utils.tensorboard] could be imported *)
  TENSORBOARD_FOUND : bool
}.

(** ** Exceptions and results *)

Inductive exn :=
| ZeroDivisionError
| UnboundLocalError (name : string)
| ValueError
| FileNotFoundError (path : string).

Inductive res (A : Type) :=
| Ok (a : A)
| Raise (e : exn).
Arguments Ok {A} a.
Arguments Raise {A} e.

Section Controller.
Context {X : Externals}.

(** *** Calls on the primitive population

    [BpMode k] is [bprimitive_object.mode(k)]; its truth value and its
    effect are [bp_mode].  All other calls return nothing the controller
    looks at; their effect on the object is [bp_exec] below. *)
Inductive bp_call :=
| BpMode (k : Z)
| BpRestore (s : Snapshot) (a : OptArgs)
| BpCreateFeatureTexture
| BpSetActiveShDegree (d : Z)
| BpTrainingSetup (a : OptArgs) (lr : option float)
| BpUpdateLearningRate (it : Z)
| BpOneUpShDegree
| BpBackward (loss : Tensor)
| BpAddDensificationStatsV3
| BpAddDensificationStatsV4 (d : DebugInfo)
| BpAddDensificationStatsV2 (e : Edges) (d : DebugInfo)
| BpOptimizerStep
| BpZeroGrad (set_to_none : bool)
| BpDensifyAndPrune (edge grad vis area : float).

(** *** Calls on the baseline point model *)
Inductive gs_call :=
| GsUpdateLearningRate (it : Z)
| GsOneUpSHDegree
| GsBackward (loss : Tensor)
| GsTrackMaxRadii (p : RenderPkg)
| GsAddDensificationStats (p : RenderPkg)
| GsDensifyAndPrune (grad min_opacity extent : float) (size_threshold : option Z)
| GsResetOpacity
| GsOptimizerStep
| GsZeroGrad (set_to_none : bool)
| GsSavePointcloud (scale : float).

(** What is handed to [client.scene.set_background_image]. *)
Inductive view_output :=
| VDepth (d : DebugInfo)
| VSegmentation (d : DebugInfo)
| VColoredBoundary (d : DebugInfo)
| VColoredUVW (d : DebugInfo)
| VDebug (img : Image)
| VGT (img : Image)
| VSurfaceNormal (d : DebugInfo)
| VDepthNormal (d : DebugInfo)
| VAccumGrad (d : DebugInfo) (threshold : float)
| VAccumEdge (d : DebugInfo) (threshold : float)
| VAccumVis (d : DebugInfo) (threshold : float)
| VEdges (e : Edges).

(** *** Everything observable from outside, in program order *)
Inductive event :=
| EvBP (c : bp_call)
| EvGS (c : gs_call)
| EvRenderer (slider : float) (render_type : string) (img : Image)
| EvRender3dgs (p : RenderPkg)
| EvProgressPostfix (ema : float)
| EvProgressUpdate (n : Z)
| EvProgressClose
| EvWandbLog (ema : float) (num_primitives : Z)
| EvTrainingReport (it : Z) (photometric loss : Tensor)
| EvPrint (msg : string)
| EvSave (path : string) (s : Snapshot) (it : Z)
| EvSetBackgroundImage (o : option view_output)
| EvEmptyCache
| EvTryConnect.

(** ** The mutable world *)

(** The [server] dictionary of the control channel. [attached] is
    [server["server"] is not None]; [num_primtives] is the text widget the
    controller hangs on it; [gui_render_type] is what
    [network_gui.on_gui_change()] returns. *)
Record Server := {
  attached : bool;
  num_primtives : option string;
  client : Client;
  mode : Z;
  slider_boundary_scale : float;
  checkbox_split : bool;
  checkbox_pts_mode : bool;
  button_train_state : bool;
  button_optimize_state : bool;
  num_segments_per_bprimitive_edge : Z;
  gaussian_scale : float;
  learning_rate : float;
  wandb : bool;
  render_type : string;
  gui_render_type : string
}.

Definition set_attached (v : bool) (s : Server) : Server :=
  {| attached := v; num_primtives := num_primtives s; client := client s;
     mode := mode s; slider_boundary_scale := slider_boundary_scale s;
     checkbox_split := checkbox_split s;
     checkbox_pts_mode := checkbox_pts_mode s;
     button_train_state := button_train_state s;
     button_optimize_state := button_optimize_state s;
     num_segments_per_bprimitive_edge := num_segments_per_bprimitive_edge s;
     gaussian_scale := gaussian_scale s; learning_rate := learning_rate s;
     wandb := wandb s; render_type := render_type s;
     gui_render_type := gui_render_type s |}.

Definition set_num_primtives (v : option string) (s : Server) : Server :=
  {| attached := attached s; num_primtives := v; client := client s;
     mode := mode s; slider_boundary_scale := slider_boundary_scale s;
     checkbox_split := checkbox_split s;
     checkbox_pts_mode := checkbox_pts_mode s;
     button_train_state := button_train_state s;
     button_optimize_state := button_optimize_state s;
     num_segments_per_bprimitive_edge := num_segments_per_bprimitive_edge s;
     gaussian_scale := gaussian_scale s; learning_rate := learning_rate s;
     wandb := wandb s; render_type := render_type s;
     gui_render_type := gui_render_type s |}.

Definition set_mode (v : Z) (s : Server) : Server :=
  {| attached := attached s; num_primtives := num_primtives s;
     client := client s;
     mode := v; slider_boundary_scale := slider_boundary_scale s;
     checkbox_split := checkbox_split s;
     checkbox_pts_mode := checkbox_pts_mode s;
     button_train_state := button_train_state s;
     button_optimize_state := button_optimize_state s;
     num_segments_per_bprimitive_edge := num_segments_per_bprimitive_edge s;
     gaussian_scale := gaussian_scale s; learning_rate := learning_rate s;
     wandb := wandb s; render_type := render_type s;
     gui_render_type := gui_render_type s |}.

Definition set_slider_boundary_scale (v : float) (s : Server) : Server :=
  {| attached := attached s; num_primtives := num_primtives s;
     client := client s;
     mode := mode s; slider_boundary_scale := v;
     checkbox_split := checkbox_split s;
     checkbox_pts_mode := checkbox_pts_mode s;
     button_train_state := button_train_state s;
     button_optimize_state := button_optimize_state s;
     num_segments_per_bprimitive_edge := num_segments_per_bprimitive_edge s;
     gaussian_scale := gaussian_scale s; learning_rate := learning_rate s;
     wandb := wandb s; render_type := render_type s;
     gui_render_type := gui_render_type s |}.

Definition set_checkbox_split (v : bool) (s : Server) : Server :=
  {| attached := attached s; num_primtives := num_primtives s;
     client := client s;
     mode := mode s; slider_boundary_scale := slider_boundary_scale s;
     checkbox_split := v;
     checkbox_pts_mode := checkbox_pts_mode s;
     button_train_state := button_train_state s;
     button_optimize_state := button_optimize_state s;
     num_segments_per_bprimitive_edge := num_segments_per_bprimitive_edge s;
     gaussian_scale := gaussian_scale s; learning_rate := learning_rate s;
     wandb := wandb s; render_type := render_type s;
     gui_render_type := gui_render_type s |}.

(** The fields of [self]. *)
Record Trainer := {
  first_iter : Z;
  ema_loss_for_log : float;
  dataset_args : DataArgs;
  optimzer_args : OptArgs;
  pipeline_args : PipeArgs;
  bprimitive_object : BPrim;
  gaussian_ori : Gauss;
  background : Background;
  train_cameras : list Camera;
  cameras_extent : float;
  model_path : string
}.

Definition set_first_iter (v : Z) (t : Trainer) : Trainer :=
  {| first_iter := v; ema_loss_for_log := ema_loss_for_log t;
     dataset_args := dataset_args t; optimzer_args := optimzer_args t;
     pipeline_args := pipeline_args t;
     bprimitive_object := bprimitive_object t;
     gaussian_ori := gaussian_ori t; background := background t;
     train_cameras := train_cameras t; cameras_extent := cameras_extent t;
     model_path := model_path t |}.

Definition set_ema_loss_for_log (v : float) (t : Trainer) : Trainer :=
  {| first_iter := first_iter t; ema_loss_for_log := v;
     dataset_args := dataset_args t; optimzer_args := optimzer_args t;
     pipeline_args := pipeline_args t;
     bprimitive_object := bprimitive_object t;
     gaussian_ori := gaussian_ori t; background := background t;
     train_cameras := train_cameras t; cameras_extent := cameras_extent t;
     model_path := model_path t |}.

Definition set_optimzer_args (v : OptArgs) (t : Trainer) : Trainer :=
  {| first_iter := first_iter t; ema_loss_for_log := ema_loss_for_log t;
     dataset_args := dataset_args t; optimzer_args := v;
     pipeline_args := pipeline_args t;
     bprimitive_object := bprimitive_object t;
     gaussian_ori := gaussian_ori t; background := background t;
     train_cameras := train_cameras t; cameras_extent := cameras_extent t;
     model_path := model_path t |}.

Definition set_pipeline_args (v : PipeArgs) (t : Trainer) : Trainer :=
  {| first_iter := first_iter t; ema_loss_for_log := ema_loss_for_log t;
     dataset_args := dataset_args t; optimzer_args := optimzer_args t;
     pipeline_args := v;
     bprimitive_object := bprimitive_object t;
     gaussian_ori := gaussian_ori t; background := background t;
     train_cameras := train_cameras t; cameras_extent := cameras_extent t;
     model_path := model_path t |}.

Definition set_bprimitive_object (v : BPrim) (t : Trainer) : Trainer :=
  {| first_iter := first_iter t; ema_loss_for_log := ema_loss_for_log t;
     dataset_args := dataset_args t; optimzer_args := optimzer_args t;
     pipeline_args := pipeline_args t;
     bprimitive_object := v;
     gaussian_ori := gaussian_ori t; background := background t;
     train_cameras := train_cameras t; cameras_extent := cameras_extent t;
     model_path := model_path t |}.

Definition set_gaussian_ori (v : Gauss) (t : Trainer) : Trainer :=
  {| first_iter := first_iter t; ema_loss_for_log := ema_loss_for_log t;
     dataset_args := dataset_args t; optimzer_args := optimzer_args t;
     pipeline_args := pipeline_args t;
     bprimitive_object := bprimitive_object t;
     gaussian_ori := v; background := background t;
     train_cameras := train_cameras t; cameras_extent := cameras_extent t;
     model_path := model_path t |}.

(** The world: the control channel, the trainer object and the checkpoint
    files ([torch.save] / [torch.load]). *)
Record World := {
  server : Server;
  self : Trainer;
  files : gmap string (Snapshot * Z)
}.

Definition set_server (f : Server -> Server) (w : World) : World :=
  {| server := f (server w); self := self w; files := files w |}.
Definition set_self (f : Trainer -> Trainer) (w : World) : World :=
  {| server := server w; self := f (self w); files := files w |}.
Definition set_files (f : gmap string (Snapshot * Z) -> gmap string (Snapshot * Z))
    (w : World) : World :=
  {| server := server w; self := self w; files := f (files w) |}.

(** ** Computations: state, exceptions, events *)

(** A computation maps the world to its result, the new world (mutations
    survive an exception, as in Python) and the events it produced. *)
Definition M (A : Type) : Type := World -> res A * World * list event.

Definition ret {A} (a : A) : M A := fun w => (Ok a, w, []).

Definition bind {A B} (m : M A) (k : A -> M B) : M B := fun w =>
  match m w with
  | (Ok a, w1, e1) =>
      match k a w1 with
      | (r, w2, e2) => (r, w2, e1 ++ e2)
      end
  | (Raise x, w1, e1) => (Raise x, w1, e1)
  end.

Notation "x <- m ;; k" := (bind m (fun x => k)) : py_scope.
Notation "m ;; k" := (bind m (fun _ => k)) : py_scope.
Local Open Scope py_scope.

Definition raise {A} (x : exn) : M A := fun w => (Raise x, w, []).
Definition get : M World := fun w => (Ok w, w, []).
Definition modify (f : World -> World) : M unit := fun w => (Ok tt, f w, []).
Definition emit (e : event) : M unit := fun w => (Ok tt, w, [e]).
Definition when (b : bool) (m : M unit) : M unit := if b then m else ret tt.

Definition result {A} (o : res A * World * list event) : res A := fst (fst o).
Definition world {A} (o : res A * World * list event) : World := snd (fst o).
Definition events {A} (o : res A * World * list event) : list event := snd o.

(** ** Calls on the two models *)

(** What each call does to the object it is made on.  The controller never
    looks inside; [bp_mode] alone returns a value it branches on. *)
Class ObjectSemantics := {
  bp_exec : bp_call -> BPrim -> BPrim;
  gs_exec : gs_call -> Gauss -> Gauss
}.
Context {O : ObjectSemantics}.

Definition bp_apply (c : bp_call) (b : BPrim) : BPrim :=
  match c with
  | BpMode k => snd (bp_mode k b)
  | _ => bp_exec c b
  end.

Definition bp (c : bp_call) : M unit := fun w =>
  (Ok tt,
   set_self (fun t => set_bprimitive_object (bp_apply c (bprimitive_object t)) t) w,
   [EvBP c]).

(** [self.bprimitive_object.mode(k)], used as a condition. *)
Definition bp_mode_call (k : Z) : M bool := fun w =>
  (Ok (fst (bp_mode k (bprimitive_object (self w)))),
   set_self (fun t => set_bprimitive_object (bp_apply (BpMode k) (bprimitive_object t)) t) w,
   [EvBP (BpMode k)]).

Definition gs (c : gs_call) : M unit := fun w =>
  (Ok tt,
   set_self (fun t => set_gaussian_ori (gs_exec c (gaussian_ori t)) t) w,
   [EvGS c]).

Definition server_get {A} (f : Server -> A) : M A := fun w => (Ok (f (server w)), w, []).
Definition self_get {A} (f : Trainer -> A) : M A := fun w => (Ok (f (self w)), w, []).

Definition newline : string := String "010"%char EmptyString.

(** ** [Trainer.train_step], block by block *)

(** Lines 188-220: the mode switch. *)
Definition mode_switch (iteration : Z) : M unit :=
  pa <- self_get pipeline_args ;;
  when (iteration =? mode2_iters pa)
    (modify (set_server (set_mode 2)) ;;
     modify (set_server (set_slider_boundary_scale (log_blur_radius_tex pa))) ;;
     bp BpCreateFeatureTexture) ;;
  when (fix_iters pa <? iteration)
    (modify (set_server (set_checkbox_split false))) ;;
  m0 <- server_get mode ;;
  when (m0 =? 0)
    (modify (set_server (set_slider_boundary_scale (-9.0)%float)) ;;
     changed <- bp_mode_call 0 ;;
     when changed
       (modify (set_self (fun t =>
          set_optimzer_args
            (set_position_lr_init (position_lr_init (optimzer_args t) * 5)%float
               (optimzer_args t)) t)) ;;
        oa <- self_get optimzer_args ;;
        bp (BpTrainingSetup oa None))) ;;
  m1 <- server_get mode ;;
  when (m1 =? 1)
    (changed <- bp_mode_call 1 ;;
     when changed
       (oa <- self_get optimzer_args ;;
        bp (BpTrainingSetup oa None) ;;
        sl <- server_get slider_boundary_scale ;;
        when (sl <? -7)%float
          (modify (set_server (set_slider_boundary_scale (-7.0)%float))))) ;;
  m2 <- server_get mode ;;
  when (m2 =? 2)
    (changed <- bp_mode_call 2 ;;
     when changed
       (modify (set_server (set_slider_boundary_scale (log_blur_radius_tex pa))) ;;
        when (fix_iters pa <? 30000)
          (modify (set_server (set_checkbox_split false))) ;;
        bp (BpSetActiveShDegree 0) ;;
        oa <- self_get optimzer_args ;;
        bp (BpTrainingSetup oa None))).

(** Lines 227-233: pushing the learning rates. *)
Definition lr_update (iteration : Z) : M unit :=
  m <- server_get mode ;;
  if m =? 1 then bp (BpUpdateLearningRate iteration)
  else when (15200 <? iteration) (bp (BpUpdateLearningRate (iteration - 15000))).

(** Lines 236-238. *)
Definition sh_update (iteration : Z) : M unit :=
  when (iteration mod 1000 =? 0) (bp BpOneUpShDegree).

(** Lines 248-269: render, composite loss, backward pass. *)
Definition render_and_loss (gt_camera : Camera) (bg : Background)
    (render_type : string) (gt_image : Image)
    : M (Tensor * Tensor * DebugInfo) :=
  w <- get ;;
  let s := server w in
  let rd := renderer (bprimitive_object (self w)) gt_camera bg
              (num_segments_per_bprimitive_edge s) (slider_boundary_scale s)
              (gaussian_scale s) render_type in
  let rendered_image := fst rd in
  let debug_info := snd rd in
  emit (EvRenderer (slider_boundary_scale s) render_type rendered_image) ;;
  let photometric_loss :=
    if mode s <? 2 then mse_loss rendered_image gt_image
    else l1_loss rendered_image gt_image in
  let ssim_value := ssim rendered_image gt_image in
  let loss := t_lerp photometric_loss (t_rsub 1.0 ssim_value)
                (lambda_dssim (optimzer_args (self w))) in
  bp (BpBackward loss) ;;
  ret (photometric_loss, loss, debug_info).

(** Line 275. *)
Definition ema_update (loss_item ema : float) : float :=
  (0.4 * loss_item + 0.6 * ema)%float.

(** The successive values of [ema_loss_for_log] when line 275 (or 489)
    runs on each loss of a sequence in turn, from the value [e]. *)
Fixpoint ema_trace (losses : list float) (e : float) : list float :=
  match losses with
  | [] => []
  | l :: rest => ema_update l e :: ema_trace rest (ema_update l e)
  end.

(** Lines 275-283: moving average, progress bar, wandb. *)
Definition log_progress (iteration : Z) (loss : Tensor) : M unit :=
  modify (set_self (fun t =>
    set_ema_loss_for_log (ema_update (item loss) (ema_loss_for_log t)) t)) ;;
  w <- get ;;
  when (iteration mod 10 =? 0)
    (emit (EvProgressPostfix (ema_loss_for_log (self w))) ;;
     emit (EvProgressUpdate 10)) ;;
  when (iteration =? iterations (optimzer_args (self w))) (emit EvProgressClose) ;;
  when (wandb (server w))
    (emit (EvWandbLog (ema_loss_for_log (self w))
             (bp_num_primitives (bprimitive_object (self w))))).

(** [training_report]: a reporting sink (dashboard scalars and, at the
    testing iterations, renders of held-out views); it writes neither to
    the trainer nor to the control channel. *)
Definition training_report (iteration : Z) (photometric_loss loss : Tensor) : M unit :=
  emit (EvTrainingReport iteration photometric_loss loss).

Definition checkpoint_path (model_path : string) (iteration : Z) : string :=
  model_path +:+ "/chkpnt" +:+ pretty iteration +:+ ".pth".

(** Lines 287-289 and again 326-328. *)
Definition save_checkpoint (iteration : Z) (checkpoint_iterations : list Z) : M unit :=
  when (bool_decide (iteration ∈ checkpoint_iterations))
    (emit (EvPrint (newline +:+ "[ITER " +:+ pretty iteration +:+ "] Saving Checkpoint")) ;;
     w <- get ;;
     let path := checkpoint_path (model_path (self w)) iteration in
     let snap := bp_capture (bprimitive_object (self w)) in
     modify (set_files (insert path (snap, iteration))) ;;
     emit (EvSave path snap iteration)).

(** Lines 292-316: feeding the statistics; the local [edges] is bound only
    when the object has a boundary mode. *)
Definition accumulate_stats (gt_image : Image) (debug_info : DebugInfo)
    : M (option Edges) :=
  bp BpAddDensificationStatsV3 ;;
  bp (BpAddDensificationStatsV4 debug_info) ;;
  b <- self_get bprimitive_object ;;
  if 0 <? bp_boundary_mode b then
    let edges := edge_statistics gt_image debug_info in
    bp (BpAddDensificationStatsV2 edges debug_info) ;;
    ret (Some edges)
  else ret None.

(** Lines 320-324. *)
Definition optimizer_block (iteration : Z) : M unit :=
  w <- get ;;
  when (button_optimize_state (server w))
    (when (iteration <? iterations (optimzer_args (self w)))
       (bp BpOptimizerStep ;; bp (BpZeroGrad true))).

(** Lines 331-341. [zero_grad()] without argument is [BpZeroGrad false]. *)
Definition densification (iteration : Z) : M unit :=
  w <- get ;;
  let oa := optimzer_args (self w) in
  let pa := pipeline_args (self w) in
  when (iteration <? densify_until_iter oa)
    (if densification_interval oa =? 0 then raise ZeroDivisionError
     else
       when ((iteration mod densification_interval oa =? 0)
             && checkbox_split (server w))
         (bp (BpZeroGrad false) ;;
          bp (BpDensifyAndPrune (edge_threshold pa) (grad_threshold pa)
                (vis_threshold pa) (area_threshold pa)) ;;
          bp (BpTrainingSetup oa (Some (learning_rate (server w)))))).

(** Lines 244-341, under [if server["button_train_state"]]. *)
Definition training_phase (iteration : Z) (gt_camera : Camera)
    (checkpoint_iterations : list Z) (bg : Background)
    (render_type : string) (gt_image : Image) : M (option Edges) :=
  fl <- render_and_loss gt_camera bg render_type gt_image ;;
  let photometric_loss := fst (fst fl) in
  let loss := snd (fst fl) in
  let debug_info := snd fl in
  log_progress iteration loss ;;
  training_report iteration photometric_loss loss ;;
  save_checkpoint iteration checkpoint_iterations ;;
  edges <- accumulate_stats gt_image debug_info ;;
  optimizer_block iteration ;;
  save_checkpoint iteration checkpoint_iterations ;;
  densification iteration ;;
  ret edges.

(** Lines 405-451: the selector chain. *)
Definition select_output (render_type : string) (rendered_image : Image)
    (debug_info : DebugInfo) (gt_image : Image) (edges : option Edges)
    (pa : PipeArgs) : M (option view_output) :=
  if String.eqb render_type "Depth Map" then ret (Some (VDepth debug_info))
  else if String.eqb render_type "Segmentation" then ret (Some (VSegmentation debug_info))
  else if String.eqb render_type "Colored Boundary Points" then ret (Some (VColoredBoundary debug_info))
  else if String.eqb render_type "Colored UVW" then ret (Some (VColoredUVW debug_info))
  else if String.eqb render_type "debug" then ret (Some (VDebug rendered_image))
  else if String.eqb render_type "GT Image" then ret (Some (VGT gt_image))
  else if String.eqb render_type "Surface Normal" then ret (Some (VSurfaceNormal debug_info))
  else if String.eqb render_type "Depth Normal" then ret (Some (VDepthNormal debug_info))
  else if String.eqb render_type "Accumulated Gradient Image" then
    ret (Some (VAccumGrad debug_info (grad_threshold pa)))
  else if String.eqb render_type "Accum_Edge" then
    ret (Some (VAccumEdge debug_info (edge_threshold pa)))
  else if String.eqb render_type "Accum_Vis" then
    ret (Some (VAccumVis debug_info (vis_threshold pa)))
  else if String.eqb render_type "edges" then
    match edges with
    | Some e => ret (Some (VEdges e))
    | None => raise (UnboundLocalError "edges")
    end
  else
    emit (EvPrint ("Unsupported render type: " +:+ render_type)) ;;
    ret None.

(** Lines 453-460 (and 559-565): publishing to the client. *)
Definition publish (output : option view_output) (count : Z) : M unit :=
  emit (EvSetBackgroundImage output) ;;
  n <- server_get num_primtives ;;
  when (negb (bool_decide (is_Some n)))
    (modify (set_server (set_num_primtives (Some "0")))) ;;
  modify (set_server (set_num_primtives (Some (pretty count)))).

(** Lines 346-460. *)
Definition view_phase (gt_camera : Camera) (render_type : string)
    (gt_image : Image) (edges : option Edges) : M unit :=
  w <- get ;;
  let s := server w in
  let camera := view_camera (client s) gt_camera gt_image in
  let rd := renderer (bprimitive_object (self w)) camera (background (self w))
              (num_segments_per_bprimitive_edge s) (slider_boundary_scale s)
              (gaussian_scale s) render_type in
  emit (EvRenderer (slider_boundary_scale s) render_type (fst rd)) ;;
  output <- select_output render_type (fst rd) (snd rd) gt_image edges
              (pipeline_args (self w)) ;;
  publish output (bp_control_point_size (bprimitive_object (self w))) ;;
  emit EvEmptyCache.

Definition train_step (iteration : Z) (gt_camera : Camera)
    (checkpoint_iterations : list Z) (bg : Background) : M unit :=
  mode_switch iteration ;;
  render_type <- server_get gui_render_type ;;
  lr_update iteration ;;
  sh_update iteration ;;
  let gt_image := flip12 (original_image gt_camera) in
  training <- server_get button_train_state ;;
  edges <- (if training
            then training_phase iteration gt_camera checkpoint_iterations bg
                   render_type gt_image
            else ret None) ;;
  att <- server_get attached ;;
  if negb att then ret tt
  else view_phase gt_camera render_type gt_image edges.

(** ** [Trainer.train_step_3dgs] *)

(** Lines 466-513, under [if server["button_train_state"]]. *)
Definition training_phase_3dgs (iteration : Z) (gt_camera : Camera)
    (bg : Background) (gt_image : Image) : M unit :=
  gs (GsUpdateLearningRate iteration) ;;
  when (iteration mod 1000 =? 0) (gs GsOneUpSHDegree) ;;
  w <- get ;;
  let render_pkg := render_3dgs gt_camera (gaussian_ori (self w)) bg in
  emit (EvRender3dgs render_pkg) ;;
  let image := pkg_render render_pkg in
  let Ll1 := l1_loss image gt_image in
  let ssim_value := ssim image gt_image in
  let oa := optimzer_args (self w) in
  let loss := t_add (t_smul (1.0 - lambda_dssim oa)%float Ll1)
                (t_smul (lambda_dssim oa) (t_rsub 1.0 ssim_value)) in
  gs (GsBackward loss) ;;
  modify (set_self (fun t =>
    set_ema_loss_for_log (ema_update (item loss) (ema_loss_for_log t)) t)) ;;
  ema <- self_get ema_loss_for_log ;;
  when (iteration mod 10 =? 0)
    (emit (EvProgressPostfix ema) ;; emit (EvProgressUpdate 10)) ;;
  gs (GsTrackMaxRadii render_pkg) ;;
  gs (GsAddDensificationStats render_pkg) ;;
  when ((densify_from_iter oa <? iteration) && (iteration mod 100 =? 0))
    (let size_threshold :=
       if opacity_reset_interval oa <? iteration then Some 20 else None in
     gs (GsDensifyAndPrune (densify_grad_threshold oa) 0.005
           (cameras_extent (self w)) size_threshold)) ;;
  (if opacity_reset_interval oa =? 0 then raise ZeroDivisionError
   else when (iteration mod opacity_reset_interval oa =? 0) (gs GsResetOpacity)) ;;
  when (iteration <? iterations oa)
    (gs GsOptimizerStep ;; gs (GsZeroGrad true)) ;;
  when (iteration =? 7000)
    (gs (GsSavePointcloud (colmap_scale (dataset_args (self w))))).

(** Lines 518-565: the local [output] is bound by two selector values
    only; reading it unbound raises. *)
Definition view_phase_3dgs (gt_camera : Camera) (bg : Background)
    (gt_image : Image) : M unit :=
  w <- get ;;
  let s := server w in
  let camera := view_camera (client s) gt_camera gt_image in
  let render_pkg := render_3dgs camera (gaussian_ori (self w)) bg in
  emit (EvRender3dgs render_pkg) ;;
  let image := pkg_render render_pkg in
  output <- (if String.eqb (render_type s) "debug" then ret (VDebug (flip12 image))
             else if String.eqb (render_type s) "GT Image" then ret (VGT gt_image)
             else raise (UnboundLocalError "output")) ;;
  publish (Some output) (gs_xyz_size (gaussian_ori (self w))).

Definition train_step_3dgs (iteration : Z) (gt_camera : Camera)
    (bg : Background) : M unit :=
  let gt_image := original_image gt_camera in
  training <- server_get button_train_state ;;
  when training (training_phase_3dgs iteration gt_camera bg gt_image) ;;
  att <- server_get attached ;;
  if negb att then ret tt
  else view_phase_3dgs gt_camera bg gt_image.

(** ** [Trainer.__init__] *)

(** [checkpoint] is the [--start_checkpoint] argument ([None] by default;
    the empty string is falsy too); [unique_str] is the name
    [prepare_output_and_logger] invents when no model path is given;
    [cameras] and [extent] are what [Scene] loads. *)
Definition Trainer_init (dataset_args : DataArgs) (optimzer_args : OptArgs)
    (pipeline_args : PipeArgs) (checkpoint : option string)
    (unique_str : string) (cameras : list Camera) (extent : float) : M unit :=
  let path :=
    if String.eqb (data_model_path dataset_args) "" then "./outputs/" +:+ unique_str
    else data_model_path dataset_args in
  emit (EvPrint ("Output folder: " +:+ path)) ;;
  when (negb TENSORBOARD_FOUND)
    (emit (EvPrint "Tensorboard not available: not logging progress")) ;;
  modify (set_self (fun _ =>
    {| first_iter := 0; ema_loss_for_log := 0.0;
       dataset_args := dataset_args; optimzer_args := optimzer_args;
       pipeline_args := pipeline_args;
       bprimitive_object := bp_new dataset_args optimzer_args;
       gaussian_ori := gs_new;
       background := solid_background (white_background dataset_args);
       train_cameras := cameras; cameras_extent := extent;
       model_path := path |})) ;;
  match checkpoint with
  | Some file =>
      if String.eqb file "" then ret tt
      else
        fs <- (w <- get ;; ret (files w)) ;;
        match fs !! file with
        | None => raise (FileNotFoundError file)
        | Some (model_params, it) =>
            modify (set_self (set_first_iter it)) ;;
            bp (BpRestore model_params optimzer_args) ;;
            when (15200 <? it) (_ <- bp_mode_call 2 ;; ret tt)
        end
  | None => ret tt
  end ;;
  modify (set_self (set_ema_loss_for_log 0.0)).

(** ** [Trainer.train] *)

(** The two sources of randomness of the loop, per iteration: the index
    drawn by [random.randint] and the background from [torch.rand]. *)
Record Oracle := {
  rand_index : Z -> nat;
  rand_background : Z -> Background
}.

(** The body of the [for] loop, lines 166-182, over the remaining
    iterations; [viewpoint_stack] is the loop's work-list ([None] and the
    empty list are both falsy). *)
Fixpoint train_loop (orc : Oracle) (checkpoint_iterations : list Z)
    (debug_from : Z) (its : list Z) (viewpoint_stack : list Camera) : M unit :=
  match its with
  | [] => ret tt
  | iteration :: rest =>
      cams <- self_get train_cameras ;;
      let stack := match viewpoint_stack with [] => cams | _ => viewpoint_stack end in
      match stack !! (rand_index orc iteration `mod` length stack)%nat with
      | None => raise ValueError
      | Some viewpoint_cam =>
          let stack' := delete (rand_index orc iteration `mod` length stack)%nat stack in
          when (iteration - 1 =? debug_from)
            (modify (set_self (fun t =>
               set_pipeline_args (set_debug true (pipeline_args t)) t))) ;;
          w <- get ;;
          let bg := if random_background (optimzer_args (self w))
                    then rand_background orc iteration
                    else background (self w) in
          (if checkbox_pts_mode (server w)
           then train_step_3dgs iteration viewpoint_cam bg
           else train_step iteration viewpoint_cam checkpoint_iterations bg) ;;
          train_loop orc checkpoint_iterations debug_from rest stack'
      end
  end.

Definition train (orc : Oracle) (checkpoint_iterations : list Z)
    (debug_from : Z) (disable_viewer : bool) : M unit :=
  (if negb disable_viewer then emit EvTryConnect
   else modify (set_server (set_attached false))) ;;
  modify (set_self (fun t => set_first_iter (first_iter t + 1) t)) ;;
  b <- self_get bprimitive_object ;;
  when (bp_boundary_mode b =? 2) (modify (set_server (set_mode 2))) ;;
  w <- get ;;
  train_loop orc checkpoint_iterations debug_from
    (seqZ (first_iter (self w))
       (iterations (optimzer_args (self w)) + 1 - first_iter (self w)))
    [].

(** ** Kinds of events *)

Definition is_backward (e : event) : bool :=
  match e with EvBP (BpBackward _) => true | _ => false end.
Definition is_opt_step (e : event) : bool :=
  match e with EvBP BpOptimizerStep => true | _ => false end.
Definition is_densify (e : event) : bool :=
  match e with EvBP (BpDensifyAndPrune _ _ _ _) => true | _ => false end.
Definition is_zero_grad (e : event) : bool :=
  match e with EvBP (BpZeroGrad _) => true | _ => false end.
Definition is_update_lr (e : event) : bool :=
  match e with EvBP (BpUpdateLearningRate _) => true | _ => false end.
Definition is_save (e : event) : bool :=
  match e with EvSave _ _ _ => true | _ => false end.
Definition is_mode_call (e : event) : bool :=
  match e with EvBP (BpMode _) => true | _ => false end.
Definition is_print (e : event) : bool :=
  match e with EvPrint _ => true | _ => false end.
Definition is_publish (e : event) : bool :=
  match e with EvSetBackgroundImage _ => true | _ => false end.

(** The losses handed to a backward pass, and the moving averages sent to
    wandb, in the order of the events. *)
Definition backward_losses (tr : list event) : list Tensor :=
  flat_map (fun e => match e with
                     | EvBP (BpBackward l) | EvGS (GsBackward l) => [l]
                     | _ => []
                     end) tr.

Definition logged_ema (tr : list event) : list float :=
  flat_map (fun e => match e with EvWandbLog a _ => [a] | _ => [] end) tr.

(** [precedes p q tr]: some event satisfying [p] comes strictly before
    some event satisfying [q]. *)
Fixpoint precedes (p q : event -> bool) (tr : list event) : bool :=
  match tr with
  | [] => false
  | e :: tr' => (p e && existsb q tr') || precedes p q tr'
  end.

(** The object after the calls recorded in a list of events, in order. *)
Definition replay (tr : list event) (b : BPrim) : BPrim :=
  fold_left (fun b e => match e with EvBP c => bp_apply c b | _ => b end) tr b.

(** ** Observations of the world and properties of computations *)

(** What [train_step] reads but never writes. *)
Definition knobs (w : World) :=
  (button_train_state (server w), button_optimize_state (server w),
   attached (server w), gui_render_type (server w), wandb (server w),
   learning_rate (server w), checkbox_pts_mode (server w),
   (iterations (optimzer_args (self w)), lambda_dssim (optimzer_args (self w)),
    densify_until_iter (optimzer_args (self w)),
    densification_interval (optimzer_args (self w))),
   pipeline_args (self w), model_path (self w)).

(** What only the mode switch writes. *)
Definition dials (w : World) :=
  (mode (server w), checkbox_split (server w), slider_boundary_scale (server w)).

(** The moving average. *)
Definition ema (w : World) : float := ema_loss_for_log (self w).

(** The guard of lines 332-333, with the division that may fail. *)
Definition densify_due (it : Z) (w : World) : bool :=
  (it <? densify_until_iter (optimzer_args (self w)))
  && negb (densification_interval (optimzer_args (self w)) =? 0)
  && (it mod densification_interval (optimzer_args (self w)) =? 0)
  && checkbox_split (server w).

(** [m] leaves the observation [f] of the world as it found it. *)
Definition preserves {A B} (f : World -> B) (m : M A) : Prop :=
  forall w, f (world (m w)) = f w.

(** [m] never raises. *)
Definition total {A} (m : M A) : Prop :=
  forall w, exists a, result (m w) = Ok a.

(** [m] produces no event that satisfies [p]. *)
Definition silent {A} (p : event -> bool) (m : M A) : Prop :=
  forall w, existsb p (events (m w)) = false.

(** [m] may clear the structural-edit flag but never sets it. *)
Definition lowers {A} (m : M A) : Prop :=
  forall w, checkbox_split (server (world (m w))) = true ->
            checkbox_split (server w) = true.

(** The object changes through recorded calls only. *)
Definition replays {A} (m : M A) : Prop :=
  forall w, bprimitive_object (self (world (m w)))
            = replay (events (m w)) (bprimitive_object (self w)).


End Controller.

(** ** A small concrete world, for running the controller *)

Module Toy.

(** The primitive population, reduced to what the controller can tell
    apart: its mode, and how many optimizer steps and structural edits it
    has been through. *)
Record prim := {
  boundary : Z;
  steps : Z;
  edits : Z
}.

(** Modelled from the spec: [BPrimitiveBezier.mode] is not in [demo.py];
    section 4.3 says that re-entering the handler for a state already
    active performs no reconfiguration, guarded by a check that the
    transition already fired. [toy_mode k b] is truthy exactly when it
    changed the mode. *)
Definition toy_mode (k : Z) (b : prim) : bool * prim :=
  if boundary b =? k then (false, b)
  else (true, {| boundary := k; steps := steps b; edits := edits b |}).

#[export] Instance externals : Externals := {|
  Tensor := float;
  Image := float;
  DebugInfo := unit;
  Edges := unit;
  RenderPkg := float;
  Camera := float;
  Client := unit;
  Background := unit;
  BPrim := prim;
  Gauss := Z;
  Snapshot := prim;
  item := fun x => x;
  t_lerp := fun a b w => (a + w * (b - a))%float;
  t_rsub := fun c x => (c - x)%float;
  t_smul := fun c x => (c * x)%float;
  t_add := fun a b => (a + b)%float;
  mse_loss := fun r g => ((r - g) * (r - g))%float;
  l1_loss := fun r g => abs (r - g)%float;
  ssim := fun r g => (1 - abs (r - g))%float;
  original_image := fun c => c;
  flip12 := fun i => i;
  view_camera := fun _ c _ => c;
  solid_background := fun _ => tt;
  renderer := fun _ _ _ _ _ _ _ => (0%float, tt);
  render_3dgs := fun _ _ _ => 0%float;
  pkg_render := fun p => p;
  edge_statistics := fun _ _ => tt;
  bp_new := fun _ _ => {| boundary := 0; steps := 0; edits := 0 |};
  bp_mode := toy_mode;
  bp_boundary_mode := boundary;
  bp_num_primitives := fun b => 1 + edits b;
  bp_control_point_size := fun b => 1 + edits b;
  bp_capture := fun b => b;
  gs_new := 0;
  gs_xyz_size := fun g => g;
  TENSORBOARD_FOUND := true
|}.

#[export] Instance objects : ObjectSemantics := {|
  bp_exec := fun c b =>
    match c with
    | BpRestore s _ => s
    | BpOptimizerStep =>
        {| boundary := boundary b; steps := steps b + 1; edits := edits b |}
    | BpDensifyAndPrune _ _ _ _ =>
        {| boundary := boundary b; steps := steps b; edits := edits b + 1 |}
    | _ => b
    end;
  gs_exec := fun c g =>
    match c with
    | GsOptimizerStep => g + 1
    | _ => g
    end
|}.

Definition opt : OptArgs :=
  {| iterations := 3; position_lr_init := 0.00016; lambda_dssim := 0.5;
     densify_until_iter := 3; densification_interval := 2;
     densify_from_iter := 500; opacity_reset_interval := 3000;
     densify_grad_threshold := 0.0002; random_background := false;
     optimizer_type := "default" |}.

Definition pipe : PipeArgs :=
  {| mode2_iters := 15000; fix_iters := 15000;
     log_blur_radius_tex := (-3.0); edge_threshold := 0.1;
     grad_threshold := 0.0002; vis_threshold := 0.5;
     area_threshold := 0.01; debug := false |}.

Definition data : DataArgs :=
  {| data_model_path := "out"; order := 2; sh_degree := 3;
     white_background := false; colmap_scale := 1.0 |}.

Definition srv : Server :=
  {| attached := true; num_primtives := None; client := tt;
     mode := 2; slider_boundary_scale := (-9.0);
     checkbox_split := true; checkbox_pts_mode := false;
     button_train_state := true; button_optimize_state := true;
     num_segments_per_bprimitive_edge := 8; gaussian_scale := 1.0;
     learning_rate := 1.0; wandb := true;
     render_type := "debug"; gui_render_type := "debug" |}.

Definition trainer : Trainer :=
  {| first_iter := 0; ema_loss_for_log := 0.0;
     dataset_args := data; optimzer_args := opt; pipeline_args := pipe;
     bprimitive_object := {| boundary := 0; steps := 0; edits := 0 |};
     gaussian_ori := 0; background := tt;
     train_cameras := [1.0; 0.5; 0.25]%float; cameras_extent := 1.0;
     model_path := "out" |}.

Definition w0 : World :=
  {| server := srv; self := trainer; files := ∅ |}.

(** The same world in the initial mode: the mode switch takes the branch
    for mode 0 only, which does not touch the structural-edit flag. *)
Definition w_init : World :=
  {| server := set_mode 0 srv; self := trainer; files := ∅ |}.

(** The baseline point path, with a selector value no chain knows. *)
Definition w_points : World :=
  {| server :=
       {| attached := true; num_primtives := None; client := tt;
          mode := 0; slider_boundary_scale := (-9.0);
          checkbox_split := true; checkbox_pts_mode := true;
          button_train_state := true; button_optimize_state := true;
          num_segments_per_bprimitive_edge := 8; gaussian_scale := 1.0;
          learning_rate := 1.0; wandb := false;
          render_type := "Wireframe"; gui_render_type := "Wireframe" |};
     self := trainer; files := ∅ |}.

(** The primitive path, with a selector value the chain does not know. *)
Definition w_unknown : World :=
  {| server :=
       {| attached := true; num_primtives := None; client := tt;
          mode := 0; slider_boundary_scale := (-9.0);
          checkbox_split := true; checkbox_pts_mode := false;
          button_train_state := true; button_optimize_state := true;
          num_segments_per_bprimitive_edge := 8; gaussian_scale := 1.0;
          learning_rate := 1.0; wandb := false;
          render_type := "Wireframe"; gui_render_type := "Wireframe" |};
     self := trainer; files := ∅ |}.

(** A world whose disk holds a checkpoint taken at iteration 20000. *)
Definition w_disk : World :=
  {| server := srv; self := trainer;
     files := {[ "chkpnt20000.pth" :=
                   ({| boundary := 1; steps := 19999; edits := 7 |}, 20000) ]} |}.

(** Always draws index 0, so the cameras come in list order. *)
Definition first_pick : Oracle :=
  {| rand_index := fun _ => 0%nat; rand_background := fun _ => tt |}.

End Toy.

(** ** The entry point of the script, and parts of the loop *)

Section Script.
Context {X : Externals} {O : ObjectSemantics}.

Notation "x <- m ;; k" := (bind m (fun x => k)) : py_scope.
Notation "m ;; k" := (bind m (fun _ => k)) : py_scope.
Local Open Scope py_scope.

Definition is_gs_opt_step (e : event) : bool :=
  match e with EvGS GsOptimizerStep => true | _ => false end.
Definition is_gs_densify (e : event) : bool :=
  match e with EvGS (GsDensifyAndPrune _ _ _ _) => true | _ => false end.
Definition is_gs_reset (e : event) : bool :=
  match e with EvGS GsResetOpacity => true | _ => false end.
Definition is_report (e : event) : bool :=
  match e with EvTrainingReport _ _ _ => true | _ => false end.
Definition is_edge_stats (e : event) : bool :=
  match e with EvBP (BpAddDensificationStatsV2 _ _) => true | _ => false end.
Definition is_texture (e : event) : bool :=
  match e with EvBP BpCreateFeatureTexture => true | _ => false end.
Definition is_setup (e : event) : bool :=
  match e with EvBP (BpTrainingSetup _ _) => true | _ => false end.
Definition is_bp_call (e : event) : bool :=
  match e with EvBP _ => true | _ => false end.
Definition is_try_connect (e : event) : bool :=
  match e with EvTryConnect => true | _ => false end.

(** The controls a user drives the steps with, and the configuration of
    a run; [position_lr_init], the mode, the boundary scale, the
    structural-edit flag and the primitive-count display are left out:
    the steps write those. *)
Definition user_controls (w : World) :=
  (button_train_state (server w), button_optimize_state (server w),
   checkbox_pts_mode (server w), attached (server w), client (server w),
   learning_rate (server w), gaussian_scale (server w),
   num_segments_per_bprimitive_edge (server w), wandb (server w),
   render_type (server w), gui_render_type (server w)).

Definition run_config (w : World) :=
  (first_iter (self w), dataset_args (self w), pipeline_args (self w),
   train_cameras (self w), cameras_extent (self w), model_path (self w),
   background (self w),
   (iterations (optimzer_args (self w)), lambda_dssim (optimzer_args (self w)),
    densify_until_iter (optimzer_args (self w)),
    densification_interval (optimzer_args (self w)),
    densify_from_iter (optimzer_args (self w)),
    opacity_reset_interval (optimzer_args (self w)),
    densify_grad_threshold (optimzer_args (self w)),
    random_background (optimzer_args (self w)),
    optimizer_type (optimzer_args (self w)))).

(** The iterations whose [training_report] call a list of events holds. *)
Definition reported (tr : list event) : list Z :=
  flat_map (fun e => match e with EvTrainingReport it _ _ => [it] | _ => [] end) tr.

(** Lines 166-169 on their own: the cameras the loop hands to its steps,
    one per iteration, for as long as a camera can be drawn. *)
Fixpoint viewpoint_picks (orc : Oracle) (cams : list Camera) (its : list Z)
    (viewpoint_stack : list Camera) : list Camera :=
  match its with
  | [] => []
  | iteration :: rest =>
      let stack := match viewpoint_stack with [] => cams | _ => viewpoint_stack end in
      match stack !! (rand_index orc iteration `mod` length stack)%nat with
      | None => []
      | Some viewpoint_cam =>
          viewpoint_cam
          :: viewpoint_picks orc cams rest
               (delete (rand_index orc iteration `mod` length stack)%nat stack)
      end
  end.

(** Lines 173-182 on their own: the loop over cameras already drawn. *)
Fixpoint run_steps (orc : Oracle) (checkpoint_iterations : list Z)
    (debug_from : Z) (steps : list (Z * Camera)) : M unit :=
  match steps with
  | [] => ret tt
  | (iteration, viewpoint_cam) :: rest =>
      when (iteration - 1 =? debug_from)
        (modify (set_self (fun t =>
           set_pipeline_args (set_debug true (pipeline_args t)) t))) ;;
      w <- get ;;
      let bg := if random_background (optimzer_args (self w))
                then rand_background orc iteration
                else background (self w) in
      (if checkbox_pts_mode (server w)
       then train_step_3dgs iteration viewpoint_cam bg
       else train_step iteration viewpoint_cam checkpoint_iterations bg) ;;
      run_steps orc checkpoint_iterations debug_from rest
  end.

Definition set_wandb (v : bool) (s : Server) : Server :=
  {| attached := attached s; num_primtives := num_primtives s;
     client := client s;
     mode := mode s; slider_boundary_scale := slider_boundary_scale s;
     checkbox_split := checkbox_split s;
     checkbox_pts_mode := checkbox_pts_mode s;
     button_train_state := button_train_state s;
     button_optimize_state := button_optimize_state s;
     num_segments_per_bprimitive_edge := num_segments_per_bprimitive_edge s;
     gaussian_scale := gaussian_scale s; learning_rate := learning_rate s;
     wandb := v; render_type := render_type s;
     gui_render_type := gui_render_type s |}.

(** Lines 570-618, the script's entry point, from the parsed arguments
    on: the iteration budget is appended to the checkpoint list, the
    wandb flag is stored on the control channel (which [network_gui.init]
    has created), the trainer is built and run. *)
Definition main (lp : DataArgs) (op : OptArgs) (pp : PipeArgs)
    (checkpoint_iterations : list Z) (debug_from : Z)
    (use_wandb disable_viewer : bool) (start_checkpoint : option string)
    (unique_str : string) (cameras : list Camera) (extent : float)
    (orc : Oracle) : M unit :=
  let checkpoint_iterations := checkpoint_iterations ++ [iterations op] in
  emit (EvPrint ("Optimizing " +:+ data_model_path lp)) ;;
  modify (set_server (set_wandb use_wandb)) ;;
  Trainer_init lp op pp start_checkpoint unique_str cameras extent ;;
  train orc checkpoint_iterations debug_from disable_viewer ;;
  emit (EvPrint (newline +:+ "Training complete.")).

End Script.

(** ** More concrete worlds *)

Module Scenes.

#[local] Existing Instance Toy.externals.

(** The initial-mode world of [Toy] with training switched off. *)
Definition w_paused : World (X:=Toy.externals) :=
  {| server :=
       {| attached := true; num_primtives := None; client := tt;
          mode := 0; slider_boundary_scale := (-9.0);
          checkbox_split := true; checkbox_pts_mode := false;
          button_train_state := false; button_optimize_state := true;
          num_segments_per_bprimitive_edge := 8; gaussian_scale := 1.0;
          learning_rate := 1.0; wandb := true;
          render_type := "debug"; gui_render_type := "debug" |};
     self := Toy.trainer; files := ∅ |}.

(** The baseline point path with [opacity_reset_interval] set to 0. *)
Definition w_zero_reset : World (X:=Toy.externals) :=
  {| server := server Toy.w_points;
     self :=
       {| first_iter := 0; ema_loss_for_log := 0.0;
          dataset_args := Toy.data;
          optimzer_args :=
            {| iterations := 3; position_lr_init := 0.00016; lambda_dssim := 0.5;
               densify_until_iter := 3; densification_interval := 2;
               densify_from_iter := 500; opacity_reset_interval := 0;
               densify_grad_threshold := 0.0002; random_background := false;
               optimizer_type := "default" |};
          pipeline_args := Toy.pipe;
          bprimitive_object :=
            {| Toy.boundary := 0; Toy.steps := 0; Toy.edits := 0 |};
          gaussian_ori := 0; background := tt;
          train_cameras := [1.0; 0.5; 0.25]%float; cameras_extent := 1.0;
          model_path := "out" |};
     files := ∅ |}.

(** A scene that loaded no training camera. *)
Definition w_no_cameras : World (X:=Toy.externals) :=
  {| server := Toy.srv;
     self :=
       {| first_iter := 0; ema_loss_for_log := 0.0;
          dataset_args := Toy.data; optimzer_args := Toy.opt;
          pipeline_args := Toy.pipe;
          bprimitive_object :=
            {| Toy.boundary := 0; Toy.steps := 0; Toy.edits := 0 |};
          gaussian_ori := 0; background := tt;
          train_cameras := []; cameras_extent := 1.0;
          model_path := "out" |};
     files := ∅ |}.



(** The initial mode with the switch to Finalize configured at iteration
    20000. *)
Definition w_late_switch : World (X:=Toy.externals) :=
  {| server := set_mode 0 Toy.srv;
     self :=
       set_pipeline_args
         {| mode2_iters := 20000; fix_iters := 20000;
            log_blur_radius_tex := (-3.0); edge_threshold := 0.1;
            grad_threshold := 0.0002; vis_threshold := 0.5;
            area_threshold := 0.01; debug := false |} Toy.trainer;
     files := ∅ |}.

End Scenes.

(** ** The same collaborators without Tensorboard *)

Module NoTensorboard.

Definition externals : Externals := {|
  Tensor := float;
  Image := float;
  DebugInfo := unit;
  Edges := unit;
  RenderPkg := float;
  Camera := float;
  Client := unit;
  Background := unit;
  BPrim := Toy.prim;
  Gauss := Z;
  Snapshot := Toy.prim;
  item := fun x => x;
  t_lerp := fun a b w => (a + w * (b - a))%float;
  t_rsub := fun c x => (c - x)%float;
  t_smul := fun c x => (c * x)%float;
  t_add := fun a b => (a + b)%float;
  mse_loss := fun r g => ((r - g) * (r - g))%float;
  l1_loss := fun r g => abs (r - g)%float;
  ssim := fun r g => (1 - abs (r - g))%float;
  original_image := fun c => c;
  flip12 := fun i => i;
  view_camera := fun _ c _ => c;
  solid_background := fun _ => tt;
  renderer := fun _ _ _ _ _ _ _ => (0%float, tt);
  render_3dgs := fun _ _ _ => 0%float;
  pkg_render := fun p => p;
  edge_statistics := fun _ _ => tt;
  bp_new := fun _ _ => {| Toy.boundary := 0; Toy.steps := 0; Toy.edits := 0 |};
  bp_mode := Toy.toy_mode;
  bp_boundary_mode := Toy.boundary;
  bp_num_primitives := fun b => 1 + Toy.edits b;
  bp_control_point_size := fun b => 1 + Toy.edits b;
  bp_capture := fun b => b;
  gs_new := 0;
  gs_xyz_size := fun g => g;
  TENSORBOARD_FOUND := false
|}.

#[local] Existing Instance externals.

Definition objects : ObjectSemantics := {|
  bp_exec := fun c b =>
    match c with
    | BpRestore s _ => s
    | BpOptimizerStep =>
        {| Toy.boundary := Toy.boundary b; Toy.steps := Toy.steps b + 1;
           Toy.edits := Toy.edits b |}
    | BpDensifyAndPrune _ _ _ _ =>
        {| Toy.boundary := Toy.boundary b; Toy.steps := Toy.steps b;
           Toy.edits := Toy.edits b + 1 |}
    | _ => b
    end;
  gs_exec := fun c g =>
    match c with
    | GsOptimizerStep => g + 1
    | _ => g
    end
|}.

Definition w0 : World :=
  {| server :=
       {| attached := true; num_primtives := None; client := tt;
          mode := 0; slider_boundary_scale := (-9.0);
          checkbox_split := true; checkbox_pts_mode := false;
          button_train_state := true; button_optimize_state := true;
          num_segments_per_bprimitive_edge := 8; gaussian_scale := 1.0;
          learning_rate := 1.0; wandb := false;
          render_type := "debug"; gui_render_type := "debug" |};
     self :=
       {| first_iter := 0; ema_loss_for_log := 0.0;
          dataset_args := Toy.data; optimzer_args := Toy.opt;
          pipeline_args := Toy.pipe;
          bprimitive_object :=
            {| Toy.boundary := 0; Toy.steps := 0; Toy.edits := 0 |};
          gaussian_ori := 0; background := tt;
          train_cameras := [1.0; 0.5; 0.25]%float; cameras_extent := 1.0;
          model_path := "out" |};
     files := ∅ |}.

Definition first_pick : Oracle :=
  {| rand_index := fun _ => 0%nat; rand_background := fun _ => tt |}.

End NoTensorboard.

(** ** Reasoning about computations *)

Section Rules.
Context {X : Externals} {O : ObjectSemantics}.

Lemma bind_run {A B} (m : M A) (k : A -> M B) (w : World) :
  bind m k w =
  match result (m w) with
  | Ok a =>
      (result (k a (world (m w))), world (k a (world (m w))),
       events (m w) ++ events (k a (world (m w))))
  | Raise x => (Raise x, world (m w), events (m w))
  end.
Proof.
  unfold bind, result, world, events.
  destruct (m w) as [[[a|x] w1] e1]; cbn; [|reflexivity].
  destruct (k a w1) as [[r w2] e2]; reflexivity.
Qed.

Lemma preserves_bind {A B C} (f : World -> C) (m : M A) (k : A -> M B) :
  preserves f m -> (forall a, preserves f (k a)) -> preserves f (bind m k).
Proof.
  intros Hm Hk w. rewrite bind_run.
  destruct (result (m w)); cbn; [rewrite Hk|]; apply Hm.
Qed.

Lemma total_bind {A B} (m : M A) (k : A -> M B) :
  total m -> (forall a, total (k a)) -> total (bind m k).
Proof.
  intros Hm Hk w. rewrite bind_run.
  destruct (Hm w) as [a ->]. apply Hk.
Qed.

Lemma silent_bind {A B} (p : event -> bool) (m : M A) (k : A -> M B) :
  silent p m -> (forall a, silent p (k a)) -> silent p (bind m k).
Proof.
  intros Hm Hk w. rewrite bind_run.
  destruct (result (m w)); cbn; [|apply Hm].
  rewrite existsb_app, Hm, Hk. reflexivity.
Qed.

Lemma lowers_bind {A B} (m : M A) (k : A -> M B) :
  lowers m -> (forall a, lowers (k a)) -> lowers (bind m k).
Proof.
  intros Hm Hk w. rewrite bind_run.
  destruct (result (m w)); cbn; intros H; [apply Hk in H|]; apply Hm, H.
Qed.

Lemma replay_app (e1 e2 : list event) (b : BPrim) :
  replay (e1 ++ e2) b = replay e2 (replay e1 b).
Proof. apply fold_left_app. Qed.

Lemma replays_bind {A B} (m : M A) (k : A -> M B) :
  replays m -> (forall a, replays (k a)) -> replays (bind m k).
Proof.
  intros Hm Hk w. rewrite bind_run.
  destruct (result (m w)); cbn [result world events fst snd]; [|apply Hm].
  rewrite replay_app, Hk, Hm. reflexivity.
Qed.

(** What the continuation preserves is decided by the first computation. *)
Lemma preserves_tail {A B C} (f : World -> C) (m : M A) (k : A -> M B) w :
  (forall a, preserves f (k a)) ->
  f (world (bind m k w)) = f (world (m w)).
Proof.
  intros Hk. rewrite bind_run.
  destruct (result (m w)); cbn; [apply Hk|reflexivity].
Qed.

Lemma lowers_tail {A B} (m : M A) (k : A -> M B) w :
  (forall a, lowers (k a)) ->
  checkbox_split (server (world (bind m k w))) = true ->
  checkbox_split (server (world (m w))) = true.
Proof.
  intros Hk. rewrite bind_run.
  destruct (result (m w)); cbn; [apply Hk|trivial].
Qed.



Lemma silent_at {A} (p : event -> bool) (m : M A) (w : World) :
  silent p m -> existsb p (events (m w)) = false.
Proof. intros H. apply H. Qed.

Lemma precedes_app (p q : event -> bool) (l1 l2 : list event) :
  precedes p q (l1 ++ l2) =
  precedes p q l1 || (existsb p l1 && existsb q l2) || precedes p q l2.
Proof.
  induction l1 as [|e l1 IH]; cbn [app precedes existsb]; [reflexivity|].
  rewrite IH, existsb_app.
  destruct (p e), (existsb q l1), (existsb q l2), (precedes p q l1),
    (existsb p l1), (precedes p q l2); reflexivity.
Qed.

Lemma precedes_none_l (p q : event -> bool) (l : list event) :
  existsb p l = false -> precedes p q l = false.
Proof.
  induction l as [|e l IH]; cbn [precedes existsb]; [reflexivity|].
  intros H. apply orb_false_elim in H as [-> H]. rewrite (IH H). reflexivity.
Qed.

Lemma precedes_none_r (p q : event -> bool) (l : list event) :
  existsb q l = false -> precedes p q l = false.
Proof.
  induction l as [|e l IH]; cbn [precedes existsb]; [reflexivity|].
  intros H. apply orb_false_elim in H as [_ H]. rewrite (IH H), H.
  rewrite andb_false_r. reflexivity.
Qed.

End Rules.

(** Blocks are unfolded down to the primitive computations, and the three
    properties follow the structure of the code: one case per branch, the
    continuation of a [bind] handled once. *)
Ltac unfold_blocks :=
  unfold train_step, train_step_3dgs, training_phase, training_phase_3dgs,
    view_phase, view_phase_3dgs, select_output, publish,
    mode_switch, lr_update, sh_update, render_and_loss, log_progress,
    training_report, save_checkpoint, accumulate_stats, optimizer_block,
    densification, when.

Ltac leaf :=
  solve [ intros ?; reflexivity
        | intros ?; eexists; reflexivity
        | let H := fresh in intros ? H; exact H
        | let H := fresh in intros ? H; discriminate H ].

Ltac structural :=
  intros; cbv beta zeta;
  lazymatch goal with
  | |- preserves _ (bind _ _) => apply preserves_bind; structural
  | |- total (bind _ _) => apply total_bind; structural
  | |- silent _ (bind _ _) => apply silent_bind; structural
  | |- lowers (bind _ _) => apply lowers_bind; structural
  | |- replays (bind _ _) => apply replays_bind; structural
  | |- _ (if ?b then _ else _) => destruct b; structural
  | |- _ (match ?x with _ => _ end) => destruct x; structural
  | |- _ => leaf
  end.

Ltac blocks := intros; unfold_blocks; structural.

Ltac silence :=
  rewrite ?existsb_app;
  repeat (rewrite silent_at by blocks);
  cbn [existsb is_save is_opt_step is_backward is_densify orb];
  reflexivity.

Create Rewrite HintDb frame.

Ltac frame_lemma :=
  intros;
  lazymatch goal with
  | |- ?f (world (?m ?w)) = ?f ?w => revert w; change (preserves f m); blocks
  end.

Section Correctness.
Context {X : Externals} {O : ObjectSemantics}.

Lemma knobs_inv w' w :
  knobs w' = knobs w ->
  button_train_state (server w') = button_train_state (server w) /\
  button_optimize_state (server w') = button_optimize_state (server w) /\
  attached (server w') = attached (server w) /\
  gui_render_type (server w') = gui_render_type (server w) /\
  wandb (server w') = wandb (server w) /\
  learning_rate (server w') = learning_rate (server w) /\
  iterations (optimzer_args (self w')) = iterations (optimzer_args (self w)) /\
  lambda_dssim (optimzer_args (self w')) = lambda_dssim (optimzer_args (self w)) /\
  densify_until_iter (optimzer_args (self w'))
    = densify_until_iter (optimzer_args (self w)) /\
  densification_interval (optimzer_args (self w'))
    = densification_interval (optimzer_args (self w)) /\
  pipeline_args (self w') = pipeline_args (self w) /\
  model_path (self w') = model_path (self w).
Proof. unfold knobs. intros K. inversion K. repeat split; assumption. Qed.

Lemma mode_switch_knobs it w :
  knobs (world (mode_switch it w)) = knobs w.
Proof. frame_lemma. Qed.
Lemma lr_update_knobs it w :
  knobs (world (lr_update it w)) = knobs w.
Proof. frame_lemma. Qed.
Lemma sh_update_knobs it w :
  knobs (world (sh_update it w)) = knobs w.
Proof. frame_lemma. Qed.
Lemma backward_knobs c w :
  knobs (world (bp c w)) = knobs w.
Proof. frame_lemma. Qed.
Lemma log_progress_knobs it loss w :
  knobs (world (log_progress it loss w)) = knobs w.
Proof. frame_lemma. Qed.
Lemma save_checkpoint_knobs it cks w :
  knobs (world (save_checkpoint it cks w)) = knobs w.
Proof. frame_lemma. Qed.
Lemma accumulate_stats_knobs gt dbg w :
  knobs (world (accumulate_stats gt dbg w)) = knobs w.
Proof. frame_lemma. Qed.
Lemma optimizer_block_knobs it w :
  knobs (world (optimizer_block it w)) = knobs w.
Proof. frame_lemma. Qed.
Lemma densification_knobs it w :
  knobs (world (densification it w)) = knobs w.
Proof. frame_lemma. Qed.
Lemma training_phase_knobs it cam cks bg rt gt w :
  knobs (world (training_phase it cam cks bg rt gt w)) = knobs w.
Proof. frame_lemma. Qed.
Lemma view_phase_knobs cam rt gt edges w :
  knobs (world (view_phase cam rt gt edges w)) = knobs w.
Proof. frame_lemma. Qed.
Lemma train_step_knobs it cam cks bg w :
  knobs (world (train_step it cam cks bg w)) = knobs w.
Proof. frame_lemma. Qed.

Lemma dials_inv w' w :
  dials w' = dials w ->
  mode (server w') = mode (server w) /\
  checkbox_split (server w') = checkbox_split (server w) /\
  slider_boundary_scale (server w') = slider_boundary_scale (server w).
Proof. unfold dials. intros K. inversion K. repeat split; assumption. Qed.

Lemma lr_update_dials it w :
  dials (world (lr_update it w)) = dials w.
Proof. frame_lemma. Qed.
Lemma sh_update_dials it w :
  dials (world (sh_update it w)) = dials w.
Proof. frame_lemma. Qed.
Lemma backward_dials c w :
  dials (world (bp c w)) = dials w.
Proof. frame_lemma. Qed.
Lemma log_progress_dials it loss w :
  dials (world (log_progress it loss w)) = dials w.
Proof. frame_lemma. Qed.
Lemma save_checkpoint_dials it cks w :
  dials (world (save_checkpoint it cks w)) = dials w.
Proof. frame_lemma. Qed.
Lemma accumulate_stats_dials gt dbg w :
  dials (world (accumulate_stats gt dbg w)) = dials w.
Proof. frame_lemma. Qed.
Lemma optimizer_block_dials it w :
  dials (world (optimizer_block it w)) = dials w.
Proof. frame_lemma. Qed.
Lemma densification_dials it w :
  dials (world (densification it w)) = dials w.
Proof. frame_lemma. Qed.
Lemma training_phase_dials it cam cks bg rt gt w :
  dials (world (training_phase it cam cks bg rt gt w)) = dials w.
Proof. frame_lemma. Qed.
Lemma view_phase_dials cam rt gt edges w :
  dials (world (view_phase cam rt gt edges w)) = dials w.
Proof. frame_lemma. Qed.

Lemma mode_switch_files it w :
  files (world (mode_switch it w)) = files w.
Proof. frame_lemma. Qed.
Lemma lr_update_files it w :
  files (world (lr_update it w)) = files w.
Proof. frame_lemma. Qed.
Lemma sh_update_files it w :
  files (world (sh_update it w)) = files w.
Proof. frame_lemma. Qed.
Lemma backward_files c w :
  files (world (bp c w)) = files w.
Proof. frame_lemma. Qed.
Lemma log_progress_files it loss w :
  files (world (log_progress it loss w)) = files w.
Proof. frame_lemma. Qed.
Lemma accumulate_stats_files gt dbg w :
  files (world (accumulate_stats gt dbg w)) = files w.
Proof. frame_lemma. Qed.
Lemma optimizer_block_files it w :
  files (world (optimizer_block it w)) = files w.
Proof. frame_lemma. Qed.
Lemma densification_files it w :
  files (world (densification it w)) = files w.
Proof. frame_lemma. Qed.
Lemma view_phase_files cam rt gt edges w :
  files (world (view_phase cam rt gt edges w)) = files w.
Proof. frame_lemma. Qed.

Lemma mode_switch_ema it w :
  ema (world (mode_switch it w)) = ema w.
Proof. frame_lemma. Qed.
Lemma lr_update_ema it w :
  ema (world (lr_update it w)) = ema w.
Proof. frame_lemma. Qed.
Lemma sh_update_ema it w :
  ema (world (sh_update it w)) = ema w.
Proof. frame_lemma. Qed.
Lemma backward_ema c w :
  ema (world (bp c w)) = ema w.
Proof. frame_lemma. Qed.
Lemma save_checkpoint_ema it cks w :
  ema (world (save_checkpoint it cks w)) = ema w.
Proof. frame_lemma. Qed.
Lemma accumulate_stats_ema gt dbg w :
  ema (world (accumulate_stats gt dbg w)) = ema w.
Proof. frame_lemma. Qed.
Lemma optimizer_block_ema it w :
  ema (world (optimizer_block it w)) = ema w.
Proof. frame_lemma. Qed.
Lemma densification_ema it w :
  ema (world (densification it w)) = ema w.
Proof. frame_lemma. Qed.
Lemma view_phase_ema cam rt gt edges w :
  ema (world (view_phase cam rt gt edges w)) = ema w.
Proof. frame_lemma. Qed.

Hint Rewrite mode_switch_knobs lr_update_knobs sh_update_knobs backward_knobs
  log_progress_knobs save_checkpoint_knobs accumulate_stats_knobs
  optimizer_block_knobs densification_knobs training_phase_knobs
  view_phase_knobs
  lr_update_dials sh_update_dials backward_dials
  log_progress_dials save_checkpoint_dials accumulate_stats_dials
  optimizer_block_dials densification_dials training_phase_dials
  view_phase_dials
  mode_switch_files lr_update_files sh_update_files backward_files
  log_progress_files accumulate_stats_files optimizer_block_files
  densification_files view_phase_files
  mode_switch_ema lr_update_ema sh_update_ema backward_ema
  save_checkpoint_ema accumulate_stats_ema optimizer_block_ema
  densification_ema view_phase_ema : frame.

Lemma mode_switch_total it : total (mode_switch it).
Proof. blocks. Qed.
Lemma lr_update_total it : total (lr_update it).
Proof. blocks. Qed.
Lemma sh_update_total it : total (sh_update it).
Proof. blocks. Qed.

Lemma total_unit (m : M unit) (w : World) :
  total m -> result (m w) = Ok tt.
Proof. intros H. destruct (H w) as [[] ->]. reflexivity. Qed.

(** [train_step] as its five stages: mode switch, learning rates, SH
    degree, the training phase when enabled, the view when attached. *)
Lemma train_step_run it cam cks bg w :
  let w1 := world (mode_switch it w) in
  let w2 := world (lr_update it w1) in
  let w3 := world (sh_update it w2) in
  let rt := gui_render_type (server w) in
  let gt := flip12 (original_image cam) in
  let pre := events (mode_switch it w) ++ events (lr_update it w1)
             ++ events (sh_update it w2) in
  let t := (if button_train_state (server w)
            then training_phase it cam cks bg rt gt
            else ret None) w3 in
  train_step it cam cks bg w =
  match result t with
  | Ok edges =>
      if attached (server w) then
        let v := view_phase cam rt gt edges (world t) in
        (result v, world v, pre ++ events t ++ events v)
      else (Ok tt, world t, pre ++ events t)
  | Raise x => (Raise x, world t, pre ++ events t)
  end.
Proof.
  intros w1 w2 w3 rt gt pre t.
  assert (K1 : knobs w1 = knobs w) by apply mode_switch_knobs.
  assert (K3 : knobs w3 = knobs w).
  { unfold w3, w2, w1. autorewrite with frame. reflexivity. }
  assert (Kt : knobs (world t) = knobs w).
  { unfold t. destruct (button_train_state (server w)).
    - rewrite training_phase_knobs. exact K3.
    - exact K3. }
  apply knobs_inv in K1 as (_ & _ & _ & Hrt & _).
  apply knobs_inv in K3 as (Htr & _).
  apply knobs_inv in Kt as (_ & _ & Hatt & _).
  unfold train_step.
  rewrite bind_run, (total_unit _ _ (mode_switch_total it)). fold w1.
  rewrite bind_run. cbn [server_get result world events fst snd].
  rewrite bind_run, (total_unit _ _ (lr_update_total it)). fold w2.
  rewrite bind_run, (total_unit _ _ (sh_update_total it)). fold w3.
  cbv zeta. rewrite bind_run. cbn [server_get result world events fst snd].
  rewrite Hrt, Htr. fold rt gt. rewrite bind_run. fold t.
  destruct (result t) as [edges|x]; cbn [result world events fst snd].
  - rewrite bind_run. cbn [server_get result world events fst snd].
    rewrite Hatt. unfold pre.
    destruct (attached (server w)); cbn [negb ret result world events fst snd app];
      rewrite ?app_nil_r, <- ?app_assoc; reflexivity.
  - unfold pre. cbn [app]. rewrite <- ?app_assoc. reflexivity.
Qed.

Lemma train_step_events it cam cks bg w :
  let w1 := world (mode_switch it w) in
  let w2 := world (lr_update it w1) in
  let w3 := world (sh_update it w2) in
  let rt := gui_render_type (server w) in
  let gt := flip12 (original_image cam) in
  let t := (if button_train_state (server w)
            then training_phase it cam cks bg rt gt
            else ret None) w3 in
  events (train_step it cam cks bg w) =
  events (mode_switch it w) ++ events (lr_update it w1)
  ++ events (sh_update it w2) ++ events t
  ++ match result t with
     | Ok edges =>
         if attached (server w)
         then events (view_phase cam rt gt edges (world t)) else []
     | Raise _ => []
     end.
Proof.
  cbv zeta. rewrite train_step_run. cbv zeta.
  destruct (result _); [destruct (attached (server w))|];
    cbn [events snd]; rewrite <- ?app_assoc, ?app_nil_r; reflexivity.
Qed.

Lemma render_and_loss_run cam bg rt gt w :
  let s := server w in
  let rd := renderer (bprimitive_object (self w)) cam bg
              (num_segments_per_bprimitive_edge s) (slider_boundary_scale s)
              (gaussian_scale s) rt in
  let photometric :=
    if mode s <? 2 then mse_loss (fst rd) gt else l1_loss (fst rd) gt in
  let loss := t_lerp photometric (t_rsub 1.0 (ssim (fst rd) gt))
                (lambda_dssim (optimzer_args (self w))) in
  render_and_loss cam bg rt gt w =
  (Ok (photometric, loss, snd rd),
   world (bp (BpBackward loss) w),
   [EvRenderer (slider_boundary_scale s) rt (fst rd); EvBP (BpBackward loss)]).
Proof. reflexivity. Qed.

Lemma log_progress_total it loss : total (log_progress it loss).
Proof. blocks. Qed.
Lemma save_checkpoint_total it cks : total (save_checkpoint it cks).
Proof. blocks. Qed.
Lemma accumulate_stats_total gt dbg : total (accumulate_stats gt dbg).
Proof. blocks. Qed.
Lemma optimizer_block_total it : total (optimizer_block it).
Proof. blocks. Qed.

(** The training phase, stage by stage. *)
Lemma training_phase_run it cam cks bg rt gt w :
  let s := server w in
  let rd := renderer (bprimitive_object (self w)) cam bg
              (num_segments_per_bprimitive_edge s) (slider_boundary_scale s)
              (gaussian_scale s) rt in
  let photometric :=
    if mode s <? 2 then mse_loss (fst rd) gt else l1_loss (fst rd) gt in
  let loss := t_lerp photometric (t_rsub 1.0 (ssim (fst rd) gt))
                (lambda_dssim (optimzer_args (self w))) in
  let wa := world (bp (BpBackward loss) w) in
  let wb := world (log_progress it loss wa) in
  let wc := world (save_checkpoint it cks wb) in
  let wd := world (accumulate_stats gt (snd rd) wc) in
  let we := world (optimizer_block it wd) in
  let wf := world (save_checkpoint it cks we) in
  let d := densification it wf in
  training_phase it cam cks bg rt gt w =
  (match result d with
   | Ok _ => result (accumulate_stats gt (snd rd) wc)
   | Raise x => Raise x
   end,
   world d,
   [EvRenderer (slider_boundary_scale s) rt (fst rd); EvBP (BpBackward loss)]
   ++ events (log_progress it loss wa)
   ++ [EvTrainingReport it photometric loss]
   ++ events (save_checkpoint it cks wb)
   ++ events (accumulate_stats gt (snd rd) wc)
   ++ events (optimizer_block it wd)
   ++ events (save_checkpoint it cks we)
   ++ events d).
Proof.
  intros s rd photometric loss wa wb wc wd we wf d.
  unfold training_phase.
  rewrite bind_run, render_and_loss_run.
  cbn [result world events fst snd]. fold s rd photometric loss wa.
  rewrite bind_run, (total_unit _ _ (log_progress_total it loss)). fold wb.
  rewrite bind_run. cbn [training_report emit result world events fst snd].
  rewrite bind_run, (total_unit _ _ (save_checkpoint_total it cks)). fold wc.
  rewrite bind_run.
  destruct (accumulate_stats_total gt (snd rd) wc) as [edges Hedges].
  rewrite Hedges. fold wd.
  rewrite bind_run, (total_unit _ _ (optimizer_block_total it)). fold we.
  rewrite bind_run, (total_unit _ _ (save_checkpoint_total it cks)). fold wf.
  rewrite bind_run. fold d.
  destruct (result d) as [[]|x];
    cbn [ret result world events fst snd app];
    rewrite ?app_nil_r; reflexivity.
Qed.

(** *** What the key blocks emit *)

Lemma optimizer_block_events it w :
  events (optimizer_block it w) =
  if button_optimize_state (server w) && (it <? iterations (optimzer_args (self w)))
  then [EvBP BpOptimizerStep; EvBP (BpZeroGrad true)] else [].
Proof.
  unfold optimizer_block, when. rewrite bind_run. cbn [get result world events fst snd].
  destruct (button_optimize_state (server w)), (it <? iterations _); reflexivity.
Qed.

Lemma densification_events it w :
  events (densification it w) =
  if densify_due it w then
    [EvBP (BpZeroGrad false);
     EvBP (BpDensifyAndPrune (edge_threshold (pipeline_args (self w)))
             (grad_threshold (pipeline_args (self w)))
             (vis_threshold (pipeline_args (self w)))
             (area_threshold (pipeline_args (self w))));
     EvBP (BpTrainingSetup (optimzer_args (self w))
             (Some (learning_rate (server w))))]
  else [].
Proof.
  unfold densification, densify_due, when.
  rewrite bind_run. cbn [get result world events fst snd app].
  destruct (it <? densify_until_iter _); [|reflexivity].
  destruct (densification_interval _ =? 0); [reflexivity|].
  destruct (it mod _ =? 0); [|reflexivity].
  destruct (checkbox_split _); reflexivity.
Qed.

Lemma save_checkpoint_run it cks w :
  save_checkpoint it cks w =
  if bool_decide (it ∈ cks) then
    let path := checkpoint_path (model_path (self w)) it in
    let snap := bp_capture (bprimitive_object (self w)) in
    (Ok tt, set_files (insert path (snap, it)) w,
     [EvPrint (newline +:+ "[ITER " +:+ pretty it +:+ "] Saving Checkpoint");
      EvSave path snap it])
  else (Ok tt, w, []).
Proof. unfold save_checkpoint, when. destruct (bool_decide _); reflexivity. Qed.

(** *** The optimizer step *)

Lemma training_phase_opt_step it cam cks bg rt gt w :
  existsb is_opt_step (events (training_phase it cam cks bg rt gt w)) =
  button_optimize_state (server w) && (it <? iterations (optimzer_args (self w))).
Proof.
  rewrite training_phase_run. cbv zeta. cbn [events snd].
  rewrite !existsb_app.
  rewrite (silent_at is_opt_step (log_progress _ _)) by blocks.
  rewrite !(silent_at is_opt_step (save_checkpoint _ _)) by blocks.
  rewrite (silent_at is_opt_step (accumulate_stats _ _)) by blocks.
  rewrite (silent_at is_opt_step (densification _)) by blocks.
  rewrite optimizer_block_events.
  match goal with
  | |- context [button_optimize_state (server ?w')] =>
      assert (K : knobs w' = knobs w) by (autorewrite with frame; reflexivity)
  end.
  apply knobs_inv in K as (_ & -> & _ & _ & _ & _ & -> & _).
  destruct (button_optimize_state (server w)), (it <? iterations _); reflexivity.
Qed.

Lemma view_tail_silent (p : event -> bool) (r : res (option Edges))
    (att : bool) cam rt gt wt :
  (forall edges, silent p (view_phase cam rt gt edges)) ->
  existsb p
    match r with
    | Ok edges => if att then events (view_phase cam rt gt edges wt) else []
    | Raise _ => []
    end = false.
Proof.
  intros H. destruct r; [|reflexivity]. destruct att; [|reflexivity]. apply H.
Qed.

Ltac same_knobs w :=
  match goal with
  | |- context [button_optimize_state (server ?w')] =>
      lazymatch w' with
      | w => fail
      | _ => let K := fresh "K" in
             assert (K : knobs w' = knobs w)
               by (autorewrite with frame; reflexivity);
             apply knobs_inv in K as (_ & -> & _ & _ & _ & _ & -> & _)
      end
  end.

Lemma train_step_opt_step it cam cks bg w :
  existsb is_opt_step (events (train_step it cam cks bg w)) =
  button_train_state (server w) && button_optimize_state (server w)
  && (it <? iterations (optimzer_args (self w))).
Proof.
  rewrite train_step_events. cbv zeta. rewrite !existsb_app.
  rewrite (silent_at is_opt_step (mode_switch _)) by blocks.
  rewrite (silent_at is_opt_step (lr_update _)) by blocks.
  rewrite (silent_at is_opt_step (sh_update _)) by blocks.
  rewrite view_tail_silent by blocks.
  destruct (button_train_state (server w)); cbn [orb andb]; [|reflexivity].
  rewrite training_phase_opt_step. same_knobs w.
  rewrite orb_false_r. reflexivity.
Qed.

(** *** The mode switch *)

Lemma mode_switch_mode it w :
  mode (server (world (mode_switch it w))) =
  if it =? mode2_iters (pipeline_args (self w)) then 2 else mode (server w).
Proof.
  unfold mode_switch. rewrite bind_run.
  cbn [self_get result world events fst snd].
  rewrite (preserves_tail (fun w => mode (server w))) by blocks.
  unfold when. destruct (it =? _); reflexivity.
Qed.

Lemma mode_switch_split it w :
  checkbox_split (server (world (mode_switch it w))) = true ->
  checkbox_split (server w) = true /\ it <= fix_iters (pipeline_args (self w)).
Proof.
  unfold mode_switch. rewrite bind_run.
  cbn [self_get result world events fst snd].
  rewrite bind_run.
  match goal with
  | |- context [result (?a w)] =>
      assert (Ta : total a) by blocks;
      assert (Pa : preserves (fun w => checkbox_split (server w)) a) by blocks;
      pose proof (Pa w) as Ca; cbv beta in Ca;
      rewrite (total_unit _ w Ta)
  end.
  cbn [result world events fst snd]. intros H.
  apply lowers_tail in H; [|blocks].
  unfold when in H at 1.
  destruct (fix_iters _ <? it) eqn:F; [discriminate H|].
  cbn [ret world fst snd] in H. rewrite Ca in H.
  split; [exact H|]. apply Z.ltb_ge in F. exact F.
Qed.

(** *** Structural edits *)

Lemma densify_due_frame it w' w :
  knobs w' = knobs w -> dials w' = dials w ->
  densify_due it w' = densify_due it w.
Proof.
  intros K D. unfold densify_due.
  apply knobs_inv in K as (_ & _ & _ & _ & _ & _ & _ & _ & -> & -> & _).
  apply dials_inv in D as (_ & -> & _). reflexivity.
Qed.

Lemma training_phase_densify it cam cks bg rt gt w :
  existsb is_densify (events (training_phase it cam cks bg rt gt w)) =
  densify_due it w.
Proof.
  rewrite training_phase_run. cbv zeta. cbn [events snd].
  rewrite !existsb_app.
  rewrite (silent_at is_densify (log_progress _ _)) by blocks.
  rewrite !(silent_at is_densify (save_checkpoint _ _)) by blocks.
  rewrite (silent_at is_densify (accumulate_stats _ _)) by blocks.
  rewrite (silent_at is_densify (optimizer_block _)) by blocks.
  rewrite densification_events.
  rewrite (densify_due_frame it _ w) by (autorewrite with frame; reflexivity).
  destruct (densify_due it w); reflexivity.
Qed.

Lemma train_step_densify it cam cks bg w :
  existsb is_densify (events (train_step it cam cks bg w)) =
  button_train_state (server w) && densify_due it (world (mode_switch it w)).
Proof.
  rewrite train_step_events. cbv zeta. rewrite !existsb_app.
  rewrite (silent_at is_densify (mode_switch _)) by blocks.
  rewrite (silent_at is_densify (lr_update _)) by blocks.
  rewrite (silent_at is_densify (sh_update _)) by blocks.
  rewrite view_tail_silent by blocks.
  destruct (button_train_state (server w)); cbn [orb andb]; [|reflexivity].
  rewrite training_phase_densify.
  rewrite (densify_due_frame it _ (world (mode_switch it w)))
    by (autorewrite with frame; reflexivity).
  apply orb_false_r.
Qed.

Lemma train_step_dials it cam cks bg w :
  dials (world (train_step it cam cks bg w)) = dials (world (mode_switch it w)).
Proof.
  rewrite train_step_run. cbv zeta.
  destruct (result _); [destruct (attached (server w))|];
    cbn [world fst snd];
    destruct (button_train_state (server w)); cbn [ret world fst snd];
    autorewrite with frame; reflexivity.
Qed.

Lemma train_step_edit_shape it cam cks bg w :
  let evs := events (train_step it cam cks bg w) in
  existsb is_densify evs = true ->
  exists pre post oa,
    evs = pre
          ++ [EvBP (BpZeroGrad false);
              EvBP (BpDensifyAndPrune (edge_threshold (pipeline_args (self w)))
                      (grad_threshold (pipeline_args (self w)))
                      (vis_threshold (pipeline_args (self w)))
                      (area_threshold (pipeline_args (self w))));
              EvBP (BpTrainingSetup oa (Some (learning_rate (server w))))]
          ++ post /\
    existsb is_backward pre = true /\
    existsb is_densify pre = false /\
    existsb is_opt_step pre
      = button_optimize_state (server w)
        && (it <? iterations (optimzer_args (self w))) /\
    existsb is_opt_step post = false /\
    existsb is_backward post = false /\
    existsb is_densify post = false.
Proof.
  intros evs H. subst evs.
  pose proof H as H'. rewrite train_step_densify in H'.
  apply andb_true_iff in H' as [Htrain Hdue].
  rewrite train_step_events. cbv zeta. rewrite Htrain.
  rewrite training_phase_run. cbv zeta. cbn [events snd].
  rewrite densification_events.
  rewrite (densify_due_frame it _ (world (mode_switch it w)))
    by (autorewrite with frame; reflexivity).
  rewrite Hdue.
  match goal with
  | |- context [pipeline_args (self ?wf)] =>
      lazymatch wf with
      | w => fail
      | _ => let K := fresh "K" in
             assert (K : knobs wf = knobs w)
               by (autorewrite with frame; reflexivity);
             apply knobs_inv in K
               as (_ & _ & _ & _ & _ & -> & _ & _ & _ & _ & -> & _)
      end
  end.
  match goal with
  | |- context [?E1 ++ ?E2 ++ ?E3
                ++ (?hd ++ ?L ++ ?rep ++ ?S1 ++ ?St ++ ?Op ++ ?S2
                    ++ [?z; ?d; EvBP (BpTrainingSetup ?oa ?lr)]) ++ ?tl] =>
      exists (E1 ++ E2 ++ E3 ++ hd ++ L ++ rep ++ S1 ++ St ++ Op ++ S2), tl, oa
  end.
  split; [rewrite <- !app_assoc; reflexivity|].
  rewrite !existsb_app.
  rewrite (silent_at is_densify (mode_switch _)) by blocks.
  rewrite (silent_at is_densify (lr_update _)) by blocks.
  rewrite (silent_at is_densify (sh_update _)) by blocks.
  rewrite (silent_at is_densify (log_progress _ _)) by blocks.
  rewrite !(silent_at is_densify (save_checkpoint _ _)) by blocks.
  rewrite (silent_at is_densify (accumulate_stats _ _)) by blocks.
  rewrite (silent_at is_densify (optimizer_block _)) by blocks.
  rewrite (silent_at is_opt_step (mode_switch _)) by blocks.
  rewrite (silent_at is_opt_step (lr_update _)) by blocks.
  rewrite (silent_at is_opt_step (sh_update _)) by blocks.
  rewrite (silent_at is_opt_step (log_progress _ _)) by blocks.
  rewrite !(silent_at is_opt_step (save_checkpoint _ _)) by blocks.
  rewrite (silent_at is_opt_step (accumulate_stats _ _)) by blocks.
  rewrite optimizer_block_events. same_knobs w.
  rewrite !view_tail_silent by blocks.
  cbn [existsb is_backward is_densify is_opt_step orb].
  repeat split.
  - rewrite !orb_true_r. reflexivity.
  - rewrite !orb_false_r.
    destruct (button_optimize_state (server w)), (it <? iterations _); reflexivity.
Qed.

(** *** The loss and its moving average *)

Lemma log_progress_ema it loss w :
  ema (world (log_progress it loss w)) = ema_update (item loss) (ema w).
Proof.
  unfold log_progress. rewrite (preserves_tail ema) by blocks. reflexivity.
Qed.

Lemma training_phase_ema it cam cks bg rt gt w :
  let s := server w in
  let rendered := fst (renderer (bprimitive_object (self w)) cam bg
              (num_segments_per_bprimitive_edge s) (slider_boundary_scale s)
              (gaussian_scale s) rt) in
  let photometric :=
    if mode s <? 2 then mse_loss rendered gt else l1_loss rendered gt in
  let loss := t_lerp photometric (t_rsub 1.0 (ssim rendered gt))
                (lambda_dssim (optimzer_args (self w))) in
  ema (world (training_phase it cam cks bg rt gt w))
  = ema_update (item loss) (ema w).
Proof.
  rewrite training_phase_run. cbv zeta. cbn [world fst snd].
  autorewrite with frame. rewrite log_progress_ema.
  autorewrite with frame. reflexivity.
Qed.

Lemma train_step_world_frame {C} (f : World -> C) it cam cks bg w :
  (forall c r g e, preserves f (view_phase c r g e)) ->
  let w3 := world (sh_update it (world (lr_update it (world (mode_switch it w))))) in
  f (world (train_step it cam cks bg w)) =
  f (world ((if button_train_state (server w)
             then training_phase it cam cks bg (gui_render_type (server w))
                    (flip12 (original_image cam))
             else ret None) w3)).
Proof.
  intros Hv w3. rewrite train_step_run. cbv zeta. fold w3.
  destruct (result _); [destruct (attached (server w))|];
    cbn [world fst snd]; [apply Hv|reflexivity|reflexivity].
Qed.

(** The shape of a training iteration of the primitive path around its
    backward pass: the loss is the [lerp] of the photometric term
    selected by the mode in force after the mode switch, and the moving
    average is updated with it. *)
Lemma train_step_backward_shape it cam cks bg w :
  button_train_state (server w) = true ->
  let o := train_step it cam cks bg w in
  let gt := flip12 (original_image cam) in
  let m := if it =? mode2_iters (pipeline_args (self w)) then 2 else mode (server w) in
  exists pre post sl rendered,
    let photometric := if m <? 2 then mse_loss rendered gt else l1_loss rendered gt in
    let loss := t_lerp photometric (t_rsub 1.0 (ssim rendered gt))
                  (lambda_dssim (optimzer_args (self w))) in
    events o = pre ++ [EvRenderer sl (gui_render_type (server w)) rendered;
                       EvBP (BpBackward loss)] ++ post /\
    existsb is_backward pre = false /\
    existsb is_backward post = false /\
    mode (server (world o)) = m /\
    ema_loss_for_log (self (world o))
      = ema_update (item loss) (ema_loss_for_log (self w)).
Proof.
  intros Htrain o gt m. subst o.
  set (w3 := world (sh_update it (world (lr_update it (world (mode_switch it w)))))).
  assert (K : knobs w3 = knobs w) by (subst w3; autorewrite with frame; reflexivity).
  assert (D : dials w3 = dials (world (mode_switch it w)))
    by (subst w3; autorewrite with frame; reflexivity).
  assert (E : ema w3 = ema w) by (subst w3; autorewrite with frame; reflexivity).
  apply knobs_inv in K as (_ & _ & _ & _ & _ & _ & _ & Klam & _).
  apply dials_inv in D as (Dm & _). rewrite mode_switch_mode in Dm. fold m in Dm.
  pose proof (train_step_dials it cam cks bg w) as D'.
  apply dials_inv in D' as (Dm' & _). rewrite mode_switch_mode in Dm'. fold m in Dm'.
  change (ema_loss_for_log (self (world (train_step it cam cks bg w))))
    with (ema (world (train_step it cam cks bg w))).
  rewrite (train_step_world_frame ema) by blocks. cbv zeta. fold w3.
  rewrite train_step_events. cbv zeta. fold w3.
  rewrite Htrain, training_phase_ema. cbv zeta.
  rewrite training_phase_run. cbv zeta. cbn [events snd].
  rewrite Dm, Klam, E. fold gt.
  match goal with
  | |- context [?E1 ++ ?E2 ++ ?E3
                ++ ([EvRenderer ?sl _ ?img; _] ++ ?rest) ++ ?tl] =>
      exists (E1 ++ E2 ++ E3), (rest ++ tl), sl, img
  end.
  cbv zeta. split; [rewrite <- !app_assoc; reflexivity|].
  rewrite !existsb_app.
  rewrite (silent_at is_backward (mode_switch _)) by blocks.
  rewrite (silent_at is_backward (lr_update _)) by blocks.
  rewrite (silent_at is_backward (sh_update _)) by blocks.
  rewrite (silent_at is_backward (log_progress _ _)) by blocks.
  rewrite !(silent_at is_backward (save_checkpoint _ _)) by blocks.
  rewrite (silent_at is_backward (accumulate_stats _ _)) by blocks.
  rewrite (silent_at is_backward (optimizer_block _)) by blocks.
  rewrite (silent_at is_backward (densification _)) by blocks.
  rewrite view_tail_silent by blocks.
  repeat split. exact Dm'.
Qed.

Lemma training_phase_3dgs_ema it cam bg gt w :
  exists loss,
    In (EvGS (GsBackward loss)) (events (training_phase_3dgs it cam bg gt w)) /\
    ema (world (training_phase_3dgs it cam bg gt w))
    = ema_update (item loss) (ema w).
Proof.
  unfold training_phase_3dgs.
  rewrite bind_run. cbn [gs result world events fst snd].
  rewrite bind_run.
  match goal with
  | |- context [result (when ?c ?m ?w1)] =>
      assert (T : total (when c m)) by blocks;
      assert (E : ema (world (when c m w1)) = ema w)
        by (unfold when; destruct c; reflexivity);
      rewrite (total_unit _ w1 T); set (w2 := world (when c m w1)) in *
  end.
  rewrite bind_run. cbn [get result world events fst snd].
  rewrite bind_run. cbn [emit result world events fst snd].
  rewrite bind_run. cbn [gs result world events fst snd].
  rewrite bind_run. cbn [modify result world events fst snd].
  eexists. split.
  - apply in_or_app. right. apply in_or_app. right.
    cbn [app]. right. left. reflexivity.
  - rewrite (preserves_tail ema) by blocks. cbn [self_get world fst snd].
    unfold ema at 1. cbn [self set_self set_ema_loss_for_log ema_loss_for_log].
    rewrite <- E. reflexivity.
Qed.

Lemma train_step_3dgs_ema it cam bg w :
  button_train_state (server w) = true ->
  exists loss,
    In (EvGS (GsBackward loss)) (events (train_step_3dgs it cam bg w)) /\
    ema (world (train_step_3dgs it cam bg w)) = ema_update (item loss) (ema w).
Proof.
  intros H.
  destruct (training_phase_3dgs_ema it cam bg (original_image cam) w)
    as (loss & Hin & He).
  exists loss. unfold train_step_3dgs. cbv zeta.
  rewrite bind_run. cbn [server_get result world events fst snd app].
  rewrite H. cbn [when]. split.
  - rewrite bind_run. destruct (result _); cbn [events snd].
    + apply in_or_app. left. exact Hin.
    + exact Hin.
  - rewrite (preserves_tail ema) by blocks. exact He.
Qed.

(** *** Learning-rate updates *)

Lemma silent_not_in (p : event -> bool) (l : list event) (e : event) :
  existsb p l = false -> p e = true -> ~ In e l.
Proof.
  intros H He Hin.
  assert (existsb p l = true) by (apply existsb_exists; exists e; auto).
  congruence.
Qed.

Lemma lr_update_events it w :
  events (lr_update it w) =
  if mode (server w) =? 1 then [EvBP (BpUpdateLearningRate it)]
  else if 15200 <? it then [EvBP (BpUpdateLearningRate (it - 15000))]
  else [].
Proof.
  unfold lr_update, when. rewrite bind_run.
  cbn [server_get result world events fst snd app].
  destruct (mode (server w) =? 1); [reflexivity|].
  destruct (15200 <? it); reflexivity.
Qed.

Lemma train_step_update_lr it cam cks bg w e :
  is_update_lr e = true ->
  In e (events (train_step it cam cks bg w)) ->
  In e (events (lr_update it (world (mode_switch it w)))).
Proof.
  intros He. rewrite train_step_events. cbv zeta. intros Hin.
  apply in_app_or in Hin as [Hin|Hin].
  { exfalso. revert Hin. apply (silent_not_in is_update_lr); [|exact He].
    apply silent_at. blocks. }
  apply in_app_or in Hin as [Hin|Hin]; [exact Hin|]. exfalso.
  apply in_app_or in Hin as [Hin|Hin].
  { revert Hin. apply (silent_not_in is_update_lr); [|exact He].
    apply silent_at. blocks. }
  apply in_app_or in Hin as [Hin|Hin].
  { revert Hin. apply (silent_not_in is_update_lr); [|exact He].
    destruct (button_train_state (server w)); [|reflexivity].
    apply silent_at. blocks. }
  revert Hin. apply (silent_not_in is_update_lr); [|exact He].
  apply view_tail_silent. blocks.
Qed.

(** *** Checkpoints *)

Lemma mode_switch_replays it : replays (mode_switch it).
Proof. blocks. Qed.
Lemma lr_update_replays it : replays (lr_update it).
Proof. blocks. Qed.
Lemma sh_update_replays it : replays (sh_update it).
Proof. blocks. Qed.
Lemma log_progress_replays it loss : replays (log_progress it loss).
Proof. blocks. Qed.
Lemma save_checkpoint_replays it cks : replays (save_checkpoint it cks).
Proof. blocks. Qed.
Lemma accumulate_stats_replays gt dbg : replays (accumulate_stats gt dbg).
Proof. blocks. Qed.
Lemma optimizer_block_replays it : replays (optimizer_block it).
Proof. blocks. Qed.

Lemma save_checkpoint_bprim it cks w :
  bprimitive_object (self (world (save_checkpoint it cks w)))
  = bprimitive_object (self w).
Proof.
  revert w.
  change (preserves (fun w => bprimitive_object (self w)) (save_checkpoint it cks)).
  blocks.
Qed.

Lemma save_checkpoint_events it cks w :
  bool_decide (it ∈ cks) = true ->
  events (save_checkpoint it cks w) =
  [EvPrint (newline +:+ "[ITER " +:+ pretty it +:+ "] Saving Checkpoint");
   EvSave (checkpoint_path (model_path (self w)) it)
     (bp_capture (bprimitive_object (self w))) it].
Proof. intros H. rewrite save_checkpoint_run, H. reflexivity. Qed.

Lemma save_checkpoint_files it cks w :
  bool_decide (it ∈ cks) = true ->
  files (world (save_checkpoint it cks w)) =
  <[checkpoint_path (model_path (self w)) it :=
      (bp_capture (bprimitive_object (self w)), it)]> (files w).
Proof. intros H. rewrite save_checkpoint_run, H. reflexivity. Qed.

Lemma training_phase_checkpoints it cam cks bg rt gt w :
  it ∈ cks ->
  let o := training_phase it cam cks bg rt gt w in
  let path := checkpoint_path (model_path (self w)) it in
  let b0 := bprimitive_object (self w) in
  exists pre mid post s1 s2,
    events o = pre ++ [EvSave path s1 it] ++ mid ++ [EvSave path s2 it] ++ post /\
    existsb is_save pre = false /\
    existsb is_save mid = false /\
    existsb is_save post = false /\
    existsb is_opt_step pre = false /\
    existsb is_opt_step post = false /\
    existsb is_opt_step mid
      = button_optimize_state (server w)
        && (it <? iterations (optimzer_args (self w))) /\
    s1 = bp_capture (replay pre b0) /\
    s2 = bp_capture (replay (pre ++ [EvSave path s1 it] ++ mid) b0) /\
    files (world o) !! path = Some (s2, it).
Proof.
  intros Hin' o path b0. subst o.
  assert (Hin : bool_decide (it ∈ cks) = true)
    by (apply bool_decide_eq_true_2; exact Hin').
  rewrite training_phase_run. cbv zeta. cbn [events world fst snd].
  match goal with
  | |- context [densification it (world (save_checkpoint it cks ?we0))] =>
      set (we := we0)
  end.
  match goal with
  | |- context [accumulate_stats gt ?dbg (world (save_checkpoint it cks ?wb0))] =>
      set (wb := wb0) in *
  end.
  assert (Kb : knobs wb = knobs w)
    by (subst wb; autorewrite with frame; reflexivity).
  assert (Ke : knobs we = knobs w).
  { subst we. autorewrite with frame. exact Kb. }
  apply knobs_inv in Kb as (_ & _ & _ & _ & _ & _ & _ & _ & _ & _ & _ & Kpb).
  pose proof Ke as Ke'.
  apply knobs_inv in Ke' as (_ & _ & _ & _ & _ & _ & _ & _ & _ & _ & _ & Kpe).
  rewrite densification_files.
  rewrite (save_checkpoint_files it cks we Hin).
  rewrite !(save_checkpoint_events it cks _ Hin).
  rewrite Kpb, Kpe. fold path.
  match goal with
  | |- context [?hd ++ ?L ++ ?rep
                ++ [?pr1; EvSave path ?s1 it] ++ ?St ++ ?Op
                ++ [?pr2; EvSave path ?s2 it] ++ ?D] =>
      exists (hd ++ L ++ rep ++ [pr1]), (St ++ Op ++ [pr2]), D, s1, s2
  end.
  split; [rewrite <- !app_assoc; reflexivity|].
  repeat split.
  - silence.
  - silence.
  - silence.
  - silence.
  - silence.
  - rewrite !existsb_app.
    rewrite (silent_at is_opt_step (accumulate_stats _ _)) by blocks.
    rewrite optimizer_block_events.
    match goal with
    | |- context [button_optimize_state (server ?w')] =>
        assert (K : knobs w' = knobs w)
          by (unfold wb; autorewrite with frame; reflexivity);
        apply knobs_inv in K as (_ & -> & _ & _ & _ & _ & -> & _)
    end.
    destruct (button_optimize_state (server w)), (it <? iterations _); reflexivity.
  - f_equal. unfold wb. rewrite log_progress_replays.
    rewrite !replay_app. reflexivity.
  - f_equal. unfold we.
    rewrite optimizer_block_replays, accumulate_stats_replays.
    rewrite save_checkpoint_bprim.
    unfold wb. rewrite log_progress_replays.
    rewrite !replay_app. reflexivity.
  - apply lookup_insert_eq.
Qed.

(** ** The claims about the optimizer step and structural edits *)

(** C3 (as amended). In the primitive path the optimizer step runs in an
    iteration exactly when the training-enabled control is set, the
    optimizer-step control is set, and the iteration is strictly below the
    iteration budget: the last iteration takes no step. *)
Theorem optimizer_step_exactly_when it cam cks bg w :
  existsb is_opt_step (events (train_step it cam cks bg w)) =
  button_train_state (server w) && button_optimize_state (server w)
  && (it <? iterations (optimzer_args (self w))).
Proof. apply train_step_opt_step. Qed.

(** C2 (as amended). In an iteration of the primitive path in which
    [densify_and_prune] runs, it runs after the backward pass and after
    the optimizer step of that iteration (when that step ran): the
    gradients are zeroed immediately before the edit, [training_setup]
    follows immediately, and neither an optimizer step nor a backward pass
    nor a second edit comes after it. *)
Theorem edit_follows_optimizer_step it cam cks bg w :
  let evs := events (train_step it cam cks bg w) in
  existsb is_densify evs = true ->
  (exists pre post oa,
     evs = pre
           ++ [EvBP (BpZeroGrad false);
               EvBP (BpDensifyAndPrune (edge_threshold (pipeline_args (self w)))
                       (grad_threshold (pipeline_args (self w)))
                       (vis_threshold (pipeline_args (self w)))
                       (area_threshold (pipeline_args (self w))));
               EvBP (BpTrainingSetup oa (Some (learning_rate (server w))))]
           ++ post /\
     existsb is_backward pre = true /\
     existsb is_densify pre = false /\
     existsb is_opt_step pre
       = button_optimize_state (server w)
         && (it <? iterations (optimzer_args (self w))) /\
     existsb is_opt_step post = false /\
     existsb is_backward post = false /\
     existsb is_densify post = false) /\
  precedes is_backward is_densify evs = true /\
  precedes is_densify is_opt_step evs = false /\
  precedes is_opt_step is_densify evs = existsb is_opt_step evs.
Proof.
  intros evs H.
  destruct (train_step_edit_shape it cam cks bg w H)
    as (pre & post & oa & E & Hb & Hd & Ho & Hpo & Hpb & Hpd).
  split; [exists pre, post, oa; repeat split; assumption|].
  fold evs in E. rewrite E.
  rewrite !precedes_app, !existsb_app, Hb, Hd, Hpo, Hpd.
  rewrite (precedes_none_l is_densify is_opt_step pre Hd).
  rewrite (precedes_none_r is_densify is_opt_step post Hpo).
  rewrite (precedes_none_r is_opt_step is_densify post Hpd).
  rewrite (precedes_none_r is_opt_step is_densify pre Hd).
  cbn [precedes existsb is_backward is_densify is_opt_step andb orb].
  repeat split.
  - rewrite !orb_true_r. reflexivity.
  - destruct (existsb is_opt_step pre); reflexivity.
Qed.

(** C8 (as amended). In the primitive path [densify_and_prune] runs at
    iteration [it] only if [it] is below [densify_until_iter], [it] is a
    multiple of [densification_interval] and the structural-edit flag is
    set (on entry, and still at the end of the iteration); and in every
    iteration of the primitive path past [fix_iters] the controller
    leaves the flag off, so no edit runs there. *)
Theorem densify_gate it cam cks bg w :
  let o := train_step it cam cks bg w in
  (existsb is_densify (events o) = true ->
     it < densify_until_iter (optimzer_args (self w)) /\
     densification_interval (optimzer_args (self w)) <> 0 /\
     it mod densification_interval (optimzer_args (self w)) = 0 /\
     checkbox_split (server w) = true /\
     checkbox_split (server (world o)) = true) /\
  (fix_iters (pipeline_args (self w)) < it ->
     checkbox_split (server (world o)) = false /\
     existsb is_densify (events o) = false).
Proof.
  intros o. subst o.
  pose proof (train_step_dials it cam cks bg w) as D.
  apply dials_inv in D as (_ & D & _).
  rewrite train_step_densify, D.
  pose proof (mode_switch_knobs it w) as K.
  apply knobs_inv in K as (_ & _ & _ & _ & _ & _ & _ & _ & Ku & Ki & _).
  split.
  - intros H. apply andb_true_iff in H as [_ H]. unfold densify_due in H.
    rewrite Ku, Ki in H.
    apply andb_true_iff in H as [H Hs].
    apply andb_true_iff in H as [H Hm].
    apply andb_true_iff in H as [Hu Hi].
    apply Z.ltb_lt in Hu. apply Z.eqb_eq in Hm.
    apply negb_true_iff, Z.eqb_neq in Hi.
    destruct (mode_switch_split it w Hs) as [Hs0 _].
    repeat split; assumption.
  - intros F.
    destruct (checkbox_split (server (world (mode_switch it w)))) eqn:Hs.
    + destruct (mode_switch_split it w Hs) as [_ Hle]. lia.
    + split; [reflexivity|]. unfold densify_due. rewrite Hs.
      rewrite andb_false_r. apply andb_false_r.
Qed.

(** ** The claims about the loss and the learning rates *)

(** C5 (as amended). In every iteration of the primitive path with
    training enabled the loss handed to the backward pass is
    [lerp(photometric, 1 - ssim, lambda_dssim)] of the image the renderer
    just returned, where the photometric term is the mean squared error
    when the mode in force is below 2 and the L1 loss otherwise; the mode
    in force is the one the iteration's mode switch leaves (2 at
    [mode2_iters], the control's value otherwise). *)
Theorem composite_loss it cam cks bg w :
  button_train_state (server w) = true ->
  let o := train_step it cam cks bg w in
  let gt := flip12 (original_image cam) in
  let m := if it =? mode2_iters (pipeline_args (self w)) then 2 else mode (server w) in
  exists pre post sl rendered,
    let photometric := if m <? 2 then mse_loss rendered gt else l1_loss rendered gt in
    let loss := t_lerp photometric (t_rsub 1.0 (ssim rendered gt))
                  (lambda_dssim (optimzer_args (self w))) in
    events o = pre ++ [EvRenderer sl (gui_render_type (server w)) rendered;
                       EvBP (BpBackward loss)] ++ post /\
    existsb is_backward pre = false /\
    existsb is_backward post = false /\
    mode (server (world o)) = m.
Proof.
  intros Htrain o gt m.
  destruct (train_step_backward_shape it cam cks bg w Htrain)
    as (pre & post & sl & rendered & H1 & H2 & H3 & H4 & _).
  exists pre, post, sl, rendered. cbv zeta. repeat split; assumption.
Qed.

(** C7 (as amended). In an iteration whose mode, after the mode
    switch, is not Refine (so in particular in Finalize, the mode entered
    at [mode2_iters]), every learning-rate update is made at the shifted
    iteration [iteration - 15000], never at the raw iteration, and such an
    update is made only past iteration 15200: the origin is the constant
    15000, whatever iteration the mode was entered at. *)
Theorem shifted_learning_rate_origin it cam cks bg w :
  (if it =? mode2_iters (pipeline_args (self w)) then 2 else mode (server w)) <> 1 ->
  (forall n,
     In (EvBP (BpUpdateLearningRate n)) (events (train_step it cam cks bg w)) ->
     n = it - 15000 /\ n <> it /\ 15200 < it) /\
  (15200 < it ->
     In (EvBP (BpUpdateLearningRate (it - 15000)))
        (events (train_step it cam cks bg w))).
Proof.
  intros Hm. apply Z.eqb_neq in Hm. split.
  - intros n Hin. apply train_step_update_lr in Hin; [|reflexivity].
    rewrite lr_update_events, mode_switch_mode, Hm in Hin.
    destruct (15200 <? it) eqn:L; [|destruct Hin].
    destruct Hin as [Hin|[]]. injection Hin as <-.
    apply Z.ltb_lt in L. lia.
  - intros L. apply Z.ltb_lt in L.
    rewrite train_step_events. cbv zeta.
    apply in_or_app. right. apply in_or_app. left.
    rewrite lr_update_events, mode_switch_mode, Hm, L. left. reflexivity.
Qed.

(** ** The claim about checkpoints *)

(** C10. At an iteration of the checkpoint list, with training enabled,
    the primitive path writes the checkpoint file of that iteration
    twice, to the same path: the first write comes before any optimizer
    step of the iteration, the optimizer step (when it runs) lies between
    the two writes, and nothing is written afterwards; each snapshot is
    the object as the calls made so far have left it, so the file that
    remains holds the state after the optimizer block. *)
Theorem checkpoint_written_twice it cam cks bg w :
  it ∈ cks ->
  button_train_state (server w) = true ->
  let o := train_step it cam cks bg w in
  let path := checkpoint_path (model_path (self w)) it in
  let b0 := bprimitive_object (self w) in
  exists pre mid post s1 s2,
    events o = pre ++ [EvSave path s1 it] ++ mid ++ [EvSave path s2 it] ++ post /\
    existsb is_save pre = false /\
    existsb is_save mid = false /\
    existsb is_save post = false /\
    existsb is_opt_step pre = false /\
    existsb is_opt_step post = false /\
    existsb is_opt_step mid
      = button_optimize_state (server w)
        && (it <? iterations (optimzer_args (self w))) /\
    s1 = bp_capture (replay pre b0) /\
    s2 = bp_capture (replay (pre ++ [EvSave path s1 it] ++ mid) b0) /\
    files (world o) !! path = Some (s2, it).
Proof.
  intros Hin Htrain o path b0. subst o.
  set (w3 := world (sh_update it (world (lr_update it (world (mode_switch it w)))))).
  assert (K : knobs w3 = knobs w) by (subst w3; autorewrite with frame; reflexivity).
  apply knobs_inv in K as (_ & Ko & _ & _ & _ & _ & Ki & _ & _ & _ & _ & Kp).
  assert (R : bprimitive_object (self w3)
              = replay (events (mode_switch it w)
                        ++ events (lr_update it (world (mode_switch it w)))
                        ++ events (sh_update it
                             (world (lr_update it (world (mode_switch it w))))))
                  b0).
  { subst w3. rewrite sh_update_replays, lr_update_replays, mode_switch_replays.
    rewrite !replay_app. reflexivity. }
  destruct (training_phase_checkpoints it cam cks bg (gui_render_type (server w))
              (flip12 (original_image cam)) w3 Hin)
    as (pre & mid & post & s1 & s2 & E & Hs1 & Hs2 & Hs3 & Ho1 & Ho3 & Ho2
        & S1 & S2 & F).
  rewrite Kp in E, S2, F. fold path in E, S2, F.
  rewrite Ko, Ki in Ho2. rewrite R in S1, S2.
  rewrite <- replay_app in S1, S2.
  rewrite (train_step_world_frame files) by blocks. cbv zeta. fold w3.
  rewrite train_step_events. cbv zeta. fold w3.
  rewrite Htrain, E.
  match goal with
  | |- context [?E1 ++ ?E2 ++ ?E3 ++ (pre ++ ?rest) ++ ?tl] =>
      exists (E1 ++ E2 ++ E3 ++ pre), mid, (post ++ tl), s1, s2
  end.
  split; [rewrite <- !app_assoc; reflexivity|].
  rewrite <- !app_assoc in S1, S2.
  rewrite <- !app_assoc.
  repeat split; try assumption.
  - rewrite !existsb_app, Hs1.
    repeat (rewrite silent_at by blocks). reflexivity.
  - rewrite existsb_app, Hs3. apply view_tail_silent. blocks.
  - rewrite !existsb_app, Ho1.
    repeat (rewrite silent_at by blocks). reflexivity.
  - rewrite existsb_app, Ho3. apply view_tail_silent. blocks.
Qed.

(** ** The claims about the mode and about restoring a checkpoint *)

Lemma train_step_mode it cam cks bg w :
  mode (server (world (train_step it cam cks bg w))) =
  if it =? mode2_iters (pipeline_args (self w)) then 2 else mode (server w).
Proof.
  pose proof (train_step_dials it cam cks bg w) as D.
  apply dials_inv in D as (-> & _). apply mode_switch_mode.
Qed.





(** C9. Starting from a checkpoint file that holds [(snap, n)], the
    trainer's first iteration counter is [n] and the object is restored
    from [snap]; [mode(2)] is then called, once and as the only mode
    call, exactly when [n] exceeds 15200, and no mode call is made when
    it does not. *)
Theorem checkpoint_restore da oa pa file us cams ext w snap n :
  file <> "" ->
  files w !! file = Some (snap, n) ->
  let o := Trainer_init da oa pa (Some file) us cams ext w in
  let restored := bp_exec (BpRestore snap oa) (bp_new da oa) in
  result o = Ok tt /\
  first_iter (self (world o)) = n /\
  ema_loss_for_log (self (world o)) = 0%float /\
  filter is_mode_call (events o)
    = (if 15200 <? n then [EvBP (BpMode 2)] else []) /\
  bprimitive_object (self (world o))
    = (if 15200 <? n then snd (bp_mode 2 restored) else restored).
Proof.
  intros Hne Hfile o restored. subst o restored.
  apply String.eqb_neq in Hne.
  unfold Trainer_init. rewrite Hne.
  destruct TENSORBOARD_FOUND;
    unfold bind, emit, modify, get, ret, when, bp, bp_mode_call, result, world, events;
    cbn; rewrite Hfile; cbn;
    destruct (15200 <? n); cbn; repeat split; reflexivity.
Qed.

(** ** The view of the baseline point path *)

(** Whatever the selector holds besides "debug" and "GT Image", the
    baseline step with a client attached ends in an exception, having
    printed and published nothing. *)
Lemma train_step_3dgs_unknown_selector it cam bg w :
  attached (server w) = true ->
  String.eqb (render_type (server w)) "debug" = false ->
  String.eqb (render_type (server w)) "GT Image" = false ->
  let o := train_step_3dgs it cam bg w in
  (exists x, result o = Raise x) /\
  (result (training_phase_3dgs it cam bg (original_image cam) w) = Ok tt ->
   result o = Raise (UnboundLocalError "output")) /\
  existsb is_print (events o) = false /\
  existsb is_publish (events o) = false.
Proof.
  intros Ha Hd Hg o. subst o. unfold train_step_3dgs. cbv zeta.
  rewrite bind_run. cbn [server_get result world events fst snd app].
  rewrite bind_run.
  set (m := when (button_train_state (server w))
              (training_phase_3dgs it cam bg (original_image cam))).
  assert (Sp : silent is_print m) by (subst m; blocks).
  assert (Sb : silent is_publish m) by (subst m; blocks).
  assert (Pa : attached (server (world (m w))) = true).
  { rewrite <- Ha. subst m.
    assert (P : preserves (fun w => attached (server w))
                  (when (button_train_state (server w))
                     (training_phase_3dgs it cam bg (original_image cam))))
      by blocks.
    apply P. }
  assert (Pr : render_type (server (world (m w))) = render_type (server w)).
  { subst m.
    assert (P : preserves (fun w => render_type (server w))
                  (when (button_train_state (server w))
                     (training_phase_3dgs it cam bg (original_image cam))))
      by blocks.
    apply P. }
  assert (V : view_phase_3dgs cam bg (original_image cam) (world (m w))
              = (Raise (UnboundLocalError "output"), world (m w),
                 [EvRender3dgs (render_3dgs
                    (view_camera (client (server (world (m w)))) cam
                       (original_image cam))
                    (gaussian_ori (self (world (m w)))) bg)])).
  { unfold view_phase_3dgs. rewrite bind_run. cbn [get result world events fst snd].
    rewrite bind_run. cbn [emit result world events fst snd].
    rewrite bind_run, Pr, Hd, Hg. reflexivity. }
  destruct (result (m w)) as [[]|x] eqn:R; cbn [result world events fst snd].
  - rewrite bind_run. cbn [server_get result world events fst snd app].
    rewrite Pa. cbn [negb]. rewrite V. cbn [result world events fst snd].
    rewrite !existsb_app, (Sp w), (Sb w).
    repeat split; try reflexivity. eexists; reflexivity.
  - rewrite (Sp w), (Sb w). repeat split; try reflexivity.
    + eexists; reflexivity.
    + intros H. subst m. destruct (button_train_state (server w)).
      * cbn [when] in R. congruence.
      * discriminate R.
Qed.

(** ** The claim about the moving average of the loss *)

Lemma Trainer_init_ema da oa pa ck us cams ext w :
  ema_loss_for_log (self (world (Trainer_init da oa pa ck us cams ext w)))
  = 0%float.
Proof.
  unfold Trainer_init.
  destruct TENSORBOARD_FOUND;
    unfold bind, emit, modify, get, ret, raise, when, bp, bp_mode_call, world;
    cbn; (destruct ck as [file|]; [|reflexivity]);
    (destruct (String.eqb file ""); [reflexivity|]); cbn;
    (destruct (files w !! file) as [[snap n]|]; [|reflexivity]); cbn;
    destruct (15200 <? n); reflexivity.
Qed.

(** C1 (as amended). In every iteration with the training-enabled
    control set, the moving average becomes
    [0.4 * loss + 0.6 * previous] (binary64 arithmetic), where [loss] is
    the loss of that iteration's backward pass, in the primitive path and
    in the baseline point path alike; it starts at 0; and for the losses
    1.0, 0.5, 0.25 its successive values are 0.4, 0.44, 0.364. *)
Theorem ema_recurrence it cam cks bg w :
  button_train_state (server w) = true ->
  (exists pre post loss,
     events (train_step it cam cks bg w)
       = pre ++ [EvBP (BpBackward loss)] ++ post /\
     existsb is_backward pre = false /\
     existsb is_backward post = false /\
     ema_loss_for_log (self (world (train_step it cam cks bg w)))
       = (0.4 * item loss + 0.6 * ema_loss_for_log (self w))%float) /\
  (exists loss,
     In (EvGS (GsBackward loss)) (events (train_step_3dgs it cam bg w)) /\
     ema_loss_for_log (self (world (train_step_3dgs it cam bg w)))
       = (0.4 * item loss + 0.6 * ema_loss_for_log (self w))%float) /\
  (forall da oa pa ck us cams ext w',
     ema_loss_for_log (self (world (Trainer_init da oa pa ck us cams ext w')))
       = 0%float) /\
  ema_trace [1.0; 0.5; 0.25]%float 0%float = [0.4; 0.44; 0.364]%float.
Proof.
  intros Htrain. repeat split.
  - destruct (train_step_backward_shape it cam cks bg w Htrain)
      as (pre & post & sl & rendered & E & Hpre & Hpost & _ & He).
    eexists (pre ++ [_]), post, _. rewrite <- !app_assoc.
    split; [exact E|]. split; [|split; [exact Hpost|exact He]].
    rewrite existsb_app, Hpre. reflexivity.
  - destruct (train_step_3dgs_ema it cam bg w Htrain) as (loss & Hin & He).
    exists loss. split; [exact Hin|exact He].
  - intros. apply Trainer_init_ema.
Qed.

End Correctness.

(** ** Concrete runs *)

(** C3, the claim as stated fails: at the last iteration of the budget
    both controls are set and no optimizer step is taken. *)
Lemma last_iteration_takes_no_step :
  button_train_state (server Toy.w_init) = true /\
  button_optimize_state (server Toy.w_init) = true /\
  iterations (optimzer_args (self Toy.w_init)) = 3 /\
  existsb is_opt_step
    (events (train_step (O:=Toy.objects) 3 1.0%float [3] tt Toy.w_init)) = false.
Proof. vm_compute. repeat split. Qed.

(** C2, the claim as stated fails: in this iteration the edit runs, the
    optimizer step has already run, and no optimizer step follows the
    edit, so the edit is not between the backward pass and the step. *)
Lemma edit_is_not_before_the_step :
  let evs := events (train_step (O:=Toy.objects) 2 1.0%float [] tt Toy.w_init) in
  existsb is_densify evs = true /\
  precedes is_opt_step is_densify evs = true /\
  precedes is_densify is_opt_step evs = false.
Proof. vm_compute. repeat split. Qed.

(** The amended C2 at the iteration above: the edit runs there. *)
Lemma edit_follows_optimizer_step_witness :
  let evs := events (train_step (O:=Toy.objects) 2 1.0%float [] tt Toy.w_init) in
  precedes is_backward is_densify evs = true /\
  precedes is_densify is_opt_step evs = false.
Proof.
  intros evs.
  destruct (edit_follows_optimizer_step (O:=Toy.objects) 2 1.0%float [] tt Toy.w_init)
    as (_ & Hb & Hn & _).
  - vm_compute. reflexivity.
  - split; assumption.
Defined.

(** C8 at an iteration where the edit runs (iteration 2, interval 2,
    ceiling 3, flag set) and at one past the deadline (15001 > 15000). *)
Lemma densify_gate_witness :
  (2 < densify_until_iter (optimzer_args (self Toy.w_init)) /\
   checkbox_split (server Toy.w_init) = true) /\
  checkbox_split
    (server (world (train_step (O:=Toy.objects) 15001 1.0%float [] tt Toy.w0)))
  = false.
Proof.
  split.
  - destruct (proj1 (densify_gate (O:=Toy.objects) 2 1.0%float [] tt Toy.w_init))
      as (Hu & _ & _ & Hs & _).
    + vm_compute. reflexivity.
    + split; assumption.
  - destruct (proj2 (densify_gate (O:=Toy.objects) 15001 1.0%float [] tt Toy.w0))
      as (Hs & _).
    + vm_compute. reflexivity.
    + exact Hs.
Defined.

(** C1, the claim as stated fails on its example: a run of three
    iterations whose losses are 1.0, 0.5 and 0.25 reports the moving
    averages 0.4, 0.44, 0.364, not 0.4, 0.46, 0.376. *)
Lemma ema_example_is_not_as_stated :
  let evs := events (train (O:=Toy.objects) Toy.first_pick [3] (-1) false Toy.w0) in
  backward_losses evs = [1.0; 0.5; 0.25]%float /\
  logged_ema evs = [0.4; 0.44; 0.364]%float /\
  logged_ema evs <> [0.4; 0.46; 0.376]%float.
Proof.
  cbv zeta. split; [vm_compute; reflexivity|].
  split; [vm_compute; reflexivity|].
  intros H.
  apply (f_equal (fun l => match l with
                           | _ :: x :: _ => PrimFloat.ltb x 0.45
                           | _ => false
                           end)) in H.
  vm_compute in H. discriminate H.
Qed.

(** The amended C1 at the first iteration of that run. *)
Lemma ema_recurrence_witness :
  button_train_state (server Toy.w0) = true /\
  exists loss : float,
    ema_loss_for_log
      (self (world (train_step (O:=Toy.objects) 1 1.0%float [] tt Toy.w0)))
    = (0.4 * loss + 0.6 * 0)%float.
Proof.
  split; [reflexivity|].
  destruct (ema_recurrence (O:=Toy.objects) 1 1.0%float [] tt Toy.w0 eq_refl)
    as ((pre & post & loss & _ & _ & _ & He) & _).
  exists loss. exact He.
Defined.


(** C5 at an iteration that trains in Finalize. *)
Lemma composite_loss_witness :
  button_train_state (server Toy.w0) = true /\
  mode (server (world (train_step (O:=Toy.objects) 1 1.0%float [] tt Toy.w0))) = 2.
Proof.
  split; [reflexivity|].
  destruct (composite_loss (O:=Toy.objects) 1 1.0%float [] tt Toy.w0 eq_refl)
    as (pre & post & sl & rendered & _ & _ & _ & Hm).
  exact Hm.
Defined.

(** C7 at iteration 15201 in Finalize: the update is made at 201. *)
Lemma shifted_learning_rate_origin_witness :
  In (EvBP (BpUpdateLearningRate 201))
     (events (train_step (O:=Toy.objects) 15201 1.0%float [] tt Toy.w0)).
Proof.
  apply (shifted_learning_rate_origin (O:=Toy.objects) 15201 1.0%float [] tt Toy.w0).
  - cbn. discriminate.
  - reflexivity.
Defined.

(** C9 on a checkpoint taken at iteration 20000, past the threshold. *)
Lemma checkpoint_restore_witness :
  first_iter
    (self (world (Trainer_init (O:=Toy.objects) Toy.data Toy.opt Toy.pipe
                    (Some "chkpnt20000.pth") "run" [] 1.0%float Toy.w_disk)))
  = 20000 /\
  Toy.boundary
    (bprimitive_object
       (self (world (Trainer_init (O:=Toy.objects) Toy.data Toy.opt Toy.pipe
                       (Some "chkpnt20000.pth") "run" [] 1.0%float Toy.w_disk))))
  = 2.
Proof.
  destruct (checkpoint_restore (O:=Toy.objects) Toy.data Toy.opt Toy.pipe
              "chkpnt20000.pth" "run" [] 1.0%float Toy.w_disk
              {| Toy.boundary := 1; Toy.steps := 19999; Toy.edits := 7 |} 20000)
    as (_ & Hf & _ & _ & Hb).
  - discriminate.
  - vm_compute. reflexivity.
  - split; [exact Hf|]. rewrite Hb. reflexivity.
Defined.

(** C10 at iteration 2 of the checkpoint list [2]. *)
Lemma checkpoint_written_twice_witness :
  exists s,
    files (world (train_step (O:=Toy.objects) 2 1.0%float [2] tt Toy.w0))
      !! "out/chkpnt2.pth" = Some (s, 2).
Proof.
  destruct (checkpoint_written_twice (O:=Toy.objects) 2 1.0%float [2] tt Toy.w0)
    as (pre & mid & post & s1 & s2 & _ & _ & _ & _ & _ & _ & _ & _ & _ & F).
  - apply list_elem_of_here.
  - reflexivity.
  - exists s2. exact F.
Defined.

(** C6, the baseline point path. With the client attached and a
    selector value outside the supported set, the first iteration of a
    three-iteration run raises [UnboundLocalError] for [output]: nothing
    is logged, nothing is published, and the run stops after one backward
    pass. *)
Theorem baseline_view_selector_aborts :
  let o := train (O:=Toy.objects) Toy.first_pick [3] (-1) false Toy.w_points in
  result o = Raise (UnboundLocalError "output") /\
  existsb is_print (events o) = false /\
  existsb is_publish (events o) = false /\
  backward_losses (events o) = [1.0%float].
Proof. vm_compute. repeat split. Qed.

(** The primitive path on a selector it does not know: the message is
    printed, the client is handed [None], and the iteration completes. *)
Lemma primitive_view_unknown_selector :
  let o := train_step (O:=Toy.objects) 1 1.0%float [] tt Toy.w_unknown in
  result o = Ok tt /\
  In (EvPrint "Unsupported render type: Wireframe") (events o) /\
  In (EvSetBackgroundImage None) (events o).
Proof. vm_compute. repeat split; auto 20. Qed.

(** ** Further properties: outcomes, checkpoint files, the loop and the baseline path *)

Section Further.
Context {X : Externals} {O : ObjectSemantics}.

Lemma train_loop_cons orc cks dbg it rest st w :
  let stack := match st with [] => train_cameras (self w) | _ => st end in
  let i := (rand_index orc it `mod` length stack)%nat in
  train_loop orc cks dbg (it :: rest) st w =
  match stack !! i with
  | None => (Raise ValueError, w, [])
  | Some cam =>
      let w1 := if it - 1 =? dbg
                then set_self (fun t => set_pipeline_args
                                 (set_debug true (pipeline_args t)) t) w
                else w in
      let bg := if random_background (optimzer_args (self w1))
                then rand_background orc it else background (self w1) in
      let s := (if checkbox_pts_mode (server w1)
                then train_step_3dgs it cam bg
                else train_step it cam cks bg) w1 in
      match result s with
      | Ok _ =>
          let r := train_loop orc cks dbg rest (delete i stack) (world s) in
          (result r, world r, events s ++ events r)
      | Raise x => (Raise x, world s, events s)
      end
  end.
Proof.
  intros stack i. cbn [train_loop].
  rewrite bind_run. cbn [self_get result world events fst snd app].
  fold stack. fold i.
  destruct (stack !! i) as [cam|]; [|reflexivity].
  rewrite bind_run.
  destruct (it - 1 =? dbg);
    cbn [when modify ret result world events fst snd app];
    rewrite bind_run; cbn [get result world events fst snd app];
    rewrite bind_run; cbv zeta;
    (destruct (checkbox_pts_mode _);
     [destruct (result (train_step_3dgs _ _ _ _))
     |destruct (result (train_step _ _ _ _ _))]);
    cbn [result world events fst snd app]; reflexivity.
Qed.

Hint Rewrite mode_switch_knobs lr_update_knobs sh_update_knobs backward_knobs
  log_progress_knobs save_checkpoint_knobs accumulate_stats_knobs
  optimizer_block_knobs densification_knobs training_phase_knobs
  view_phase_knobs
  lr_update_dials sh_update_dials backward_dials
  log_progress_dials save_checkpoint_dials accumulate_stats_dials
  optimizer_block_dials densification_dials training_phase_dials
  view_phase_dials
  mode_switch_files lr_update_files sh_update_files backward_files
  log_progress_files accumulate_stats_files optimizer_block_files
  densification_files view_phase_files
  mode_switch_ema lr_update_ema sh_update_ema backward_ema
  save_checkpoint_ema accumulate_stats_ema optimizer_block_ema
  densification_ema view_phase_ema : frame.

(** *** When a step of the primitive path raises *)

Lemma densification_result it w :
  result (densification it w) =
  if (it <? densify_until_iter (optimzer_args (self w)))
     && (densification_interval (optimzer_args (self w)) =? 0)
  then Raise ZeroDivisionError else Ok tt.
Proof.
  unfold densification, when. rewrite bind_run.
  cbn [get result world events fst snd].
  destruct (it <? densify_until_iter _); [|reflexivity].
  destruct (densification_interval _ =? 0); [reflexivity|].
  destruct (_ && _); reflexivity.
Qed.

Lemma accumulate_stats_edges gt dbg w :
  exists edges,
    result (accumulate_stats gt dbg w) = Ok edges /\
    existsb is_edge_stats (events (accumulate_stats gt dbg w))
    = bool_decide (is_Some edges).
Proof.
  unfold accumulate_stats.
  rewrite bind_run. cbn [bp result world events fst snd].
  rewrite bind_run. cbn [bp result world events fst snd].
  rewrite bind_run. cbn [self_get result world events fst snd].
  destruct (0 <? bp_boundary_mode _).
  - rewrite bind_run. cbn [bp ret result world events fst snd app].
    eexists. split; reflexivity.
  - eexists. split; reflexivity.
Qed.

Lemma publish_total o c : total (bind (publish o c) (fun _ => emit EvEmptyCache)).
Proof. blocks. Qed.

Lemma view_phase_result cam rt gt edges w :
  result (view_phase cam rt gt edges w) =
  if String.eqb rt "edges" && negb (bool_decide (is_Some edges))
  then Raise (UnboundLocalError "edges") else Ok tt.
Proof.
  unfold view_phase.
  rewrite bind_run. cbn [get result world events fst snd].
  rewrite bind_run. cbn [emit result world events fst snd].
  rewrite bind_run.
  destruct (String.eqb_spec rt "edges") as [->|Hne].
  - destruct edges as [e|]; cbn [andb negb].
    + change (select_output "edges" _ _ gt (Some e) _ _)
        with (@ret X (option view_output) (Some (VEdges e)) w).
      cbn [ret result world events fst snd].
      apply total_unit, publish_total.
    + reflexivity.
  - cbn [andb]. apply String.eqb_neq in Hne.
    unfold select_output. rewrite Hne. clear Hne.
    repeat (destruct (String.eqb rt _);
            [cbn [ret result world events fst snd];
             apply total_unit, publish_total|]).
    rewrite bind_run. cbn [emit ret result world events fst snd].
    apply total_unit, publish_total.
Qed.

Lemma train_step_edge_stats it cam cks bg w :
  let w3 := world (sh_update it (world (lr_update it (world (mode_switch it w))))) in
  existsb is_edge_stats (events (train_step it cam cks bg w)) =
  existsb is_edge_stats
    (events ((if button_train_state (server w)
              then training_phase it cam cks bg (gui_render_type (server w))
                     (flip12 (original_image cam))
              else ret None) w3)).
Proof.
  intros w3. rewrite train_step_events. cbv zeta. fold w3.
  rewrite !existsb_app.
  rewrite (silent_at is_edge_stats (mode_switch _)) by blocks.
  rewrite (silent_at is_edge_stats (lr_update _)) by blocks.
  rewrite (silent_at is_edge_stats (sh_update _)) by blocks.
  rewrite view_tail_silent by blocks.
  cbn [orb]. apply orb_false_r.
Qed.

(** X1. A step of the primitive path raises in two cases only, and in
    this order: [ZeroDivisionError] when training is enabled, the
    iteration is below [densify_until_iter] and [densification_interval]
    is 0; otherwise [UnboundLocalError] for [edges] when a client is
    attached, the selector is "edges" and the iteration accumulated no
    edge statistics (training disabled, or the object has no boundary
    mode).  In every other case it returns normally. *)
Theorem train_step_result it cam cks bg w :
  let o := train_step it cam cks bg w in
  result o =
  if button_train_state (server w)
     && (it <? densify_until_iter (optimzer_args (self w)))
     && (densification_interval (optimzer_args (self w)) =? 0)
  then Raise ZeroDivisionError
  else if attached (server w)
          && String.eqb (gui_render_type (server w)) "edges"
          && negb (existsb is_edge_stats (events o))
  then Raise (UnboundLocalError "edges")
  else Ok tt.
Proof.
  intros o. subst o.
  rewrite train_step_edge_stats. cbv zeta.
  rewrite train_step_run. cbv zeta.
  set (w3 := world (sh_update it (world (lr_update it (world (mode_switch it w)))))).
  assert (K : knobs w3 = knobs w) by (subst w3; autorewrite with frame; reflexivity).
  destruct (button_train_state (server w)) eqn:Htr; cbn [andb].
  - rewrite training_phase_run. cbv zeta. cbn [result world events fst snd].
    rewrite densification_result.
    match goal with
    | |- context [densify_until_iter (optimzer_args (self ?wf))] =>
        lazymatch wf with
        | w => fail
        | _ => assert (Kf : knobs wf = knobs w)
                 by (autorewrite with frame; exact K);
               apply knobs_inv in Kf
                 as (_ & _ & _ & _ & _ & _ & _ & _ & -> & -> & _)
        end
    end.
    destruct ((it <? densify_until_iter _) && (densification_interval _ =? 0));
      [reflexivity|].
    match goal with
    | |- context [result (accumulate_stats ?g ?d ?wc)] =>
        destruct (accumulate_stats_edges g d wc) as (edges & Hr & He);
        rewrite Hr
    end.
    rewrite !existsb_app.
    rewrite (silent_at is_edge_stats (log_progress _ _)) by blocks.
    rewrite !(silent_at is_edge_stats (save_checkpoint _ _)) by blocks.
    rewrite (silent_at is_edge_stats (optimizer_block _)) by blocks.
    rewrite (silent_at is_edge_stats (densification _)) by blocks.
    rewrite He. cbn [existsb is_edge_stats orb]. rewrite !orb_false_r.
    destruct (attached (server w)); cbn [andb result world events fst snd];
      [|reflexivity].
    rewrite view_phase_result. reflexivity.
  - cbn [ret result world events fst snd existsb negb].
    rewrite andb_true_r.
    destruct (attached (server w)); cbn [andb result world events fst snd];
      [|reflexivity].
    rewrite view_phase_result. cbn [negb]. rewrite andb_true_r. reflexivity.
Qed.

(** *** The view *)

Lemma select_output_run rt img dbg gt edges pa w :
  exists o evs,
    existsb is_publish evs = false /\
    select_output rt img dbg gt edges pa w =
    if String.eqb rt "edges" && negb (bool_decide (is_Some edges))
    then (Raise (UnboundLocalError "edges"), w, [])
    else (Ok o, w, evs).
Proof.
  destruct (String.eqb_spec rt "edges") as [->|Hne].
  - destruct edges as [e|]; cbn [andb negb].
    + exists (Some (VEdges e)), []. split; reflexivity.
    + exists None, []. split; reflexivity.
  - cbn [andb]. apply String.eqb_neq in Hne.
    unfold select_output. rewrite Hne. clear Hne.
    repeat (destruct (String.eqb rt _);
            [eexists _, []; split; reflexivity|]).
    exists None, [EvPrint ("Unsupported render type: " +:+ rt)].
    split; reflexivity.
Qed.

Lemma publish_run o c w :
  publish o c w =
  (Ok tt, set_server (set_num_primtives (Some (pretty c)))
            (if bool_decide (is_Some (num_primtives (server w))) then w
             else set_server (set_num_primtives (Some "0")) w),
   [EvSetBackgroundImage o]).
Proof.
  unfold publish, when. rewrite bind_run. cbn [emit result world events fst snd].
  rewrite bind_run. cbn [server_get result world events fst snd].
  rewrite bind_run.
  destruct (bool_decide (is_Some (num_primtives (server w)))); reflexivity.
Qed.

Lemma view_phase_outcome cam rt gt edges w :
  let o := view_phase cam rt gt edges w in
  if String.eqb rt "edges" && negb (bool_decide (is_Some edges))
  then result o = Raise (UnboundLocalError "edges") /\
       world o = w /\
       List.filter is_publish (events o) = []
  else result o = Ok tt /\
       (exists out, List.filter is_publish (events o) = [EvSetBackgroundImage out]) /\
       num_primtives (server (world o))
       = Some (pretty (bp_control_point_size (bprimitive_object (self w)))) /\
       bprimitive_object (self (world o)) = bprimitive_object (self w).
Proof.
  intros o. subst o. unfold view_phase.
  rewrite bind_run. cbn [get result world events fst snd].
  rewrite bind_run. cbn [emit result world events fst snd].
  rewrite bind_run.
  match goal with
  | |- context [select_output ?a ?b ?c ?d ?f ?g w] =>
      destruct (select_output_run a b c d f g w) as (out & evs & Hp & ->)
  end.
  destruct (String.eqb rt "edges" && negb (bool_decide (is_Some edges)));
    cbn [result world events fst snd app].
  - repeat split; reflexivity.
  - rewrite bind_run, publish_run. cbn [emit result world events fst snd app].
    repeat split.
    + exists out. cbn [List.filter is_publish app].
      rewrite List.filter_app.
      assert (F : List.filter is_publish evs = []).
      { clear -Hp. induction evs as [|e evs IH]; [reflexivity|].
        cbn [existsb] in Hp. apply orb_false_elim in Hp as [He Hp].
        cbn. rewrite He. cbn. apply IH, Hp. }
      rewrite F. reflexivity.
    + destruct (bool_decide _); reflexivity.
Qed.

Lemma filter_silent (p : event -> bool) (l : list event) :
  existsb p l = false -> List.filter p l = [].
Proof.
  induction l as [|e l IH]; [reflexivity|]. cbn [existsb List.filter].
  intros H. apply orb_false_elim in H as [-> H]. apply IH, H.
Qed.

Lemma train_step_before_view {C} (f : World -> C) it cam cks bg w :
  preserves f (mode_switch it) ->
  preserves f (lr_update it) ->
  preserves f (sh_update it) ->
  (forall rt gt, preserves f (training_phase it cam cks bg rt gt)) ->
  let w3 := world (sh_update it (world (lr_update it (world (mode_switch it w))))) in
  f (world ((if button_train_state (server w)
             then training_phase it cam cks bg (gui_render_type (server w))
                    (flip12 (original_image cam))
             else ret None) w3)) = f w.
Proof.
  intros H1 H2 H3 H4 w3.
  assert (E : f w3 = f w) by (subst w3; rewrite H3, H2, H1; reflexivity).
  destruct (button_train_state (server w)); [rewrite H4|]; exact E.
Qed.

(** X2. A step that returns normally with a client attached publishes
    exactly one view and leaves the primitive-count display equal to the
    current population size; a step that raises, or runs with no client,
    publishes nothing and leaves the display as it was. *)
Theorem train_step_publication it cam cks bg w :
  let o := train_step it cam cks bg w in
  match result o with
  | Ok _ =>
      if attached (server w) then
        (exists out, List.filter is_publish (events o) = [EvSetBackgroundImage out]) /\
        num_primtives (server (world o))
        = Some (pretty (bp_control_point_size (bprimitive_object (self (world o)))))
      else
        List.filter is_publish (events o) = [] /\
        num_primtives (server (world o)) = num_primtives (server w)
  | Raise _ =>
      List.filter is_publish (events o) = [] /\
      num_primtives (server (world o)) = num_primtives (server w)
  end.
Proof.
  intros o. subst o.
  pose proof (train_step_before_view (fun w => num_primtives (server w))
                it cam cks bg w) as N.
  cbv zeta in N. rewrite train_step_run. cbv zeta.
  set (w3 := world (sh_update it (world (lr_update it (world (mode_switch it w)))))) in *.
  set (t := (if button_train_state (server w)
             then training_phase it cam cks bg (gui_render_type (server w))
                    (flip12 (original_image cam))
             else ret None) w3) in *.
  assert (N' : num_primtives (server (world t)) = num_primtives (server w))
    by (apply N; blocks).
  assert (Q : List.filter is_publish
                (events (mode_switch it w)
                 ++ events (lr_update it (world (mode_switch it w)))
                 ++ events (sh_update it
                      (world (lr_update it (world (mode_switch it w)))))) = []).
  { apply filter_silent. rewrite !existsb_app.
    repeat (rewrite silent_at by blocks). reflexivity. }
  assert (Qt : List.filter is_publish (events t) = []).
  { apply filter_silent. subst t.
    destruct (button_train_state (server w)); [|reflexivity].
    apply silent_at. blocks. }
  destruct (result t) as [edges|x].
  - destruct (attached (server w)); cbn [result world events fst snd].
    + pose proof (view_phase_outcome cam (gui_render_type (server w))
                    (flip12 (original_image cam)) edges (world t)) as V.
      cbv zeta in V.
      destruct (String.eqb _ "edges" && negb _).
      * destruct V as (-> & -> & Vp).
        rewrite List.filter_app, Q, List.filter_app, Qt, Vp.
        split; [reflexivity|exact N'].
      * destruct V as (-> & (out & Vp) & Vn & Vb).
        rewrite List.filter_app, Q, List.filter_app, Qt, Vp, Vn, Vb.
        split; [exists out; reflexivity|reflexivity].
    + rewrite List.filter_app, Q, Qt. split; [reflexivity|exact N'].
  - cbn [result world events fst snd].
    rewrite List.filter_app, Q, Qt. split; [reflexivity|exact N'].
Qed.

(** X3. With the training-enabled control off, a step renders for no
    loss: it makes no backward pass, optimizer step, structural edit,
    statistics update or report, writes no checkpoint, and leaves the
    moving average and the checkpoint files as they were. *)
Theorem train_step_paused it cam cks bg w :
  button_train_state (server w) = false ->
  let o := train_step it cam cks bg w in
  existsb is_backward (events o) = false /\
  existsb is_opt_step (events o) = false /\
  existsb is_densify (events o) = false /\
  existsb is_save (events o) = false /\
  existsb is_report (events o) = false /\
  existsb is_edge_stats (events o) = false /\
  ema_loss_for_log (self (world o)) = ema_loss_for_log (self w) /\
  files (world o) = files w.
Proof.
  intros H o. subst o.
  change (ema_loss_for_log (self (world (train_step it cam cks bg w))))
    with (ema (world (train_step it cam cks bg w))).
  rewrite (train_step_world_frame ema), (train_step_world_frame files) by blocks.
  rewrite train_step_events. cbv zeta.
  repeat split;
    rewrite ?existsb_app;
    repeat (rewrite silent_at by blocks);
    rewrite ?view_tail_silent by blocks;
    rewrite H; cbn [ret result world events fst snd app existsb];
    autorewrite with frame; reflexivity.
Qed.

Lemma save_checkpoint_files_if it cks w :
  files (world (save_checkpoint it cks w)) =
  if bool_decide (it ∈ cks)
  then <[checkpoint_path (model_path (self w)) it :=
           (bp_capture (bprimitive_object (self w)), it)]> (files w)
  else files w.
Proof. rewrite save_checkpoint_run. destruct (bool_decide _); reflexivity. Qed.

(** X4. The only checkpoint file a step can write is that of its own
    iteration: every other path keeps its content, and when the iteration
    is not in the checkpoint list, or training is disabled, the
    checkpoint files are untouched. *)
Theorem train_step_files it cam cks bg w :
  let o := train_step it cam cks bg w in
  (forall p, p <> checkpoint_path (model_path (self w)) it ->
             files (world o) !! p = files w !! p) /\
  (bool_decide (it ∈ cks) && button_train_state (server w) = false ->
   files (world o) = files w).
Proof.
  intros o. subst o.
  rewrite (train_step_world_frame files) by blocks. cbv zeta.
  set (w3 := world (sh_update it (world (lr_update it (world (mode_switch it w)))))).
  assert (K : knobs w3 = knobs w) by (subst w3; autorewrite with frame; reflexivity).
  assert (F : files w3 = files w) by (subst w3; autorewrite with frame; reflexivity).
  destruct (button_train_state (server w)).
  - rewrite training_phase_run. cbv zeta. cbn [world fst snd].
    rewrite densification_files, save_checkpoint_files_if.
    autorewrite with frame. rewrite save_checkpoint_files_if.
    autorewrite with frame. rewrite F.
    match goal with
    | |- context [model_path (self ?wx)] =>
        lazymatch wx with
        | w => fail
        | _ => assert (Kx : knobs wx = knobs w)
                 by (autorewrite with frame; exact K);
               apply knobs_inv in Kx
                 as (_ & _ & _ & _ & _ & _ & _ & _ & _ & _ & _ & ->)
        end
    end.
    match goal with
    | |- context [model_path (self ?wx)] =>
        lazymatch wx with
        | w => fail
        | _ => assert (Kx : knobs wx = knobs w)
                 by (autorewrite with frame; exact K);
               apply knobs_inv in Kx
                 as (_ & _ & _ & _ & _ & _ & _ & _ & _ & _ & _ & ->)
        end
    end.
    destruct (bool_decide (it ∈ cks)); cbn [andb].
    + split; [|discriminate]. intros p Hp.
      rewrite !lookup_insert_ne by congruence. reflexivity.
    + split; reflexivity.
  - cbn [ret world fst snd]. rewrite andb_false_r. split; intros; rewrite F; reflexivity.
Qed.

(** *** The mode switch *)

Ltac norm_world :=
  cbv [set_self set_server set_files set_mode set_slider_boundary_scale
       set_checkbox_split set_num_primtives set_attached
       set_bprimitive_object set_gaussian_ori set_optimzer_args
       set_pipeline_args set_first_iter set_ema_loss_for_log
       set_position_lr_init set_debug];
  cbn [server self files
       attached num_primtives client mode slider_boundary_scale
       checkbox_split checkbox_pts_mode button_train_state
       button_optimize_state num_segments_per_bprimitive_edge gaussian_scale
       learning_rate wandb render_type gui_render_type
       first_iter ema_loss_for_log dataset_args optimzer_args pipeline_args
       bprimitive_object gaussian_ori background train_cameras cameras_extent
       model_path
       iterations position_lr_init lambda_dssim densify_until_iter
       densification_interval densify_from_iter opacity_reset_interval
       densify_grad_threshold random_background optimizer_type
       mode2_iters fix_iters log_blur_radius_tex edge_threshold grad_threshold
       vis_threshold area_threshold debug
       fst snd].

Ltac run_mode_switch :=
  unfold mode_switch, when, bind, self_get, server_get, modify, bp,
    bp_mode_call, ret, world, result, events; norm_world.

Ltac settle :=
  repeat progress
    (norm_world;
     change (2 =? 0) with false; change (2 =? 1) with false;
     change (2 =? 2) with true;
     change (0 =? 0) with true; change (0 =? 1) with false;
     change (0 =? 2) with false).

Lemma mode_switch_slider_finalize it w :
  it = mode2_iters (pipeline_args (self w)) ->
  slider_boundary_scale (server (world (mode_switch it w)))
  = log_blur_radius_tex (pipeline_args (self w)).
Proof.
  intros ->. run_mode_switch. rewrite Z.eqb_refl. settle.
  destruct (fix_iters _ <? mode2_iters _); settle;
    destruct (fst (bp_mode 2 _)); settle;
    try destruct (fix_iters _ <? 30000); reflexivity.
Qed.

Lemma mode_switch_slider_init it w :
  it <> mode2_iters (pipeline_args (self w)) ->
  mode (server w) = 0 ->
  slider_boundary_scale (server (world (mode_switch it w))) = (-9.0)%float.
Proof.
  intros Hne Hm. apply Z.eqb_neq in Hne.
  run_mode_switch. rewrite Hne. settle.
  destruct (fix_iters _ <? it); settle; rewrite Hm; settle;
    destruct (fst (bp_mode 0 _)); settle; rewrite ?Hm; settle;
    reflexivity.
Qed.

Lemma mode_switch_texture it w :
  List.filter is_texture (events (mode_switch it w)) =
  if it =? mode2_iters (pipeline_args (self w))
  then [EvBP BpCreateFeatureTexture] else [].
Proof.
  unfold mode_switch. rewrite bind_run.
  cbn [self_get result world events fst snd app].
  rewrite bind_run.
  match goal with
  | |- context [result (?a w)] =>
      assert (Ta : total a) by blocks; rewrite (total_unit _ w Ta)
  end.
  cbn [result world events fst snd]. rewrite List.filter_app.
  match goal with
  | |- _ ++ List.filter _ (events (?m ?w1)) = _ =>
      assert (S : silent is_texture m) by blocks;
      rewrite (filter_silent _ _ (S w1))
  end.
  rewrite app_nil_r. unfold when.
  destruct (it =? mode2_iters _); reflexivity.
Qed.

Lemma train_step_slider it cam cks bg w :
  slider_boundary_scale (server (world (train_step it cam cks bg w)))
  = slider_boundary_scale (server (world (mode_switch it w))).
Proof.
  pose proof (train_step_dials it cam cks bg w) as D.
  apply dials_inv in D as (_ & _ & D). exact D.
Qed.

(** X5. At iteration [mode2_iters] the step leaves the mode control at 2
    and the boundary-scale control at [log_blur_radius_tex], and calls
    [create_feature_texture] exactly once; at any other iteration it does
    not call it. *)
Theorem finalize_transition it cam cks bg w :
  let o := train_step it cam cks bg w in
  (it = mode2_iters (pipeline_args (self w)) ->
   mode (server (world o)) = 2 /\
   slider_boundary_scale (server (world o))
   = log_blur_radius_tex (pipeline_args (self w)) /\
   List.filter is_texture (events o) = [EvBP BpCreateFeatureTexture]) /\
  (it <> mode2_iters (pipeline_args (self w)) ->
   existsb is_texture (events o) = false).
Proof.
  intros o. subst o.
  assert (T : List.filter is_texture (events (train_step it cam cks bg w))
              = List.filter is_texture (events (mode_switch it w))).
  { rewrite train_step_events. cbv zeta. rewrite List.filter_app.
    match goal with
    | |- ?a ++ List.filter _ ?l = ?a =>
        assert (E : List.filter is_texture l = [])
    end.
    { apply filter_silent. rewrite !existsb_app.
      rewrite (silent_at is_texture (lr_update _)) by blocks.
      rewrite (silent_at is_texture (sh_update _)) by blocks.
      rewrite view_tail_silent by blocks.
      destruct (button_train_state (server w)); [|reflexivity].
      rewrite silent_at by blocks. reflexivity. }
    rewrite E. apply app_nil_r. }
  split.
  - intros H. rewrite train_step_mode, train_step_slider, T, mode_switch_texture.
    rewrite (mode_switch_slider_finalize it w H).
    apply Z.eqb_eq in H. rewrite H. repeat split.
  - intros H. apply Z.eqb_neq in H.
    rewrite mode_switch_texture, H in T.
    clear -T. induction (events _) as [|e l IH]; [reflexivity|].
    cbn [List.filter existsb] in *. destruct (is_texture e); [discriminate T|].
    apply IH, T.
Qed.

(** X6. While the mode control is 0 (and the iteration is not
    [mode2_iters]) every step puts the boundary-scale control back to
    -9.0, whatever it held before. *)
Theorem init_mode_pins_boundary_scale it cam cks bg w :
  mode (server w) = 0 ->
  it <> mode2_iters (pipeline_args (self w)) ->
  slider_boundary_scale (server (world (train_step it cam cks bg w)))
  = (-9.0)%float.
Proof.
  intros Hm Hne. rewrite train_step_slider.
  apply mode_switch_slider_init; assumption.
Qed.

Lemma mode_switch_lr it w :
  position_lr_init (optimzer_args (self (world (mode_switch it w)))) =
  if ((if it =? mode2_iters (pipeline_args (self w)) then 2 else mode (server w))
      =? 0)
     && fst (bp_mode 0
               (if it =? mode2_iters (pipeline_args (self w))
                then bp_apply BpCreateFeatureTexture (bprimitive_object (self w))
                else bprimitive_object (self w)))
  then (position_lr_init (optimzer_args (self w)) * 5)%float
  else position_lr_init (optimzer_args (self w)).
Proof.
  run_mode_switch.
  destruct (it =? mode2_iters _); settle.
  - destruct (fix_iters _ <? it); settle;
      destruct (fst (bp_mode 2 _)); settle;
      try destruct (fix_iters _ <? 30000); reflexivity.
  - destruct (fix_iters _ <? it); settle;
      destruct (mode (server w) =? 0) eqn:M0; settle.
    all: try (apply Z.eqb_eq in M0; rewrite ?M0; settle;
              destruct (fst (bp_mode 0 _)); settle; rewrite ?M0; settle;
              reflexivity).
    all: destruct (mode (server w) =? 1); settle;
      try (destruct (fst (bp_mode 1 _)); settle;
           try (destruct (PrimFloat.ltb _ _); settle));
      destruct (mode (server w) =? 2); settle;
      try (destruct (fst (bp_mode 2 _)); settle;
           try (destruct (fix_iters _ <? 30000); settle));
      reflexivity.
Qed.

(** X7. The position learning rate is multiplied by 5 in a step exactly
    when the mode control (after the switch at [mode2_iters]) is 0 and
    the object reports that it entered mode 0; otherwise the step leaves
    it unchanged.  Each such entry multiplies it again. *)
Theorem position_lr_boost it cam cks bg w :
  position_lr_init (optimzer_args (self (world (train_step it cam cks bg w)))) =
  if ((if it =? mode2_iters (pipeline_args (self w)) then 2 else mode (server w))
      =? 0)
     && fst (bp_mode 0
               (if it =? mode2_iters (pipeline_args (self w))
                then bp_apply BpCreateFeatureTexture (bprimitive_object (self w))
                else bprimitive_object (self w)))
  then (position_lr_init (optimzer_args (self w)) * 5)%float
  else position_lr_init (optimzer_args (self w)).
Proof.
  rewrite <- mode_switch_lr.
  rewrite (train_step_world_frame
             (fun w => position_lr_init (optimzer_args (self w)))) by blocks.
  cbv zeta.
  assert (P2 : preserves (fun w => position_lr_init (optimzer_args (self w)))
                 (lr_update it)) by blocks.
  assert (P3 : preserves (fun w => position_lr_init (optimzer_args (self w)))
                 (sh_update it)) by blocks.
  destruct (button_train_state (server w)).
  - assert (P4 : preserves (fun w => position_lr_init (optimzer_args (self w)))
                   (training_phase it cam cks bg (gui_render_type (server w))
                      (flip12 (original_image cam)))) by blocks.
    rewrite P4, P3, P2. reflexivity.
  - cbn [ret world fst snd]. rewrite P3, P2. reflexivity.
Qed.

(** X8. Neither step writes the controls it is driven by or the
    configuration of the run: the training, optimizer, point-mode and
    attachment controls, the selectors, the iteration budget, the
    thresholds and intervals, the model path and the camera list are the
    same after a step as before. *)
Theorem steps_leave_controls it cam cks bg w :
  user_controls (world (train_step it cam cks bg w)) = user_controls w /\
  run_config (world (train_step it cam cks bg w)) = run_config w /\
  user_controls (world (train_step_3dgs it cam bg w)) = user_controls w /\
  run_config (world (train_step_3dgs it cam bg w)) = run_config w.
Proof. repeat split; frame_lemma. Qed.

(** *** The baseline point path *)

Lemma training_phase_3dgs_run it cam bg gt w :
  let oa := optimzer_args (self w) in
  exists pkg loss e,
    events (training_phase_3dgs it cam bg gt w) =
      [EvGS (GsUpdateLearningRate it)]
      ++ (if it mod 1000 =? 0 then [EvGS GsOneUpSHDegree] else [])
      ++ [EvRender3dgs pkg; EvGS (GsBackward loss)]
      ++ (if it mod 10 =? 0 then [EvProgressPostfix e; EvProgressUpdate 10] else [])
      ++ [EvGS (GsTrackMaxRadii pkg); EvGS (GsAddDensificationStats pkg)]
      ++ (if (densify_from_iter oa <? it) && (it mod 100 =? 0)
          then [EvGS (GsDensifyAndPrune (densify_grad_threshold oa) 0.005
                        (cameras_extent (self w))
                        (if opacity_reset_interval oa <? it then Some 20 else None))]
          else [])
      ++ (if opacity_reset_interval oa =? 0 then []
          else (if it mod opacity_reset_interval oa =? 0
                then [EvGS GsResetOpacity] else [])
               ++ (if it <? iterations oa
                   then [EvGS GsOptimizerStep; EvGS (GsZeroGrad true)] else [])
               ++ (if it =? 7000
                   then [EvGS (GsSavePointcloud (colmap_scale (dataset_args (self w))))]
                   else [])) /\
    result (training_phase_3dgs it cam bg gt w) =
      (if opacity_reset_interval oa =? 0 then Raise ZeroDivisionError else Ok tt).
Proof.
  intros oa. subst oa.
  unfold training_phase_3dgs, when, bind, self_get, server_get, modify, gs, get,
    emit, ret, raise, world, result, events.
  norm_world.
  destruct (it mod 1000 =? 0); norm_world;
    destruct (it mod 10 =? 0); norm_world;
    destruct ((densify_from_iter _ <? it) && (it mod 100 =? 0)); norm_world;
    destruct (opacity_reset_interval _ =? 0); norm_world;
    try (destruct (it mod opacity_reset_interval _ =? 0); norm_world;
         destruct (it <? iterations _); norm_world;
         destruct (it =? 7000); norm_world);
    first [ solve [eexists _, _, 0%float; split; reflexivity]
          | eexists _, _, _; split; reflexivity ].
Qed.

Lemma train_step_3dgs_run it cam bg w :
  let gt := original_image cam in
  let t := when (button_train_state (server w))
             (training_phase_3dgs it cam bg gt) w in
  train_step_3dgs it cam bg w =
  match result t with
  | Ok _ =>
      if attached (server w) then
        let v := view_phase_3dgs cam bg gt (world t) in
        (result v, world v, events t ++ events v)
      else (Ok tt, world t, events t)
  | Raise x => (Raise x, world t, events t)
  end.
Proof.
  intros gt t. unfold train_step_3dgs. cbv zeta. fold gt.
  rewrite bind_run. cbn [server_get result world events fst snd app].
  rewrite bind_run. fold t.
  assert (A : attached (server (world t)) = attached (server w)).
  { subst t.
    assert (P : preserves (fun w => attached (server w))
                  (when (button_train_state (server w))
                     (training_phase_3dgs it cam bg gt))) by blocks.
    apply P. }
  destruct (result t) as [[]|x]; cbn [result world events fst snd]; [|reflexivity].
  rewrite bind_run. cbn [server_get result world events fst snd app]. rewrite A.
  destruct (attached (server w)); cbn [negb ret result world events fst snd];
    rewrite ?app_nil_r; reflexivity.
Qed.

Lemma train_step_3dgs_gs_events (p : event -> bool) it cam bg w :
  (forall c g i, silent p (view_phase_3dgs c g i)) ->
  existsb p (events (train_step_3dgs it cam bg w)) =
  existsb p (events (when (button_train_state (server w))
                       (training_phase_3dgs it cam bg (original_image cam)) w)).
Proof.
  intros S. rewrite train_step_3dgs_run. cbv zeta.
  destruct (result _); [destruct (attached (server w))|];
    cbn [events snd]; [|reflexivity|reflexivity].
  rewrite existsb_app, S. apply orb_false_r.
Qed.

(** X9. In the baseline point path with training enabled (and a nonzero
    [opacity_reset_interval]) the optimizer step runs exactly when the
    iteration is below the budget, whatever the optimizer-step control
    holds; [densify_and_prune] runs exactly when the iteration is past
    [densify_from_iter] and a multiple of 100; and when both run, the edit
    comes before the step, never after it. *)
Theorem baseline_step_schedule it cam bg w :
  button_train_state (server w) = true ->
  opacity_reset_interval (optimzer_args (self w)) <> 0 ->
  let evs := events (train_step_3dgs it cam bg w) in
  existsb is_gs_opt_step evs = (it <? iterations (optimzer_args (self w))) /\
  existsb is_gs_densify evs
  = (densify_from_iter (optimzer_args (self w)) <? it) && (it mod 100 =? 0) /\
  precedes is_gs_opt_step is_gs_densify evs = false /\
  precedes is_gs_densify is_gs_opt_step evs
  = existsb is_gs_densify evs && existsb is_gs_opt_step evs.
Proof.
  intros Htrain Hreset evs. subst evs. apply Z.eqb_neq in Hreset.
  destruct (training_phase_3dgs_run it cam bg (original_image cam) w)
    as (pkg & loss & e & Ev & Res).
  cbv zeta in Ev, Res. rewrite Hreset in Ev, Res.
  rewrite train_step_3dgs_run. cbv zeta. rewrite Htrain. cbn [when].
  rewrite Res.
  set (v := events (view_phase_3dgs cam bg (original_image cam)
                      (world (training_phase_3dgs it cam bg (original_image cam) w)))).
  assert (S1 : existsb is_gs_opt_step v = false) by (apply silent_at; blocks).
  assert (S2 : existsb is_gs_densify v = false) by (apply silent_at; blocks).
  assert (E : exists tl,
             existsb is_gs_opt_step tl = false /\ existsb is_gs_densify tl = false /\
             events (if attached (server w)
                     then (result (view_phase_3dgs cam bg (original_image cam)
                             (world (training_phase_3dgs it cam bg (original_image cam) w))),
                           world (view_phase_3dgs cam bg (original_image cam)
                             (world (training_phase_3dgs it cam bg (original_image cam) w))),
                           events (training_phase_3dgs it cam bg (original_image cam) w) ++ v)
                     else (Ok tt,
                           world (training_phase_3dgs it cam bg (original_image cam) w),
                           events (training_phase_3dgs it cam bg (original_image cam) w)))
             = events (training_phase_3dgs it cam bg (original_image cam) w) ++ tl).
  { destruct (attached (server w)); cbn [events snd].
    - exists v. repeat split; assumption.
    - exists []. rewrite app_nil_r. repeat split. }
  destruct E as (tl & T1 & T2 & ->). rewrite Ev.
  rewrite !precedes_app, !existsb_app, T1, T2.
  rewrite (precedes_none_l is_gs_opt_step is_gs_densify tl T1).
  rewrite (precedes_none_l is_gs_densify is_gs_opt_step tl T2).
  destruct (it mod 1000 =? 0), (it mod 10 =? 0),
    ((densify_from_iter _ <? it) && (it mod 100 =? 0)),
    (it mod opacity_reset_interval _ =? 0), (it <? iterations _), (it =? 7000);
    repeat split; reflexivity.
Qed.

(** X10. In the baseline point path a zero [opacity_reset_interval]
    makes every step with training enabled raise [ZeroDivisionError]
    after its backward pass and before its optimizer step: no optimizer
    step is taken and nothing is published. *)
Theorem baseline_zero_reset_interval it cam bg w :
  button_train_state (server w) = true ->
  opacity_reset_interval (optimzer_args (self w)) = 0 ->
  let o := train_step_3dgs it cam bg w in
  result o = Raise ZeroDivisionError /\
  existsb is_gs_opt_step (events o) = false /\
  existsb is_publish (events o) = false /\
  (exists loss, In (EvGS (GsBackward loss)) (events o)).
Proof.
  intros Htrain Hreset o. subst o.
  destruct (training_phase_3dgs_run it cam bg (original_image cam) w)
    as (pkg & loss & e & Ev & Res).
  cbv zeta in Ev, Res. rewrite Hreset in Ev, Res.
  change (0 =? 0) with true in Ev, Res. cbv iota in Ev, Res.
  rewrite train_step_3dgs_run. cbv zeta. rewrite Htrain. cbn [when].
  rewrite Res. cbn [result world events fst snd]. rewrite Ev.
  split; [reflexivity|].
  destruct (it mod 1000 =? 0), (it mod 10 =? 0),
    ((densify_from_iter _ <? it) && (it mod 100 =? 0));
    repeat split; try reflexivity; exists loss; cbn; auto 10.
Qed.

(** X11. The baseline point path leaves the primitive representation
    alone: a baseline step writes no checkpoint, makes no report, does
    not switch the mode or touch the boundary scale and the
    structural-edit flag, and makes no call on the primitive object. *)
Theorem baseline_leaves_primitives it cam bg w :
  let o := train_step_3dgs it cam bg w in
  files (world o) = files w /\
  dials (world o) = dials w /\
  bprimitive_object (self (world o)) = bprimitive_object (self w) /\
  existsb is_save (events o) = false /\
  existsb is_report (events o) = false /\
  existsb is_bp_call (events o) = false.
Proof.
  intros o. subst o. repeat split.
  - frame_lemma.
  - frame_lemma.
  - revert w.
    change (preserves (fun w => bprimitive_object (self w)) (train_step_3dgs it cam bg)).
    blocks.
  - apply silent_at. blocks.
  - apply silent_at. blocks.
  - apply silent_at. blocks.
Qed.

(** *** The loop *)

Ltac keeps f m w :=
  let P := fresh "P" in
  assert (P : preserves f m) by blocks;
  specialize (P w); cbv beta in P; rewrite P; clear P.

(** An invariant of the world that every step keeps, and a kind of event
    that no step emits from a world satisfying it, carry over to the
    loop. *)
Lemma train_loop_invariant (I : World -> Prop) (p : event -> bool) orc cks dbg :
  (forall w, I w ->
     I (set_self (fun t => set_pipeline_args (set_debug true (pipeline_args t)) t) w)) ->
  (forall it cam bg w, I w -> checkbox_pts_mode (server w) = false ->
     I (world (train_step it cam cks bg w)) /\
     existsb p (events (train_step it cam cks bg w)) = false) ->
  (forall it cam bg w, I w -> checkbox_pts_mode (server w) = true ->
     I (world (train_step_3dgs it cam bg w)) /\
     existsb p (events (train_step_3dgs it cam bg w)) = false) ->
  forall its st w, I w ->
    I (world (train_loop orc cks dbg its st w)) /\
    existsb p (events (train_loop orc cks dbg its st w)) = false.
Proof.
  intros Hd Hs Hb its. induction its as [|it rest IH]; intros st w Hw.
  { split; [exact Hw|reflexivity]. }
  rewrite train_loop_cons. cbv zeta.
  destruct (_ !! _) as [cam|]; [|split; [exact Hw|reflexivity]].
  match goal with
  | |- context [if it - 1 =? dbg then ?a else w] =>
      set (w1 := if it - 1 =? dbg then a else w)
  end.
  assert (H1 : I w1) by (subst w1; destruct (it - 1 =? dbg); auto).
  clearbody w1.
  destruct (checkbox_pts_mode (server w1)) eqn:Hc.
  - match goal with
    | |- context [train_step_3dgs it cam ?bg w1] =>
        destruct (Hb it cam bg w1 H1 Hc) as [Hi He];
        destruct (result (train_step_3dgs it cam bg w1));
        cbn [result world events fst snd]
    end.
    + match goal with
      | |- context [train_loop orc cks dbg rest ?s ?w'] =>
          destruct (IH s w' Hi) as [Hi' He']
      end.
      split; [exact Hi'|]. rewrite existsb_app, He, He'. reflexivity.
    + split; assumption.
  - match goal with
    | |- context [train_step it cam cks ?bg w1] =>
        destruct (Hs it cam bg w1 H1 Hc) as [Hi He];
        destruct (result (train_step it cam cks bg w1));
        cbn [result world events fst snd]
    end.
    + match goal with
      | |- context [train_loop orc cks dbg rest ?s ?w'] =>
          destruct (IH s w' Hi) as [Hi' He']
      end.
      split; [exact Hi'|]. rewrite existsb_app, He, He'. reflexivity.
    + split; assumption.
Qed.

Lemma train_loop_keeps {C} (f : World -> C) orc cks dbg :
  (forall w,
     f (set_self (fun t => set_pipeline_args (set_debug true (pipeline_args t)) t) w)
     = f w) ->
  (forall it cam bg, preserves f (train_step it cam cks bg)) ->
  (forall it cam bg, preserves f (train_step_3dgs it cam bg)) ->
  forall its st, preserves f (train_loop orc cks dbg its st).
Proof.
  intros Hd Hs Hb its st w.
  apply (train_loop_invariant (fun w' => f w' = f w) (fun _ => false));
    [| | |reflexivity].
  - intros w' <-. apply Hd.
  - intros it cam bg w' <- _. split; [apply Hs|]. clear. induction (events _); auto.
  - intros it cam bg w' <- _. split; [apply Hb|]. clear. induction (events _); auto.
Qed.

(** [train] as its preamble and the loop. *)
Lemma train_run orc cks dbg (dv : bool) w :
  let w1 := if dv then set_server (set_attached false) w else w in
  let w2 := set_self (fun t => set_first_iter (first_iter t + 1) t) w1 in
  let w3 := if bp_boundary_mode (bprimitive_object (self w)) =? 2
            then set_server (set_mode 2) w2 else w2 in
  let l := train_loop orc cks dbg
             (seqZ (first_iter (self w) + 1)
                (iterations (optimzer_args (self w)) + 1 - (first_iter (self w) + 1)))
             [] w3 in
  train orc cks dbg dv w
  = (result l, world l, (if dv then [] else [EvTryConnect]) ++ events l).
Proof.
  cbv zeta. unfold train.
  rewrite bind_run.
  destruct dv; cbn [negb modify emit result world events fst snd];
    rewrite bind_run; cbn [modify result world events fst snd];
    rewrite bind_run; cbn [self_get result world events fst snd];
    rewrite bind_run; unfold when;
    cbn [self set_self set_server bprimitive_object set_first_iter];
    destruct (bp_boundary_mode (bprimitive_object (self w)) =? 2);
    cbn [modify ret result world events fst snd];
    rewrite bind_run; cbn [get result world events fst snd app];
    reflexivity.
Qed.

Lemma train_step_detached it cam cks bg w :
  attached (server w) = false ->
  existsb is_publish (events (train_step it cam cks bg w)) = false.
Proof.
  intros H. rewrite train_step_events. cbv zeta. rewrite H.
  rewrite !existsb_app.
  repeat (rewrite silent_at by blocks).
  assert (Qt : forall w', existsb is_publish
            (events ((if button_train_state (server w)
                      then training_phase it cam cks bg (gui_render_type (server w))
                             (flip12 (original_image cam))
                      else ret None) w')) = false).
  { intros w'. destruct (button_train_state (server w)); [|reflexivity].
    apply silent_at. blocks. }
  rewrite ?Qt. destruct (result _); reflexivity.
Qed.

Lemma train_step_3dgs_detached it cam bg w :
  attached (server w) = false ->
  existsb is_publish (events (train_step_3dgs it cam bg w)) = false.
Proof.
  intros H. rewrite train_step_3dgs_run. cbv zeta. rewrite H.
  assert (Qt : existsb is_publish
            (events (when (button_train_state (server w))
                       (training_phase_3dgs it cam bg (original_image cam)) w)) = false).
  { unfold when. destruct (button_train_state (server w)); [|reflexivity].
    apply silent_at. blocks. }
  destruct (result _); cbn [events snd]; exact Qt.
Qed.

(** X12. A run started with the viewer disabled never contacts a
    client: it makes no connection attempt, publishes no view, and ends
    with no client attached, whatever the controls hold. *)
Theorem run_without_viewer orc cks dbg w :
  let o := train orc cks dbg true w in
  existsb is_try_connect (events o) = false /\
  existsb is_publish (events o) = false /\
  attached (server (world o)) = false.
Proof.
  intros o. subst o. rewrite train_run. cbv zeta.
  cbn [result world events fst snd app].
  set (w3 := if bp_boundary_mode _ =? 2 then _ else _).
  assert (H3 : attached (server w3) = false)
    by (subst w3; destruct (_ =? 2); reflexivity).
  split; [|split].
  - apply (train_loop_invariant (fun _ => True)); auto; intros; split; trivial;
      apply silent_at; blocks.
  - apply (train_loop_invariant (fun w => attached (server w) = false)); auto.
    + intros it cam bg w' Hw' _. split.
      * keeps (fun w => attached (server w)) (train_step it cam cks bg) w'.
        exact Hw'.
      * apply train_step_detached, Hw'.
    + intros it cam bg w' Hw' _. split.
      * keeps (fun w => attached (server w)) (train_step_3dgs it cam bg) w'.
        exact Hw'.
      * apply train_step_3dgs_detached, Hw'.
  - apply (train_loop_invariant (fun w => attached (server w) = false)
             (fun _ => false)); auto.
    + intros it cam bg w' Hw' _. split.
      * keeps (fun w => attached (server w)) (train_step it cam cks bg) w'.
        exact Hw'.
      * clear. induction (events _); auto.
    + intros it cam bg w' Hw' _. split.
      * keeps (fun w => attached (server w)) (train_step_3dgs it cam bg) w'.
        exact Hw'.
      * clear. induction (events _); auto.
Qed.

(** X13. A run with the point-mode control set stays in the baseline
    path for all its iterations: it writes no checkpoint, whatever the
    checkpoint list holds, leaves the checkpoint files as they were and
    makes no call on the primitive object. *)
Theorem baseline_run_saves_nothing orc cks dbg dv w :
  checkbox_pts_mode (server w) = true ->
  let o := train orc cks dbg dv w in
  files (world o) = files w /\
  existsb is_save (events o) = false /\
  existsb is_bp_call (events o) = false.
Proof.
  intros H o. subst o. rewrite train_run. cbv zeta.
  cbn [result world events fst snd].
  set (w3 := if bp_boundary_mode _ =? 2 then _ else _).
  assert (H3 : checkbox_pts_mode (server w3) = true /\ files w3 = files w)
    by (subst w3; destruct dv, (_ =? 2); split; assumption || reflexivity).
  assert (L : forall p, (forall it cam bg, silent p (train_step_3dgs it cam bg)) ->
            (checkbox_pts_mode
               (server (world (train_loop orc cks dbg
                  (seqZ (first_iter (self w) + 1)
                     (iterations (optimzer_args (self w)) + 1 - (first_iter (self w) + 1)))
                  [] w3))) = true /\
             files (world (train_loop orc cks dbg
                  (seqZ (first_iter (self w) + 1)
                     (iterations (optimzer_args (self w)) + 1 - (first_iter (self w) + 1)))
                  [] w3)) = files w) /\
            existsb p (events (train_loop orc cks dbg
                  (seqZ (first_iter (self w) + 1)
                     (iterations (optimzer_args (self w)) + 1 - (first_iter (self w) + 1)))
                  [] w3)) = false).
  { intros p Hp.
    apply (train_loop_invariant
             (fun w' => checkbox_pts_mode (server w') = true /\ files w' = files w));
      auto.
    - intros it cam bg w' [Hc _] Hc'. congruence.
    - intros it cam bg w' [Hc Hf] _. split; [split|].
      + keeps (fun w => checkbox_pts_mode (server w)) (train_step_3dgs it cam bg) w'.
        exact Hc.
      + keeps files (train_step_3dgs it cam bg) w'. exact Hf.
      + apply Hp. }
  split; [|split].
  - apply (L is_save). blocks.
  - rewrite existsb_app. destruct dv; cbn [existsb orb is_save];
      apply (L is_save); blocks.
  - rewrite existsb_app. destruct dv; cbn [existsb orb is_bp_call];
      apply (L is_bp_call); blocks.
Qed.

(** *** Reports *)

Lemma reported_app l1 l2 : reported (l1 ++ l2) = reported l1 ++ reported l2.
Proof. apply List.flat_map_app. Qed.

Lemma reported_silent l : existsb is_report l = false -> reported l = [].
Proof.
  induction l as [|e l IH]; [reflexivity|]. cbn [existsb]. intros H.
  apply orb_false_elim in H as [He H]. unfold reported. cbn [flat_map].
  fold (reported l). rewrite (IH H). destruct e; try reflexivity. discriminate.
Qed.

Lemma train_step_reported it cam cks bg w :
  reported (events (train_step it cam cks bg w))
  = if button_train_state (server w) then [it] else [].
Proof.
  rewrite train_step_events. cbv zeta. rewrite !reported_app.
  rewrite (reported_silent (events (mode_switch _ _))) by (apply silent_at; blocks).
  rewrite (reported_silent (events (lr_update _ _))) by (apply silent_at; blocks).
  rewrite (reported_silent (events (sh_update _ _))) by (apply silent_at; blocks).
  rewrite (reported_silent (match result _ with Ok _ => _ | Raise _ => _ end))
    by (apply view_tail_silent; blocks).
  rewrite app_nil_r. cbn [app].
  destruct (button_train_state (server w)); [|reflexivity].
  rewrite training_phase_run. cbv zeta. cbn [events snd].
  rewrite !reported_app.
  rewrite (reported_silent (events (log_progress _ _ _))) by (apply silent_at; blocks).
  rewrite !(reported_silent (events (save_checkpoint _ _ _))) by (apply silent_at; blocks).
  rewrite (reported_silent (events (accumulate_stats _ _ _))) by (apply silent_at; blocks).
  rewrite (reported_silent (events (optimizer_block _ _))) by (apply silent_at; blocks).
  rewrite (reported_silent (events (densification _ _))) by (apply silent_at; blocks).
  reflexivity.
Qed.

Lemma train_loop_reported orc cks dbg its :
  forall st w,
    button_train_state (server w) = true ->
    checkbox_pts_mode (server w) = false ->
    let o := train_loop orc cks dbg its st w in
    (exists n, reported (events o) = take n its) /\
    (result o = Ok tt -> reported (events o) = its).
Proof.
  induction its as [|it rest IH]; intros st w Ht Hp o; subst o.
  { split; [exists 0%nat|]; reflexivity. }
  rewrite train_loop_cons. cbv zeta.
  destruct (_ !! _) as [cam|];
    [|split; [exists 0%nat; reflexivity|discriminate]].
  match goal with
  | |- context [if it - 1 =? dbg then ?a else w] =>
      set (w1 := if it - 1 =? dbg then a else w)
  end.
  assert (Ht1 : button_train_state (server w1) = true)
    by (subst w1; destruct (it - 1 =? dbg); exact Ht).
  assert (Hp1 : checkbox_pts_mode (server w1) = false)
    by (subst w1; destruct (it - 1 =? dbg); exact Hp).
  clearbody w1. rewrite Hp1.
  match goal with
  | |- context [train_step it cam cks ?bg w1] => set (s := train_step it cam cks bg w1)
  end.
  assert (R : reported (events s) = [it])
    by (subst s; rewrite train_step_reported, Ht1; reflexivity).
  assert (Ht2 : button_train_state (server (world s)) = true).
  { subst s.
    match goal with
    | |- context [train_step it cam cks ?bg w1] =>
        keeps (fun w => button_train_state (server w)) (train_step it cam cks bg) w1
    end. exact Ht1. }
  assert (Hp2 : checkbox_pts_mode (server (world s)) = false).
  { subst s.
    match goal with
    | |- context [train_step it cam cks ?bg w1] =>
        keeps (fun w => checkbox_pts_mode (server w)) (train_step it cam cks bg) w1
    end. exact Hp1. }
  destruct (result s); cbn [result world events fst snd].
  - match goal with
    | |- context [train_loop orc cks dbg rest ?st' (world s)] =>
        destruct (IH st' (world s) Ht2 Hp2) as [[n Hn] Hok]
    end.
    rewrite reported_app, R. split.
    + exists (S n). cbn [take app]. rewrite Hn. reflexivity.
    + intros H. rewrite (Hok H). reflexivity.
  - split; [exists 1%nat; rewrite R; reflexivity|discriminate].
Qed.

(** X14. A run of the primitive path with training enabled reports
    every iteration it runs exactly once and in order: the reported
    iterations are an initial segment of first_iter + 1, ..., iterations,
    and all of them when the run returns normally. *)
Theorem run_reports_in_order orc cks dbg (dv : bool) w :
  button_train_state (server w) = true ->
  checkbox_pts_mode (server w) = false ->
  let o := train orc cks dbg dv w in
  let its := seqZ (first_iter (self w) + 1)
               (iterations (optimzer_args (self w)) - first_iter (self w)) in
  (exists n, reported (events o) = take n its) /\
  (result o = Ok tt -> reported (events o) = its).
Proof.
  intros Ht Hp o its. subst o its. rewrite train_run. cbv zeta.
  cbn [result world events fst snd].
  replace (iterations (optimzer_args (self w)) + 1 - (first_iter (self w) + 1))
    with (iterations (optimzer_args (self w)) - first_iter (self w)) by lia.
  rewrite reported_app.
  replace (reported (if dv then [] else [EvTryConnect])) with (@nil Z)
    by (destruct dv; reflexivity).
  cbn [app].
  apply train_loop_reported.
  - destruct dv, (_ =? 2); exact Ht.
  - destruct dv, (_ =? 2); exact Hp.
Qed.

(** *** Checkpoint files *)

Lemma string_length_app (s t : string) :
  String.length (s +:+ t) = (String.length s + String.length t)%nat.
Proof. induction s as [|a s IH]; simpl; [reflexivity|]. f_equal. exact IH. Qed.

Lemma string_app_inv_tail (s1 s2 t : string) : s1 +:+ t = s2 +:+ t -> s1 = s2.
Proof.
  revert s2. induction s1 as [|a s1 IH]; intros [|b s2] H.
  - reflexivity.
  - apply (f_equal String.length) in H.
    change ("" +:+ t) with t in H.
    rewrite string_length_app in H. simpl in H. lia.
  - apply (f_equal String.length) in H.
    change ("" +:+ t) with t in H.
    rewrite string_length_app in H. simpl in H. lia.
  - simpl in H. injection H as -> H. f_equal. apply IH, H.
Qed.

Lemma checkpoint_path_inj mp i j :
  checkpoint_path mp i = checkpoint_path mp j -> i = j.
Proof.
  unfold checkpoint_path. intros H.
  apply (inj (String.app mp)) in H.
  apply (inj (String.app "/chkpnt")) in H.
  apply string_app_inv_tail in H.
  apply (inj pretty) in H. exact H.
Qed.

Lemma train_step_files_run it cam cks bg w :
  exists s1 s2,
    files (world (train_step it cam cks bg w)) =
    if bool_decide (it ∈ cks) && button_train_state (server w)
    then <[checkpoint_path (model_path (self w)) it := (s2, it)]>
           (<[checkpoint_path (model_path (self w)) it := (s1, it)]> (files w))
    else files w.
Proof.
  rewrite (train_step_world_frame files) by blocks. cbv zeta.
  set (w3 := world (sh_update it (world (lr_update it (world (mode_switch it w)))))).
  assert (K : knobs w3 = knobs w) by (subst w3; autorewrite with frame; reflexivity).
  assert (F : files w3 = files w) by (subst w3; autorewrite with frame; reflexivity).
  destruct (button_train_state (server w)).
  - rewrite training_phase_run. cbv zeta. cbn [world fst snd].
    rewrite densification_files, save_checkpoint_files_if.
    autorewrite with frame. rewrite save_checkpoint_files_if.
    autorewrite with frame. rewrite F.
    match goal with
    | |- context [model_path (self ?wx)] =>
        lazymatch wx with
        | w => fail
        | _ => assert (Kx : knobs wx = knobs w)
                 by (autorewrite with frame; exact K);
               apply knobs_inv in Kx
                 as (_ & _ & _ & _ & _ & _ & _ & _ & _ & _ & _ & ->)
        end
    end.
    match goal with
    | |- context [model_path (self ?wx)] =>
        lazymatch wx with
        | w => fail
        | _ => assert (Kx : knobs wx = knobs w)
                 by (autorewrite with frame; exact K);
               apply knobs_inv in Kx
                 as (_ & _ & _ & _ & _ & _ & _ & _ & _ & _ & _ & ->)
        end
    end.
    destruct (bool_decide (it ∈ cks)); cbn [andb].
    + eexists _, _. reflexivity.
    + exists (bp_capture (bprimitive_object (self w))),
             (bp_capture (bprimitive_object (self w))). reflexivity.
  - exists (bp_capture (bprimitive_object (self w))),
           (bp_capture (bprimitive_object (self w))).
    cbn [ret world fst snd]. rewrite andb_false_r. exact F.
Qed.

(** X15. A step never overwrites the checkpoint of another iteration:
    the file of iteration [j] is the same before and after a step of
    iteration [it], in either path. *)
Theorem step_keeps_other_checkpoints it j cam cks bg w :
  j <> it ->
  files (world (train_step it cam cks bg w))
    !! checkpoint_path (model_path (self w)) j
  = files w !! checkpoint_path (model_path (self w)) j /\
  files (world (train_step_3dgs it cam bg w))
    !! checkpoint_path (model_path (self w)) j
  = files w !! checkpoint_path (model_path (self w)) j.
Proof.
  intros Hj. split.
  - destruct (train_step_files_run it cam cks bg w) as (s1 & s2 & ->).
    destruct (_ && _); [|reflexivity].
    rewrite !lookup_insert_ne; [reflexivity| |];
      intros E; apply checkpoint_path_inj in E; congruence.
  - keeps files (train_step_3dgs it cam bg) w. reflexivity.
Qed.

Lemma train_loop_checkpoint orc cks dbg N :
  N ∈ cks ->
  forall its st w,
    button_train_state (server w) = true ->
    checkbox_pts_mode (server w) = false ->
    (N ∈ its \/
     exists snap, files w !! checkpoint_path (model_path (self w)) N = Some (snap, N)) ->
    result (train_loop orc cks dbg its st w) = Ok tt ->
    exists snap,
      files (world (train_loop orc cks dbg its st w))
        !! checkpoint_path (model_path (self w)) N = Some (snap, N).
Proof.
  intros HN its. induction its as [|it rest IH]; intros st w Ht Hp Hin Hok.
  { destruct Hin as [Hin|Hin]; [|exact Hin]. apply elem_of_nil in Hin. destruct Hin. }
  revert Hok. rewrite train_loop_cons. cbv zeta.
  destruct (_ !! (_ `mod` _)%nat) as [cam|]; [|cbn [result fst]; discriminate].
  match goal with
  | |- context [if it - 1 =? dbg then ?a else w] =>
      set (w1 := if it - 1 =? dbg then a else w)
  end.
  assert (Ht1 : button_train_state (server w1) = true)
    by (subst w1; destruct (it - 1 =? dbg); exact Ht).
  assert (Hp1 : checkbox_pts_mode (server w1) = false)
    by (subst w1; destruct (it - 1 =? dbg); exact Hp).
  assert (Hm1 : model_path (self w1) = model_path (self w))
    by (subst w1; destruct (it - 1 =? dbg); reflexivity).
  assert (Hf1 : files w1 = files w)
    by (subst w1; destruct (it - 1 =? dbg); reflexivity).
  clearbody w1. rewrite Hp1.
  match goal with
  | |- context [train_step it cam cks ?bg w1] => set (s := train_step it cam cks bg w1)
  end.
  assert (Ht2 : button_train_state (server (world s)) = true).
  { subst s.
    match goal with
    | |- context [train_step it cam cks ?bg w1] =>
        keeps (fun w => button_train_state (server w)) (train_step it cam cks bg) w1
    end. exact Ht1. }
  assert (Hp2 : checkbox_pts_mode (server (world s)) = false).
  { subst s.
    match goal with
    | |- context [train_step it cam cks ?bg w1] =>
        keeps (fun w => checkbox_pts_mode (server w)) (train_step it cam cks bg) w1
    end. exact Hp1. }
  assert (Hm2 : model_path (self (world s)) = model_path (self w)).
  { subst s.
    match goal with
    | |- context [train_step it cam cks ?bg w1] =>
        keeps (fun w => model_path (self w)) (train_step it cam cks bg) w1
    end. exact Hm1. }
  assert (Hf2 : N = it \/
                (exists snap, files w !! checkpoint_path (model_path (self w)) N
                              = Some (snap, N)) ->
                exists snap, files (world s) !! checkpoint_path (model_path (self w)) N
                             = Some (snap, N)).
  { subst s.
    match goal with
    | |- context [train_step it cam cks ?bg w1] =>
        destruct (train_step_files_run it cam cks bg w1) as (s1 & s2 & ->)
    end.
    rewrite Ht1, Hm1, Hf1, andb_true_r.
    destruct (decide (N = it)) as [->|Hne].
    - intros _. rewrite bool_decide_eq_true_2 by exact HN.
      exists s2. apply lookup_insert_eq.
    - intros [E|[snap Hs]]; [contradiction|].
      exists snap. destruct (bool_decide _); [|exact Hs].
      rewrite !lookup_insert_ne; [exact Hs| |];
        intros E; apply checkpoint_path_inj in E; congruence. }
  destruct (result s); cbn [result world fst snd]; [|discriminate].
  intros Hok. rewrite <- Hm2. apply IH; [exact Ht2|exact Hp2| |exact Hok].
  rewrite Hm2.
  destruct Hin as [Hin|Hin].
  - apply elem_of_cons in Hin as [->|Hin]; [right; apply Hf2; left; reflexivity|].
    left. exact Hin.
  - right. apply Hf2. right. exact Hin.
Qed.

(** X16. A fresh run of the script in the primitive path with training
    enabled that returns normally leaves the checkpoint of its last
    iteration on disk, whatever checkpoint list was given: the entry
    point appends the iteration budget to the list. *)
Theorem main_leaves_final_checkpoint lp op pp cks dbg (uw dv : bool) us cams ext orc w :
  button_train_state (server w) = true ->
  checkbox_pts_mode (server w) = false ->
  0 < iterations op ->
  let o := main lp op pp cks dbg uw dv None us cams ext orc w in
  result o = Ok tt ->
  exists snap,
    files (world o) !! checkpoint_path (model_path (self (world o))) (iterations op)
    = Some (snap, iterations op).
Proof.
  intros Ht Hp Hpos o. subst o. unfold main.
  rewrite bind_run. cbn [emit result world events fst snd].
  rewrite bind_run. cbn [modify result world events fst snd].
  rewrite bind_run.
  set (wi := world (Trainer_init lp op pp None us cams ext
                      (set_server (set_wandb uw) w))).
  assert (Ri : result (Trainer_init lp op pp None us cams ext
                         (set_server (set_wandb uw) w)) = Ok tt)
    by (unfold Trainer_init; destruct TENSORBOARD_FOUND; reflexivity).
  rewrite Ri.
  assert (Hti : button_train_state (server wi) = true)
    by (unfold wi, Trainer_init; destruct TENSORBOARD_FOUND; exact Ht).
  assert (Hpi : checkbox_pts_mode (server wi) = false)
    by (unfold wi, Trainer_init; destruct TENSORBOARD_FOUND; exact Hp).
  assert (Hfi : first_iter (self wi) = 0)
    by (unfold wi, Trainer_init; destruct TENSORBOARD_FOUND; reflexivity).
  assert (Hoi : optimzer_args (self wi) = op)
    by (unfold wi, Trainer_init; destruct TENSORBOARD_FOUND; reflexivity).
  clearbody wi. cbn [result world events fst snd].
  rewrite bind_run, train_run. cbv zeta. cbn [result world events fst snd].
  rewrite Hfi, Hoi.
  set (w3 := if bp_boundary_mode _ =? 2 then _ else _).
  assert (Ht3 : button_train_state (server w3) = true)
    by (subst w3; destruct dv, (_ =? 2); exact Hti).
  assert (Hp3 : checkbox_pts_mode (server w3) = false)
    by (subst w3; destruct dv, (_ =? 2); exact Hpi).
  clearbody w3.
  pose proof (train_loop_checkpoint orc (cks ++ [iterations op]) dbg (iterations op))
    as L.
  specialize (L ltac:(apply elem_of_app; right; apply elem_of_cons; left; reflexivity)
                (seqZ (0 + 1) (iterations op + 1 - (0 + 1))) [] w3 Ht3 Hp3).
  specialize (L ltac:(left; apply elem_of_seqZ; lia)).
  destruct (result (train_loop _ _ _ _ _ w3)) as [[]|x] eqn:Hr; [|discriminate].
  cbn [emit result world events fst snd]. intros _.
  destruct (L eq_refl) as [snap Hs]. exists snap.
  rewrite <- Hs. f_equal. f_equal.
  apply (train_loop_keeps (fun w => model_path (self w))); [reflexivity|blocks|blocks].
Qed.

Lemma precedes_split (p q : event -> bool) (l1 l2 : list event) :
  existsb q l1 = false -> existsb p l2 = false ->
  precedes q p (l1 ++ l2) = false /\
  precedes p q (l1 ++ l2) = existsb p (l1 ++ l2) && existsb q (l1 ++ l2).
Proof.
  intros H1 H2. rewrite !precedes_app, !existsb_app, H1, H2.
  rewrite (precedes_none_l q p l1 H1), (precedes_none_r q p l2 H2).
  rewrite (precedes_none_r p q l1 H1), (precedes_none_l p q l2 H2).
  destruct (existsb p l1), (existsb q l2); split; reflexivity.
Qed.

(** X17. Within a step every checkpoint write comes before the
    structural edit: no checkpoint is written after [densify_and_prune],
    and when the step does both, a write precedes the edit. *)
Theorem checkpoint_precedes_edit it cam cks bg w :
  let evs := events (train_step it cam cks bg w) in
  precedes is_densify is_save evs = false /\
  precedes is_save is_densify evs = existsb is_save evs && existsb is_densify evs.
Proof.
  intros evs. subst evs.
  assert (E : exists l1 l2,
             events (train_step it cam cks bg w) = l1 ++ l2 /\
             existsb is_densify l1 = false /\ existsb is_save l2 = false).
  { rewrite train_step_events. cbv zeta.
    set (w3 := world (sh_update it (world (lr_update it (world (mode_switch it w)))))).
    destruct (button_train_state (server w)).
    - rewrite training_phase_run. cbv zeta. cbn [result events fst snd].
      match goal with
      | |- context [?a ++ ?b ++ ?c ++ (?r ++ ?lp ++ ?rep ++ ?s1 ++ ?ac ++ ?op ++ ?s2 ++ ?d)
                    ++ ?v] =>
          exists (a ++ b ++ c ++ r ++ lp ++ rep ++ s1 ++ ac ++ op ++ s2), (d ++ v)
      end.
      split; [rewrite <- !app_assoc; reflexivity|]. split.
      + rewrite !existsb_app.
        repeat (rewrite silent_at by blocks). reflexivity.
      + rewrite existsb_app.
        rewrite (silent_at is_save (densification it)) by blocks.
        apply view_tail_silent. blocks.
    - eexists _, []. split; [rewrite app_nil_r; reflexivity|].
      split; [|reflexivity].
      rewrite !existsb_app.
      repeat (rewrite silent_at by blocks).
      cbn [ret events snd existsb orb].
      apply view_tail_silent. blocks. }
  destruct E as (l1 & l2 & -> & H1 & H2).
  apply (precedes_split is_save is_densify); assumption.
Qed.

(** X18. With no training camera the run fails at its first iteration
    with [ValueError], before any step: nothing is rendered, and the
    only event is the connection attempt, if the viewer is enabled. *)
Theorem train_without_cameras orc cks dbg (dv : bool) w :
  train_cameras (self w) = [] ->
  first_iter (self w) < iterations (optimzer_args (self w)) ->
  let o := train orc cks dbg dv w in
  result o = Raise ValueError /\
  events o = (if dv then [] else [EvTryConnect]).
Proof.
  intros Hc Hlt o. subst o. rewrite train_run. cbv zeta.
  rewrite seqZ_cons by lia. rewrite train_loop_cons. cbv zeta.
  assert (E : train_cameras
                (self (if bp_boundary_mode (bprimitive_object (self w)) =? 2
                       then set_server (set_mode 2)
                              (set_self (fun t => set_first_iter (first_iter t + 1) t)
                                 (if dv then set_server (set_attached false) w else w))
                       else set_self (fun t => set_first_iter (first_iter t + 1) t)
                              (if dv then set_server (set_attached false) w else w)))
              = []).
  { destruct dv, (_ =? 2); exact Hc. }
  rewrite E. cbn [lookup list_lookup result world events fst snd].
  rewrite app_nil_r. split; reflexivity.
Qed.

(** *** The cameras of the loop *)

Lemma run_steps_cons orc cks dbg it cam rest w :
  run_steps orc cks dbg ((it, cam) :: rest) w =
  let w1 := if it - 1 =? dbg
            then set_self (fun t => set_pipeline_args
                             (set_debug true (pipeline_args t)) t) w
            else w in
  let bg := if random_background (optimzer_args (self w1))
            then rand_background orc it else background (self w1) in
  let s := (if checkbox_pts_mode (server w1)
            then train_step_3dgs it cam bg
            else train_step it cam cks bg) w1 in
  match result s with
  | Ok _ =>
      let r := run_steps orc cks dbg rest (world s) in
      (result r, world r, events s ++ events r)
  | Raise x => (Raise x, world s, events s)
  end.
Proof.
  cbn [run_steps]. rewrite bind_run.
  destruct (it - 1 =? dbg);
    cbn [when modify ret result world events fst snd app];
    rewrite bind_run; cbn [get result world events fst snd app];
    rewrite bind_run; cbv zeta;
    (destruct (checkbox_pts_mode _);
     [destruct (result (train_step_3dgs _ _ _ _))
     |destruct (result (train_step _ _ _ _ _))]);
    cbn [result world events fst snd app]; reflexivity.
Qed.

(** X19. With at least one training camera the loop never fails to
    draw one, and it is the steps of lines 173-182 run on the cameras
    that [viewpoint_picks] draws, one per iteration. *)
Theorem train_loop_picks orc cks dbg cams :
  cams <> [] ->
  forall its st w,
    train_cameras (self w) = cams ->
    train_loop orc cks dbg its st w
    = run_steps orc cks dbg (zip its (viewpoint_picks orc cams its st)) w.
Proof.
  intros Hne its. induction its as [|it rest IH]; intros st w Hw; [reflexivity|].
  rewrite train_loop_cons. cbv zeta. cbn [viewpoint_picks]. rewrite Hw.
  set (stack := match st with [] => cams | _ => st end).
  assert (Hs : stack <> []) by (subst stack; destruct st; [exact Hne|discriminate]).
  destruct (lookup_lt_is_Some_2 stack (rand_index orc it `mod` length stack)%nat)
    as [cam Hcam].
  { apply Nat.mod_upper_bound. destruct stack; [congruence|discriminate]. }
  rewrite Hcam. cbn [zip_with]. rewrite run_steps_cons. cbv zeta.
  match goal with
  | |- context [if it - 1 =? dbg then ?a else w] =>
      set (w1 := if it - 1 =? dbg then a else w)
  end.
  assert (H1 : train_cameras (self w1) = cams)
    by (subst w1; destruct (it - 1 =? dbg); exact Hw).
  clearbody w1.
  destruct (checkbox_pts_mode (server w1)).
  - match goal with
    | |- context [train_step_3dgs it cam ?bg w1] =>
        assert (H2 : train_cameras (self (world (train_step_3dgs it cam bg w1))) = cams)
          by (keeps (fun w => train_cameras (self w)) (train_step_3dgs it cam bg) w1;
              exact H1);
        destruct (result (train_step_3dgs it cam bg w1)); [|reflexivity]
    end.
    rewrite (IH _ _ H2). reflexivity.
  - match goal with
    | |- context [train_step it cam cks ?bg w1] =>
        assert (H2 : train_cameras (self (world (train_step it cam cks bg w1))) = cams)
          by (keeps (fun w => train_cameras (self w)) (train_step it cam cks bg) w1;
              exact H1);
        destruct (result (train_step it cam cks bg w1)); [|reflexivity]
    end.
    rewrite (IH _ _ H2). reflexivity.
Qed.

Lemma viewpoint_picks_pass orc cams its2 :
  forall its1 st,
    st <> [] -> length its1 = length st ->
    viewpoint_picks orc cams its1 st ≡ₚ st /\
    viewpoint_picks orc cams (its1 ++ its2) st
    = viewpoint_picks orc cams its1 st ++ viewpoint_picks orc cams its2 [].
Proof.
  induction its1 as [|it rest IH]; intros st Hne Hlen.
  { destruct st; [congruence|discriminate]. }
  cbn [viewpoint_picks app].
  assert (Hst : match st with [] => cams | _ => st end = st)
    by (destruct st; [congruence|reflexivity]).
  rewrite !Hst. clear Hst.
  assert (Hpos : (0 < length st)%nat) by (destruct st; [congruence|cbn; lia]).
  destruct (lookup_lt_is_Some_2 st (rand_index orc it `mod` length st)%nat)
    as [cam Hcam].
  { apply Nat.mod_upper_bound. lia. }
  rewrite Hcam.
  pose proof (delete_Permutation _ _ _ Hcam) as P.
  pose proof (length_delete st (rand_index orc it `mod` length st)%nat
                (ex_intro _ cam Hcam)) as D.
  cbn [length] in Hlen.
  destruct rest as [|it' rest'].
  - destruct (delete _ st) as [|d ds] eqn:Hd.
    + split; [symmetry; exact P|reflexivity].
    + cbn [length] in D, Hlen. lia.
  - destruct (IH (delete (rand_index orc it `mod` length st)%nat st)) as [Q1 Q2].
    + intros E. rewrite E in D. cbn [length] in D, Hlen. lia.
    + cbn [length] in *. lia.
    + split.
      * rewrite Q1. symmetry. exact P.
      * cbn [app]. f_equal. exact Q2.
Qed.

(** X20. The loop draws cameras without replacement: over a pass of as
    many iterations as there are training cameras, every camera is handed
    to a step exactly once, whatever indices the random source returns,
    and the pass after it starts again from the full list. *)
Theorem each_camera_once_per_pass orc cams its1 its2 :
  cams <> [] ->
  length its1 = length cams ->
  viewpoint_picks orc cams its1 [] ≡ₚ cams /\
  viewpoint_picks orc cams (its1 ++ its2) []
  = viewpoint_picks orc cams its1 [] ++ viewpoint_picks orc cams its2 [].
Proof.
  intros Hne Hlen.
  assert (E : forall its, viewpoint_picks orc cams its [] = viewpoint_picks orc cams its cams).
  { intros [|it its]; [reflexivity|]. cbn [viewpoint_picks].
    destruct cams; [congruence|reflexivity]. }
  rewrite !(E its1), (E (its1 ++ its2)).
  apply viewpoint_picks_pass; assumption.
Qed.

(** *** Starting from a checkpoint that is not there *)

(** X21. Started on a checkpoint file that does not exist, the script
    stops in [Trainer.__init__] with [FileNotFoundError]: it has printed
    its two opening lines, and the notice that Tensorboard is not
    available when the import failed; no iteration has run and no
    checkpoint file is touched. *)
Theorem missing_checkpoint_aborts lp op pp cks dbg (uw dv : bool) file us cams ext orc w :
  file <> "" ->
  files w !! file = None ->
  let o := main lp op pp cks dbg uw dv (Some file) us cams ext orc w in
  result o = Raise (FileNotFoundError file) /\
  events o
  = [EvPrint ("Optimizing " +:+ data_model_path lp);
     EvPrint ("Output folder: "
              +:+ (if String.eqb (data_model_path lp) "" then "./outputs/" +:+ us
                   else data_model_path lp))]
    ++ (if TENSORBOARD_FOUND then []
        else [EvPrint "Tensorboard not available: not logging progress"]) /\
  files (world o) = files w.
Proof.
  intros Hne Hfile o. subst o.
  apply String.eqb_neq in Hne.
  unfold main, Trainer_init. rewrite Hne.
  destruct TENSORBOARD_FOUND;
    unfold bind, emit, modify, get, ret, when, bp, bp_mode_call, raise,
      result, world, events;
    cbn; rewrite Hfile; cbn; repeat split.
Qed.

(** *** The outcome of a baseline step *)

Lemma view_phase_3dgs_result cam bg gt w :
  result (view_phase_3dgs cam bg gt w) =
  if String.eqb (render_type (server w)) "debug"
     || String.eqb (render_type (server w)) "GT Image"
  then Ok tt else Raise (UnboundLocalError "output").
Proof.
  unfold view_phase_3dgs. rewrite bind_run. cbn [get result world events fst snd].
  rewrite bind_run. cbn [emit result world events fst snd].
  rewrite bind_run.
  destruct (String.eqb (render_type (server w)) "debug");
    [|destruct (String.eqb (render_type (server w)) "GT Image")];
    cbn [orb ret raise result world events fst snd];
    try reflexivity; rewrite publish_run; reflexivity.
Qed.

(** X23. A step of the baseline path raises in two cases only, and in
    this order: [ZeroDivisionError] when training is enabled and
    [opacity_reset_interval] is 0; otherwise [UnboundLocalError] for
    [output] when a client is attached and the selector is neither
    "debug" nor "GT Image".  In every other case it returns normally. *)
Theorem baseline_step_result it cam bg w :
  result (train_step_3dgs it cam bg w) =
  if button_train_state (server w)
     && (opacity_reset_interval (optimzer_args (self w)) =? 0)
  then Raise ZeroDivisionError
  else if attached (server w)
          && negb (String.eqb (render_type (server w)) "debug"
                   || String.eqb (render_type (server w)) "GT Image")
  then Raise (UnboundLocalError "output")
  else Ok tt.
Proof.
  rewrite train_step_3dgs_run. cbv zeta.
  destruct (training_phase_3dgs_run it cam bg (original_image cam) w)
    as (pkg & loss & e & _ & Res). cbv zeta in Res.
  assert (Pr : render_type (server (world (when (button_train_state (server w))
                 (training_phase_3dgs it cam bg (original_image cam)) w)))
               = render_type (server w)).
  { keeps (fun w => render_type (server w))
      (when (button_train_state (server w))
         (training_phase_3dgs it cam bg (original_image cam))) w.
    reflexivity. }
  destruct (button_train_state (server w)); cbn [when andb] in *.
  - rewrite Res.
    destruct (opacity_reset_interval _ =? 0); [reflexivity|].
    destruct (attached (server w)); cbn [result fst andb]; [|reflexivity].
    rewrite view_phase_3dgs_result, Pr.
    destruct (_ || _); reflexivity.
  - cbn [ret result world fst snd] in *.
    destruct (attached (server w)); cbn [result fst andb]; [|reflexivity].
    rewrite view_phase_3dgs_result.
    destruct (_ || _); reflexivity.
Qed.

End Further.

(** ** Where the claims about the mode, the loss, the learning rates and
    the edit gate fail as stated *)


(** C5, the claim as stated fails: with the point-mode control set, a
    training iteration at mode 0 hands the backward pass
    [(1 - lambda) * L1 + lambda * (1 - ssim)], here 0.5, and not the
    [lerp] over the mean squared error, here 0.375. *)
Lemma baseline_loss_is_not_the_lerp :
  let o := train_step_3dgs (O:=Toy.objects) 1 0.5%float tt Toy.w_points in
  let gt := original_image (Externals:=Toy.externals) 0.5%float in
  let rendered :=
    pkg_render (Externals:=Toy.externals)
      (render_3dgs (Externals:=Toy.externals) 0.5%float
         (gaussian_ori (self Toy.w_points)) tt) in
  button_train_state (server Toy.w_points) = true /\
  mode (server Toy.w_points) = 0 /\
  backward_losses (events o) = [0.5%float] /\
  t_lerp (Externals:=Toy.externals) (mse_loss (Externals:=Toy.externals) rendered gt)
    (t_rsub (Externals:=Toy.externals) 1.0 (ssim (Externals:=Toy.externals) rendered gt))
    (lambda_dssim (optimzer_args (self Toy.w_points)))
  = 0.375%float.
Proof. vm_compute. repeat split. Qed.

(** C7, the claim as stated fails.  With the switch to Finalize
    configured at iteration 20000: at 19999, in Init and before any
    transition, the update is made at 4999; the step at 20000 enters
    Finalize; and the step at 20001, one iteration into the new mode, makes
    its update at 5001, not at 1. *)
Lemma origin_is_not_the_transition :
  let w := Scenes.w_late_switch in
  let before := train_step (O:=Toy.objects) 19999 1.0%float [] tt w in
  let switch := train_step (O:=Toy.objects) 20000 1.0%float [] tt (world before) in
  let after := train_step (O:=Toy.objects) 20001 1.0%float [] tt (world switch) in
  mode2_iters (pipeline_args (self w)) = 20000 /\
  mode (server (world before)) = 0 /\
  List.filter is_update_lr (events before) = [EvBP (BpUpdateLearningRate 4999)] /\
  mode (server (world switch)) = 2 /\
  List.filter is_update_lr (events after) = [EvBP (BpUpdateLearningRate 5001)] /\
  20001 - mode2_iters (pipeline_args (self w)) = 1.
Proof. vm_compute. repeat split. Qed.

(** C8, the claim as stated fails in the baseline point path: at
    iteration 15100, past the ceiling [densify_until_iter] (3) and past
    [fix_iters] (15000), [densify_and_prune] runs with the structural-edit
    flag off, and a flag that is set is still set after the step. *)
Lemma baseline_edits_past_the_gate :
  let w_off := set_server (set_checkbox_split false) Toy.w_points in
  let o_off := train_step_3dgs (O:=Toy.objects) 15100 1.0%float tt w_off in
  let o_on := train_step_3dgs (O:=Toy.objects) 15100 1.0%float tt Toy.w_points in
  densify_until_iter (optimzer_args (self w_off)) = 3 /\
  fix_iters (pipeline_args (self w_off)) = 15000 /\
  checkbox_split (server w_off) = false /\
  existsb is_gs_densify (events o_off) = true /\
  checkbox_split (server Toy.w_points) = true /\
  checkbox_split (server (world o_on)) = true.
Proof. vm_compute. repeat split. Qed.

(** ** More concrete runs *)

(** X3 at iteration 2 of the checkpoint list [2], training off. *)
Lemma train_step_paused_witness :
  button_train_state (server Scenes.w_paused) = false /\
  existsb is_backward
    (events (train_step (O:=Toy.objects) 2 1.0%float [2] tt Scenes.w_paused)) = false /\
  files (world (train_step (O:=Toy.objects) 2 1.0%float [2] tt Scenes.w_paused)) = ∅.
Proof.
  split; [reflexivity|].
  destruct (train_step_paused (O:=Toy.objects) 2 1.0%float [2] tt Scenes.w_paused eq_refl)
    as (Hb & _ & _ & _ & _ & _ & _ & Hf).
  split; [exact Hb|exact Hf].
Defined.

(** X6 at iteration 1 in the initial mode. *)
Lemma init_mode_pins_boundary_scale_witness :
  mode (server Toy.w_init) = 0 /\
  slider_boundary_scale
    (server (world (train_step (O:=Toy.objects) 1 1.0%float [] tt Toy.w_init)))
  = (-9.0)%float.
Proof.
  split; [reflexivity|].
  apply (init_mode_pins_boundary_scale (O:=Toy.objects) 1 1.0%float [] tt Toy.w_init).
  - reflexivity.
  - cbn. discriminate.
Defined.

(** X9 at iteration 1 of a budget of 3: the step is taken, no edit. *)
Lemma baseline_step_schedule_witness :
  button_train_state (server Toy.w_points) = true /\
  opacity_reset_interval (optimzer_args (self Toy.w_points)) <> 0 /\
  existsb is_gs_opt_step
    (events (train_step_3dgs (O:=Toy.objects) 1 1.0%float tt Toy.w_points)) = true /\
  existsb is_gs_densify
    (events (train_step_3dgs (O:=Toy.objects) 1 1.0%float tt Toy.w_points)) = false.
Proof.
  assert (Hr : opacity_reset_interval (optimzer_args (self Toy.w_points)) <> 0)
    by (cbn; discriminate).
  split; [reflexivity|]. split; [exact Hr|].
  destruct (baseline_step_schedule (O:=Toy.objects) 1 1.0%float tt Toy.w_points
              eq_refl Hr) as (Hs & Hd & _).
  split; [exact Hs|exact Hd].
Defined.

(** X10 at iteration 1. *)
Lemma baseline_zero_reset_interval_witness :
  button_train_state (server Scenes.w_zero_reset) = true /\
  opacity_reset_interval (optimzer_args (self Scenes.w_zero_reset)) = 0 /\
  result (train_step_3dgs (O:=Toy.objects) 1 1.0%float tt Scenes.w_zero_reset)
  = Raise ZeroDivisionError.
Proof.
  split; [reflexivity|]. split; [reflexivity|].
  exact (proj1 (baseline_zero_reset_interval (O:=Toy.objects) 1 1.0%float tt
                  Scenes.w_zero_reset eq_refl eq_refl)).
Defined.

(** X13 on a run with every iteration in the checkpoint list. *)
Lemma baseline_run_saves_nothing_witness :
  checkbox_pts_mode (server Toy.w_points) = true /\
  files (world (train (O:=Toy.objects) Toy.first_pick [1; 2; 3] (-1) true Toy.w_points))
  = ∅.
Proof.
  split; [reflexivity|].
  exact (proj1 (baseline_run_saves_nothing (O:=Toy.objects) Toy.first_pick [1; 2; 3]
                  (-1) true Toy.w_points eq_refl)).
Defined.

(** X14 on a run of three iterations. *)
Lemma run_reports_in_order_witness :
  button_train_state (server Toy.w_init) = true /\
  checkbox_pts_mode (server Toy.w_init) = false /\
  exists n,
    reported (events (train (O:=Toy.objects) Toy.first_pick [] (-1) true Toy.w_init))
    = take n [1; 2; 3].
Proof.
  split; [reflexivity|]. split; [reflexivity|].
  exact (proj1 (run_reports_in_order (O:=Toy.objects) Toy.first_pick [] (-1) true
                  Toy.w_init eq_refl eq_refl)).
Defined.

(** X15: the step of iteration 3 and the checkpoint of iteration 2. *)
Lemma step_keeps_other_checkpoints_witness :
  2 <> 3 /\
  files (world (train_step (O:=Toy.objects) 3 1.0%float [2; 3] tt Toy.w0))
    !! checkpoint_path "out" 2
  = files Toy.w0 !! checkpoint_path "out" 2.
Proof.
  assert (H : 2 <> 3) by discriminate.
  split; [exact H|].
  exact (proj1 (step_keeps_other_checkpoints (O:=Toy.objects) 3 2 1.0%float [2; 3] tt
                  Toy.w0 H)).
Defined.

(** X16 on a fresh run of three iterations with an empty checkpoint
    list. *)
Lemma main_leaves_final_checkpoint_witness :
  let o := main (O:=Toy.objects) Toy.data Toy.opt Toy.pipe [] (-1) false true None
             "run" [1.0; 0.5; 0.25]%float 1.0%float Toy.first_pick Toy.w_init in
  result o = Ok tt /\
  exists snap,
    files (world o) !! checkpoint_path (model_path (self (world o))) 3 = Some (snap, 3).
Proof.
  assert (Hok : result (main (O:=Toy.objects) Toy.data Toy.opt Toy.pipe [] (-1) false
                          true None "run" [1.0; 0.5; 0.25]%float 1.0%float
                          Toy.first_pick Toy.w_init) = Ok tt)
    by (vm_compute; reflexivity).
  split; [exact Hok|].
  apply (main_leaves_final_checkpoint (O:=Toy.objects) Toy.data Toy.opt Toy.pipe []
           (-1) false true "run" [1.0; 0.5; 0.25]%float 1.0%float Toy.first_pick
           Toy.w_init eq_refl eq_refl).
  - reflexivity.
  - exact Hok.
Defined.

(** X18 on a scene without cameras. *)
Lemma train_without_cameras_witness :
  train_cameras (self Scenes.w_no_cameras) = [] /\
  result (train (O:=Toy.objects) Toy.first_pick [] (-1) false Scenes.w_no_cameras)
  = Raise ValueError.
Proof.
  split; [reflexivity|].
  refine (proj1 (train_without_cameras (O:=Toy.objects) Toy.first_pick [] (-1) false
                   Scenes.w_no_cameras eq_refl _)).
  reflexivity.
Defined.

(** X19 on two iterations over the three cameras of [Toy]. *)
Lemma train_loop_picks_witness :
  train_loop (O:=Toy.objects) Toy.first_pick [] (-1) [1; 2] [] Toy.w0
  = run_steps (O:=Toy.objects) Toy.first_pick [] (-1)
      (zip [1; 2]
         (viewpoint_picks Toy.first_pick [1.0; 0.5; 0.25]%float [1; 2] []))
      Toy.w0.
Proof.
  apply (train_loop_picks (O:=Toy.objects) Toy.first_pick [] (-1)
           [1.0; 0.5; 0.25]%float).
  - discriminate.
  - reflexivity.
Defined.

(** X20 on a pass over the three cameras of [Toy]. *)
Lemma each_camera_once_per_pass_witness :
  viewpoint_picks (X:=Toy.externals) Toy.first_pick [1.0; 0.5; 0.25]%float [1; 2; 3] []
  ≡ₚ [1.0; 0.5; 0.25]%float.
Proof.
  refine (proj1 (each_camera_once_per_pass (X:=Toy.externals) Toy.first_pick
                   [1.0; 0.5; 0.25]%float [1; 2; 3] [4] _ _)).
  - discriminate.
  - reflexivity.
Defined.

(** X21 on a checkpoint name that is not on the disk, where the
    Tensorboard import has failed: three lines are printed. *)
Lemma missing_checkpoint_aborts_witness :
  files NoTensorboard.w0 !! "chkpnt7000.pth" = None /\
  let o := main (X:=NoTensorboard.externals) (O:=NoTensorboard.objects)
             Toy.data Toy.opt Toy.pipe [] (-1) false true
             (Some "chkpnt7000.pth") "run" [1.0; 0.5; 0.25]%float 1.0%float
             NoTensorboard.first_pick NoTensorboard.w0 in
  result o = Raise (FileNotFoundError "chkpnt7000.pth") /\
  events o
  = [EvPrint "Optimizing out"; EvPrint "Output folder: out";
     EvPrint "Tensorboard not available: not logging progress"].
Proof.
  assert (Hf : files NoTensorboard.w0 !! "chkpnt7000.pth" = None)
    by (vm_compute; reflexivity).
  split; [exact Hf|].
  assert (Hn : "chkpnt7000.pth" <> "") by discriminate.
  destruct (missing_checkpoint_aborts (X:=NoTensorboard.externals)
              (O:=NoTensorboard.objects) Toy.data Toy.opt Toy.pipe [] (-1) false
              true "chkpnt7000.pth" "run" [1.0; 0.5; 0.25]%float 1.0%float
              NoTensorboard.first_pick NoTensorboard.w0 Hn Hf) as (Hr & He & _).
  split; [exact Hr|exact He].
Defined.
